(** * PPT_Generator: the manifest-driven synthesis engine

    A shallow embedding of the decision logic of [improved_ppt_processor.py]
    and [llm_integration.py] (with the retry loop of [retry_handler.py] and
    the decorator of [error_handler.py]), followed by the properties of the
    natural-language specification stated and settled on that embedding.

    Conventions of the embedding.
    - Python values that travel as JSON (the raw template data, the manifest,
      the content blocks) are values of [pyval]; a [dict] is an association
      list in insertion order, with string keys.
    - A Python [str] is a [string], one [ascii] per character (code points
      below 256).
    - A call that may raise returns a [res]; [try]/[except] is a [match] on
      it.  Code that mutates an object and may raise half way returns the
      object as it stands together with the outcome.
    - The python-pptx objects (presentation, layouts, shapes, text frames,
      runs, fonts) are records holding the attributes the code reads and
      writes. *)

From Stdlib Require Import ZArith NArith List String Ascii Bool Lia.
From Stdlib Require Import DecimalString HexadecimalString.
Import ListNotations.

Set Warnings "-register-all".

Open Scope string_scope.
Open Scope Z_scope.

(** ** Exceptions and fallible computations *)

Inductive exn : Type :=
| AttributeError
| TypeError
| ValueError
| KeyError
| IndexError
| JSONDecodeError
| LLMError
| APIError
| PackageNotFoundError.

Inductive res (A : Type) : Type :=
| Ok (a : A)
| Raise (e : exn).

Arguments Ok {A} a.
Arguments Raise {A} e.

Definition bind {A B : Type} (c : res A) (k : A -> res B) : res B :=
  match c with
  | Ok a => k a
  | Raise e => Raise e
  end.

Notation "x <- c ;; k" := (bind c (fun x => k))
  (at level 61, c at next level, right associativity).

Definition raises {A : Type} (c : res A) : bool :=
  match c with
  | Ok _ => false
  | Raise _ => true
  end.

(** ** Strings the way Python treats them *)

Module PyStr.

(** [str.isspace] on the characters below 256: TAB..CR, FS..US, space, NEL
    and the no-break space. *)
Definition is_space (c : ascii) : bool :=
  let n := nat_of_ascii c in
  ((9 <=? n) && (n <=? 13) || (28 <=? n) && (n <=? 32)
   || (n =? 133) || (n =? 160))%nat.

Fixpoint lstrip (s : string) : string :=
  match s with
  | EmptyString => EmptyString
  | String c r => if is_space c then lstrip r else s
  end.

Fixpoint rstrip (s : string) : string :=
  match s with
  | EmptyString => EmptyString
  | String c r =>
      let r' := rstrip r in
      if is_space c && (r' =? "")%string then EmptyString else String c r'
  end.

(** [s.strip()] *)
Definition strip (s : string) : string := rstrip (lstrip s).

(** A string is blank when nothing is left of it after [strip]. *)
Definition blank (s : string) : bool := (strip s =? "")%string.

Definition lower_char (c : ascii) : ascii :=
  let n := nat_of_ascii c in
  if ((65 <=? n) && (n <=? 90)
      || (192 <=? n) && (n <=? 222) && negb (n =? 215))%nat
  then ascii_of_nat (n + 32) else c.

(** [s.lower()] *)
Fixpoint lower (s : string) : string :=
  match s with
  | EmptyString => EmptyString
  | String c r => String (lower_char c) (lower r)
  end.

(** [pat in s] *)
Fixpoint contains (pat s : string) : bool :=
  prefix pat s ||
  match s with
  | EmptyString => false
  | String _ r => contains pat r
  end.

(** [s.find(c)] for a one-character needle: the first index, or -1. *)
Fixpoint find (c : ascii) (s : string) : Z :=
  match s with
  | EmptyString => -1
  | String d r =>
      if Ascii.eqb c d then 0
      else let i := find c r in if i =? -1 then -1 else i + 1
  end.

(** [s.rfind(c)]: the last index, or -1. *)
Fixpoint rfind (c : ascii) (s : string) : Z :=
  match s with
  | EmptyString => -1
  | String d r =>
      let i := rfind c r in
      if i =? -1 then (if Ascii.eqb c d then 0 else -1) else i + 1
  end.

(** [s[i:j]] for indices that are not negative. *)
Definition slice (s : string) (i j : Z) : string :=
  substring (Z.to_nat i) (Z.to_nat (j - i)) s.

(** [s.replace(c, '')] for a one-character [c]. *)
Fixpoint remove_char (c : ascii) (s : string) : string :=
  match s with
  | EmptyString => EmptyString
  | String d r =>
      if Ascii.eqb c d then remove_char c r else String d (remove_char c r)
  end.

(** [sep.join(l)] *)
Fixpoint join (sep : string) (l : list string) : string :=
  match l with
  | [] => ""
  | [x] => x
  | x :: xs => x ++ sep ++ join sep xs
  end.

(** [s.split(c)] for a one-character separator: never the empty list. *)
Fixpoint split (c : ascii) (s : string) : list string :=
  match s with
  | EmptyString => [""]
  | String d r =>
      if Ascii.eqb c d then "" :: split c r
      else match split c r with
           | x :: xs => String d x :: xs
           | [] => [String d ""]
           end
  end.

Definition newline : ascii := ascii_of_nat 10.
Definition nl : string := String newline "".

(** [f"{n}"] for a natural number. *)
Definition decimal (n : nat) : string :=
  DecimalString.NilZero.string_of_uint (Nat.to_uint n).

Fixpoint zeros (n : nat) : string :=
  match n with
  | O => ""
  | S k => String "0" (zeros k)
  end.

(** [f"{n:06x}"] for a number that is not negative. *)
Definition hex06 (n : N) : string :=
  let h := HexadecimalString.NilZero.string_of_uint (N.to_hex_uint n) in
  zeros (6 - String.length h) ++ h.

End PyStr.

(** ** Python values *)

(** A binary64 number: not-a-number, an infinity, or [mantissa * 2^exponent]. *)
Inductive pyfloat : Type :=
| FNan
| FInf (negative : bool)
| FFinite (mantissa exponent : Z).

Inductive pyval : Type :=
| PNone
| PBool (b : bool)
| PInt (z : Z)
| PFloat (f : pyfloat)
| PStr (s : string)
| PList (l : list pyval)
| PDict (d : list (string * pyval)).

Definition dict : Type := list (string * pyval).

Module Py.

(** Lookup of a key in a dict. *)
Fixpoint lookup (d : dict) (k : string) : option pyval :=
  match d with
  | [] => None
  | (k', v) :: r => if (k' =? k)%string then Some v else lookup r k
  end.

(** [d[k] = v]: the value is replaced in place, a new key goes last. *)
Fixpoint store (d : dict) (k : string) (v : pyval) : dict :=
  match d with
  | [] => [(k, v)]
  | (k', v') :: r =>
      if (k' =? k)%string then (k, v) :: r else (k', v') :: store r k v
  end.

(** [bool(v)] *)
Definition truthy (v : pyval) : bool :=
  match v with
  | PNone => false
  | PBool b => b
  | PInt z => negb (z =? 0)
  | PFloat (FFinite m _) => negb (m =? 0)
  | PFloat _ => true
  | PStr s => negb (s =? "")%string
  | PList l => match l with [] => false | _ => true end
  | PDict d => match d with [] => false | _ => true end
  end.

(** [v.get(k, default)]: only a dict has the method. *)
Definition get (v : pyval) (k : string) (default : pyval) : res pyval :=
  match v with
  | PDict d => Ok (match lookup d k with Some x => x | None => default end)
  | _ => Raise AttributeError
  end.

(** [v == s] for a string constant [s]. *)
Definition eq_str (v : pyval) (s : string) : bool :=
  match v with
  | PStr t => (t =? s)%string
  | _ => false
  end.

(** [v.strip()], [v.lower()]: only a str has the methods. *)
Definition strip (v : pyval) : res string :=
  match v with
  | PStr s => Ok (PyStr.strip s)
  | _ => Raise AttributeError
  end.

Definition lower (v : pyval) : res string :=
  match v with
  | PStr s => Ok (PyStr.lower s)
  | _ => Raise AttributeError
  end.

(** [len(v)] *)
Definition len (v : pyval) : res Z :=
  match v with
  | PStr s => Ok (Z.of_nat (String.length s))
  | PList l => Ok (Z.of_nat (List.length l))
  | PDict d => Ok (Z.of_nat (List.length d))
  | _ => Raise TypeError
  end.

Fixpoint chars (s : string) : list pyval :=
  match s with
  | EmptyString => []
  | String c r => PStr (String c "") :: chars r
  end.

(** The items a [for] loop over [v] visits. *)
Definition iter (v : pyval) : res (list pyval) :=
  match v with
  | PList l => Ok l
  | PStr s => Ok (chars s)
  | PDict d => Ok (map (fun kv => PStr (fst kv)) d)
  | _ => Raise TypeError
  end.

(** [v[0]] *)
Definition item0 (v : pyval) : res pyval :=
  match v with
  | PList l => match l with x :: _ => Ok x | [] => Raise IndexError end
  | PStr s =>
      match s with
      | String c _ => Ok (PStr (String c ""))
      | EmptyString => Raise IndexError
      end
  | PDict _ => Raise KeyError
  | _ => Raise TypeError
  end.

End Py.

(** ** Manifest Builder ([llm_integration.py]) *)

Module ManifestBuilder.

(** [_create_fallback_manifest]: the three [raw_data.get] calls are the only
    steps that can raise. *)
Definition _create_fallback_manifest (raw_data : pyval) : res pyval :=
  slide_size <- Py.get raw_data "slide_size"
                  (PDict [("width_emu", PInt 9144000);
                          ("height_emu", PInt 6858000)]) ;;
  layouts <- Py.get raw_data "layouts" (PList []) ;;
  assets <- Py.get raw_data "images" (PList []) ;;
  Ok (PDict
    [("slide_size", slide_size);
     ("theme", PDict
        [("palette", PDict
            [("primary", PStr "#1f4e79");
             ("secondary", PStr "#4472c4");
             ("accent", PList [PStr "#4472c4"; PStr "#ed7d31"]);
             ("text", PStr "#000000");
             ("background", PStr "#ffffff")]);
         ("fonts", PDict
            [("title_family", PStr "Calibri");
             ("body_family", PStr "Calibri")])]);
     ("layouts", layouts);
     ("text_defaults", PDict
        [("title", PDict
            [("family", PStr "Calibri"); ("size_pt", PInt 32);
             ("bold", PBool true); ("color", PStr "primary")]);
         ("body", PList
            [PDict [("level", PInt 0); ("family", PStr "Calibri");
                    ("size_pt", PInt 18); ("color", PStr "text")]])]);
     ("assets", assets);
     ("rules", PDict
        [("title_color", PStr "primary");
         ("body_color", PStr "text");
         ("logo_policy", PStr "Apply logos as found in template")])]).

(** The six top-level keys of the manifest schema. *)
Definition required_keys : list string :=
  ["slide_size"; "theme"; "layouts"; "text_defaults"; "assets"; "rules"].

Definition has_key (v : pyval) (k : string) : bool :=
  match v with
  | PDict d => match Py.lookup d k with Some _ => true | None => false end
  | _ => false
  end.

Definition schema_valid (v : pyval) : bool :=
  forallb (has_key v) required_keys.

(** [is_retryable_error]: the configuration [RetryConfigs.LLM_API] leaves
    [retryable_errors] at its default, which lists [Exception]; the final
    [isinstance] test therefore accepts whatever the loop has caught. *)
Definition is_retryable_error (e : exn) : bool := true.

(** [RetryableOperation.execute]: [remaining] counts the retries left and
    [attempt] the calls made so far; the callee is indexed by the attempt,
    since a remote call need not answer twice the same. *)
Fixpoint execute_from {A : Type} (func : nat -> res A)
    (remaining attempt : nat) : res A :=
  match func attempt with
  | Ok result => Ok result
  | Raise e =>
      match remaining with
      | O => Raise e
      | S k =>
          if is_retryable_error e then execute_from func k (S attempt)
          else Raise e
      end
  end.

(** [RetryConfigs.LLM_API.max_retries] *)
Definition LLM_API_max_retries : nat := 2.

Definition execute {A : Type} (func : nat -> res A) : res A :=
  execute_from func LLM_API_max_retries 0.

(** [handle_llm_errors]: whatever escapes is raised again as [LLMError]. *)
Definition handle_llm_errors {A : Type} (c : res A) : res A :=
  match c with
  | Ok a => Ok a
  | Raise _ => Raise LLMError
  end.

(** The client: its provider name and what the provider's API answers to the
    manifest prompt at each call ([_call_openai], [_call_anthropic],
    [_call_gemini]: the text of the reply, or an exception). *)
Record llm_client : Type := {
  provider : string;
  api_reply : nat -> res pyval
}.

Section Builder.

(** [json.loads] *)
Variable json_loads : string -> res pyval.

(** [_parse_manifest_response]: the handler prints and raises again. *)
Definition _parse_manifest_response (response : pyval) : res pyval :=
  response <- Py.strip response ;;
  let start_idx := PyStr.find "{" response in
  let end_idx := PyStr.rfind "}" response + 1 in
  if negb (start_idx =? -1) && negb (end_idx =? -1) then
    json_loads (PyStr.slice response start_idx end_idx)
  else Raise ValueError.

Definition make_manifest_call (self : llm_client) (attempt : nat)
  : res pyval :=
  response <-
    (if (provider self =? "openai")%string then api_reply self attempt
     else if (provider self =? "anthropic")%string then api_reply self attempt
     else if (provider self =? "gemini")%string then api_reply self attempt
     else Raise LLMError) ;;
  _parse_manifest_response response.

(** [generate_template_manifest]: building the prompt cannot fail on JSON
    data and is left out; the candidate that [execute] returns is returned
    as it is, and any exception of [execute] leads to the fallback. *)
Definition generate_template_manifest (self : llm_client)
    (raw_template_data : pyval) : res pyval :=
  handle_llm_errors
    match execute (make_manifest_call self) with
    | Ok manifest => Ok manifest
    | Raise _ => _create_fallback_manifest raw_template_data
    end.

End Builder.

End ManifestBuilder.

(** ** The document model (python-pptx objects as the code reads them) *)

Module Pptx.

(** [run.font]: an attribute that was never assigned is [None]. *)
Record font : Type := {
  font_name : option pyval;
  font_size : option Z;
  font_bold : option bool;
  font_color_rgb : option (Z * Z * Z)
}.

Definition plain_font : font :=
  {| font_name := None; font_size := None; font_bold := None;
     font_color_rgb := None |}.

Record run : Type := { run_text : string; run_font : font }.

Record paragraph : Type := { runs : list run }.

Record text_frame : Type := { paragraphs : list paragraph }.

(** [shape.placeholder_format]: [idx] and [type] (TITLE is 1, BODY is 2). *)
Record placeholder_format : Type := { ph_idx : Z; ph_type : Z }.

(** What reading a picture gives: its box and [len(shape.image.blob)]. *)
Record picture_data : Type := {
  pic_left : Z; pic_top : Z; pic_width : Z; pic_height : Z;
  pic_size_bytes : Z
}.

(** A shape on a slide.  [sh_placeholder] is [None] when the shape has no
    [placeholder_format], [sh_text_frame] is [None] when it has no
    [text_frame]; [sh_picture] is what reading the box and the image of a
    picture shape gives. *)
Record shape : Type := {
  sh_is_picture : bool;
  sh_placeholder : option placeholder_format;
  sh_text_frame : option text_frame;
  sh_picture : res picture_data
}.

(** What reading a layout placeholder gives: [str(placeholder_format.type)]
    and the box. *)
Record placeholder_data : Type := {
  pd_type_repr : string;
  pd_left : Z; pd_top : Z; pd_width : Z; pd_height : Z
}.

(** A slide layout: its name, what each of its placeholders reads as, and
    the shapes [add_slide] puts on a slide made from it. *)
Record slide_layout : Type := {
  layout_name : string;
  layout_placeholders : list (res placeholder_data);
  layout_cloned_shapes : list shape
}.

Record slide : Type := {
  sl_layout : option slide_layout;
  sl_shapes : list shape;
  sl_notes : option string
}.

(** [theme.color_scheme[j]]: [hasattr(color, 'rgb')] and the value. *)
Record scheme_color : Type := { color_rgb : option N }.

(** [theme.font_scheme]: for the major and the minor font, [None] when the
    font is not there, else what reading its [latin] name gives. *)
Record font_scheme : Type := {
  major_font_latin : option (res pyval);
  minor_font_latin : option (res pyval)
}.

Record theme : Type := {
  theme_color_scheme : option (list scheme_color);
  theme_font_scheme : res (option font_scheme)
}.

Record slide_master : Type := { master_theme : res (option theme) }.

Record presentation : Type := {
  slide_width : option Z;
  slide_height : option Z;
  slide_masters : list slide_master;
  slide_layouts : list slide_layout;
  slides : list slide
}.



(** [shape.text = s]: the content is cleared and one paragraph is added per
    line, holding one run with fresh formatting when the line is not empty. *)
Definition paragraph_of_line (line : string) : paragraph :=
  {| runs := if (line =? "")%string then []
             else [{| run_text := line; run_font := plain_font |}] |}.

Definition frame_of_text (s : string) : text_frame :=
  {| paragraphs := map paragraph_of_line (PyStr.split PyStr.newline s) |}.

(** [prs.slides.add_slide(layout)] *)
Definition add_slide (layout : slide_layout) : slide :=
  {| sl_layout := Some layout;
     sl_shapes := layout_cloned_shapes layout;
     sl_notes := None |}.

End Pptx.

(** ** Geometry and Theme Extractor ([extract_raw_template_data]) *)

Module Extractor.
Import Pptx.

(** The chain of [if j == 0 ... elif j == 9] over the default name. *)
Definition color_name (j : nat) : string :=
  match j with
  | 0%nat => "bg1"
  | 1%nat => "text1"
  | 2%nat => "bg2"
  | 3%nat => "text2"
  | 4%nat => "accent1"
  | 5%nat => "accent2"
  | 6%nat => "accent3"
  | 7%nat => "accent4"
  | 8%nat => "accent5"
  | 9%nat => "accent6"
  | _ => "theme_color_" ++ PyStr.decimal j
  end.

(** One turn of [for j in range(12)]: an index past the end of the scheme
    raises inside the [try] and is passed over. *)
Definition color_step (scheme : list scheme_color) (colors : dict) (j : nat)
  : dict :=
  match nth_error scheme j with
  | Some color =>
      match color_rgb color with
      | Some rgb =>
          Py.store colors (color_name j) (PStr ("#" ++ PyStr.hex06 rgb))
      | None => colors
      end
  | None => colors
  end.

Definition scheme_colors (scheme : list scheme_color) (colors : dict) : dict :=
  fold_left (color_step scheme) (seq 0 12) colors.

(** The font block of one master, inside its own [try]: a name that cannot
    be read ends the block, what was stored before stays. *)
Definition scheme_fonts (t : option theme) (fonts : dict) : dict :=
  match t with
  | Some th =>
      match theme_font_scheme th with
      | Ok (Some fs) =>
          match major_font_latin fs with
          | Some (Raise _) => fonts
          | major =>
              let fonts1 :=
                match major with
                | Some (Ok latin) => Py.store fonts "major" latin
                | _ => fonts
                end in
              match minor_font_latin fs with
              | Some (Ok latin) => Py.store fonts1 "minor" latin
              | _ => fonts1
              end
          end
      | _ => fonts
      end
  | None => fonts
  end.

(** [for i, master in enumerate(prs.slide_masters)] under the outer [try]:
    a master whose theme cannot be read ends the loop, what was gathered
    stays. *)
Fixpoint theme_loop (masters : list slide_master) (colors fonts : dict)
  : dict * dict :=
  match masters with
  | [] => (colors, fonts)
  | master :: rest =>
      match master_theme master with
      | Raise _ => (colors, fonts)
      | Ok t =>
          let colors' :=
            match t with
            | Some th =>
                match theme_color_scheme th with
                | Some scheme => scheme_colors scheme colors
                | None => colors
                end
            | None => colors
            end in
          theme_loop rest colors' (scheme_fonts t fonts)
      end
  end.

(** [str(placeholder.placeholder_format.type).split('.')[-1]] *)
Definition enum_name (type_repr : string) : string :=
  last (PyStr.split "." type_repr) "".

Definition ph_data (pd : placeholder_data) : pyval :=
  PDict [("kind", PStr (enum_name (pd_type_repr pd)));
         ("left", PInt (pd_left pd));
         ("top", PInt (pd_top pd));
         ("width", PInt (pd_width pd));
         ("height", PInt (pd_height pd))].

(** [for placeholder in layout.placeholders]: one that cannot be read is
    passed over. *)
Fixpoint placeholders_loop (phs : list (res placeholder_data)) : list pyval :=
  match phs with
  | [] => []
  | Ok pd :: rest => ph_data pd :: placeholders_loop rest
  | Raise _ :: rest => placeholders_loop rest
  end.

Definition layout_data (i : nat) (layout : slide_layout) : pyval :=
  PDict [("index", PInt (Z.of_nat i));
         ("name", PStr (layout_name layout));
         ("placeholders", PList (placeholders_loop (layout_placeholders layout)))].

Fixpoint layouts_loop (i : nat) (layouts : list slide_layout) : list pyval :=
  match layouts with
  | [] => []
  | layout :: rest => layout_data i layout :: layouts_loop (S i) rest
  end.

Definition img_data (slide_idx shape_idx : nat) (p : picture_data) : pyval :=
  PDict [("id", PStr ("img_" ++ PyStr.decimal slide_idx ++ "_"
                      ++ PyStr.decimal shape_idx));
         ("left", PInt (pic_left p));
         ("top", PInt (pic_top p));
         ("width", PInt (pic_width p));
         ("height", PInt (pic_height p));
         ("usage_hint", PStr ("appears on slide "
                              ++ PyStr.decimal (slide_idx + 1)));
         ("size_bytes", PInt (pic_size_bytes p))].

Fixpoint shapes_loop (slide_idx shape_idx : nat) (shapes : list shape)
  : list pyval :=
  match shapes with
  | [] => []
  | sh :: rest =>
      let here :=
        if sh_is_picture sh then
          match sh_picture sh with
          | Ok p => [img_data slide_idx shape_idx p]
          | Raise _ => []
          end
        else [] in
      here ++ shapes_loop slide_idx (S shape_idx) rest
  end.

Fixpoint slides_loop (slide_idx : nat) (sls : list slide) : list pyval :=
  match sls with
  | [] => []
  | sl :: rest =>
      shapes_loop slide_idx 0 (sl_shapes sl) ++ slides_loop (S slide_idx) rest
  end.

(** [int(x)] of a length that may be missing. *)
Definition int_of (x : option Z) : res Z :=
  match x with
  | Some z => Ok z
  | None => Raise TypeError
  end.

(** The body of the outer [try], from the opened presentation on. *)
Definition extract_body (prs : presentation) : res pyval :=
  width_emu <- int_of (slide_width prs) ;;
  height_emu <- int_of (slide_height prs) ;;
  let '(colors, fonts) := theme_loop (slide_masters prs) [] [] in
  Ok (PDict
    [("slide_size", PDict [("width_emu", PInt width_emu);
                           ("height_emu", PInt height_emu)]);
     ("theme", PDict [("colors", PDict colors); ("fonts", PDict fonts)]);
     ("layouts", PList (layouts_loop 0 (slide_layouts prs)));
     ("images", PList (slides_loop 0 (slides prs)))]).

(** The dictionary returned by the outer handler. *)
Definition default_raw_data : pyval :=
  PDict
    [("slide_size", PDict [("width_emu", PInt 9144000);
                           ("height_emu", PInt 6858000)]);
     ("theme", PDict [("colors", PDict []); ("fonts", PDict [])]);
     ("layouts", PList []);
     ("images", PList [])].

(** [extract_raw_template_data]: [opened] is what [Presentation(template_path)]
    gives, an exception when the package cannot be read. *)
Definition extract_raw_template_data (opened : res presentation) : res pyval :=
  match (prs <- opened ;; extract_body prs) with
  | Ok raw_data => Ok raw_data
  | Raise _ => Ok default_raw_data
  end.

End Extractor.

(** ** Layout Resolver ([_resolve_layout_from_manifest]) *)

Module Resolver.
Import Pptx.

(** A [for] loop that returns at the first item passing [test]; a test that
    raises ends the loop with the exception. *)
Fixpoint first_where (test : pyval -> res bool) (items : list pyval)
  : res (option pyval) :=
  match items with
  | [] => Ok None
  | x :: rest =>
      b <- test x ;;
      if b then Ok (Some x) else first_where test rest
  end.

Definition is_title_content (layout_def : pyval) : res bool :=
  a <- Py.get layout_def "archetype" PNone ;;
  Ok (Py.eq_str a "title_content").

Definition is_two_content (layout_def : pyval) : res bool :=
  a <- Py.get layout_def "archetype" PNone ;;
  Ok (Py.eq_str a "two_content").

Definition is_any_content (layout_def : pyval) : res bool :=
  a <- Py.get layout_def "archetype" (PStr "") ;;
  s <- Py.lower a ;;
  Ok (PyStr.contains "content" s).

Definition is_section_or_title_only (layout_def : pyval) : res bool :=
  a <- Py.get layout_def "archetype" PNone ;;
  Ok (Py.eq_str a "section_header" || Py.eq_str a "title_only").

(** [prs.slide_layouts[1] if len(prs.slide_layouts) > 1 else
    prs.slide_layouts[0]] *)
Definition default_layout (layouts : list slide_layout) : res slide_layout :=
  match nth_error layouts (if (1 <? List.length layouts)%nat then 1 else 0) with
  | Some layout => Ok layout
  | None => Raise IndexError
  end.

(** [_find_layout_by_name] *)
Definition _find_layout_by_name (layout_name : pyval) (prs : presentation)
  : option slide_layout :=
  match List.find (fun layout => Py.eq_str layout_name (Pptx.layout_name layout))
                  (slide_layouts prs) with
  | Some layout => Some layout
  | None =>
      match default_layout (slide_layouts prs) with
      | Ok layout => Some layout
      | Raise _ => None
      end
  end.

Section Resolution.

(** What the resolver does with the manifest entry it settles on: every
    [return] of the body hands the entry to [found]. *)
Context {A : Type} (found : pyval -> res A).

(** The three loops run when the block has content. *)
Definition content_tier (manifest_layouts : pyval) (content_length : Z)
  : res (option pyval) :=
  r <- (items <- Py.iter manifest_layouts ;;
        first_where is_title_content items) ;;
  match r with
  | Some layout_def => Ok (Some layout_def)
  | None =>
      r <- (if content_length >? 200 then
              items <- Py.iter manifest_layouts ;;
              first_where is_two_content items
            else Ok None) ;;
      match r with
      | Some layout_def => Ok (Some layout_def)
      | None =>
          items <- Py.iter manifest_layouts ;;
          first_where is_any_content items
      end
  end.

(** The body of the [try] of [_resolve_layout_from_manifest]; [Ok None] is
    [return None]. *)
Definition resolve (slide_content manifest : pyval) : res (option A) :=
  manifest_layouts <- Py.get manifest "layouts" (PList []) ;;
  if negb (Py.truthy manifest_layouts) then Ok None else
  title <- Py.get slide_content "title" (PStr "") ;;
  _ <- Py.strip title ;;
  content <- Py.get slide_content "content" (PStr "") ;;
  stripped <- Py.strip content ;;
  let has_content := negb (stripped =? "")%string in
  content_length <- Py.len content ;;
  content_type <- Py.get slide_content "layout_hint" (PStr "") ;;
  r <- (if has_content && (content_length >? 0) then
          content_tier manifest_layouts content_length
        else Ok None) ;;
  match r with
  | Some layout_def => a <- found layout_def ;; Ok (Some a)
  | None =>
      r <- (if Py.eq_str content_type "section" || negb has_content then
              items <- Py.iter manifest_layouts ;;
              first_where is_section_or_title_only items
            else Ok None) ;;
      match r with
      | Some layout_def => a <- found layout_def ;; Ok (Some a)
      | None =>
          if Py.truthy manifest_layouts then
            layout_def <- Py.item0 manifest_layouts ;;
            a <- found layout_def ;; Ok (Some a)
          else Ok None
      end
  end.

End Resolution.

(** [return self._find_layout_by_name(layout_def.get('name'), prs)] *)
Definition find_for (prs : presentation) (layout_def : pyval)
  : res (option slide_layout) :=
  name <- Py.get layout_def "name" PNone ;;
  Ok (_find_layout_by_name name prs).

(** [_resolve_layout_from_manifest]: the handler returns [None]. *)
Definition _resolve_layout_from_manifest (slide_content manifest : pyval)
    (slide_idx : nat) (prs : presentation) : option slide_layout :=
  match resolve (find_for prs) slide_content manifest with
  | Ok (Some layout) => layout
  | Ok None => None
  | Raise _ => None
  end.

(** The manifest entry the resolver settles on. *)
Definition resolved_layout_def (slide_content manifest : pyval)
  : res (option pyval) :=
  resolve (fun layout_def => Ok layout_def) slide_content manifest.

(** [archetype] of a manifest entry is the string [a]. *)
Definition has_archetype (layout_def : pyval) (a : string) : bool :=
  match Py.get layout_def "archetype" PNone with
  | Ok v => Py.eq_str v a
  | Raise _ => false
  end.

(** A content-capable entry: its archetype is a string containing
    [content] (which [title_content] and [two_content] do). *)
Definition content_capable (layout_def : pyval) : bool :=
  match Py.get layout_def "archetype" PNone with
  | Ok (PStr a) => PyStr.contains "content" a
  | _ => false
  end.

End Resolver.

(** ** Asset Placer ([_add_manifest_assets]) *)

Module AssetPlacer.

(** [should_apply] for one asset of the loop. *)
Definition should_apply (asset : pyval) (slide_idx : nat) : res bool :=
  apply_policy <- Py.get asset "apply_on" (PStr "none") ;;
  Ok (Py.eq_str apply_policy "all"
      || (Py.eq_str apply_policy "title_only" && (slide_idx =? 0)%nat)).

(** The loop: the assets for which the branch under [should_apply] runs, in
    order; an asset that raises ends the loop. *)
Fixpoint assets_loop (assets : list pyval) (slide_idx : nat) : list pyval :=
  match assets with
  | [] => []
  | asset :: rest =>
      match should_apply asset slide_idx with
      | Ok true => asset :: assets_loop rest slide_idx
      | Ok false => assets_loop rest slide_idx
      | Raise _ => []
      end
  end.

(** [_add_manifest_assets]: the slide is not touched (the branch reports
    the asset it would add); the result is the list of assets applied. *)
Definition _add_manifest_assets (manifest : pyval) (slide_idx : nat)
  : list pyval :=
  match (assets <- Py.get manifest "assets" (PList []) ;; Py.iter assets) with
  | Ok items => assets_loop items slide_idx
  | Raise _ => []
  end.

End AssetPlacer.

(** ** Mutation with exceptions

    A computation over a mutable object of type [S]: it returns the object
    as it stands when it stops, and either a value or the exception. *)

Definition SE (S A : Type) : Type := S -> S * res A.

Definition se_ret {S A : Type} (a : A) : SE S A := fun s => (s, Ok a).

Definition se_bind {S A B : Type} (c : SE S A) (k : A -> SE S B) : SE S B :=
  fun s =>
    match c s with
    | (s', Ok a) => k a s'
    | (s', Raise e) => (s', Raise e)
    end.

Definition se_lift {S A : Type} (c : res A) : SE S A := fun s => (s, c).

Definition se_get {S : Type} : SE S S := fun s => (s, Ok s).

Definition se_modify {S : Type} (f : S -> S) : SE S unit :=
  fun s => (f s, Ok tt).

(** [try: c  except: pass] *)
Definition se_try {S : Type} (c : SE S unit) : SE S unit :=
  fun s => (fst (c s), Ok tt).

Notation "x <~ c ;; k" := (se_bind c (fun x => k))
  (at level 61, c at next level, right associativity).

(** ** Styling Applier ([_apply_text_formatting], [_apply_manifest_styling]) *)

Module Styling.
Import Pptx.

(** [palette.get(key)] for a key that is itself a value: a list or a dict
    cannot be hashed, and no other value than a string is a key of a
    palette. *)
Definition get_key (v key : pyval) : res pyval :=
  match v with
  | PDict d =>
      match key with
      | PStr k => Ok (match Py.lookup d k with Some x => x | None => PNone end)
      | PList _ | PDict _ => Raise TypeError
      | _ => Ok PNone
      end
  | _ => Raise AttributeError
  end.

(** [v.replace('#', '')]: only a str has the method. *)
Definition replace_hash (v : pyval) : res string :=
  match v with
  | PStr s => Ok (PyStr.remove_char "#" s)
  | _ => Raise AttributeError
  end.

(** [RGBColor(r, g, b)] accepts integers from 0 to 255. *)
Definition RGBColor (r g b : Z) : res (Z * Z * Z) :=
  if (0 <=? r) && (r <=? 255) && (0 <=? g) && (g <=? 255)
     && (0 <=? b) && (b <=? 255)
  then Ok (r, g, b) else Raise ValueError.

(** The font the code formats is that of [paragraphs[0].runs[0]]: an
    assignment to one of its attributes changes the frame there. *)
Definition update_first_font (g : font -> font) (tf : text_frame)
  : text_frame :=
  match paragraphs tf with
  | p :: ps =>
      match runs p with
      | r :: rs =>
          {| paragraphs :=
               {| runs := {| run_text := run_text r;
                             run_font := g (run_font r) |} :: rs |} :: ps |}
      | [] => tf
      end
  | [] => tf
  end.

Definition set_name (v : pyval) (f : font) : font :=
  {| font_name := Some v; font_size := font_size f;
     font_bold := font_bold f; font_color_rgb := font_color_rgb f |}.

Definition set_size (z : Z) (f : font) : font :=
  {| font_name := font_name f; font_size := Some z;
     font_bold := font_bold f; font_color_rgb := font_color_rgb f |}.

Definition set_bold (b : bool) (f : font) : font :=
  {| font_name := font_name f; font_size := font_size f;
     font_bold := Some b; font_color_rgb := font_color_rgb f |}.

Definition set_color (c : Z * Z * Z) (f : font) : font :=
  {| font_name := font_name f; font_size := font_size f;
     font_bold := font_bold f; font_color_rgb := Some c |}.

Definition assign (g : font -> font) : SE text_frame unit :=
  se_modify (update_first_font g).

(** A computation on a text frame that changes at most the font of the first
    run of the first paragraph. *)
Definition first_font_only {A : Type} (c : SE text_frame A) : Prop :=
  forall tf, exists g, fst (c tf) = update_first_font g tf.

Definition skip {S : Type} : SE S unit := se_ret tt.

(** [slide.shapes.title]: the first placeholder whose [idx] is 0, by its
    position among the shapes. *)
Fixpoint index_where {A : Type} (test : nat -> A -> bool) (i : nat)
    (l : list A) : option nat :=
  match l with
  | [] => None
  | x :: rest => if test i x then Some i else index_where test (S i) rest
  end.

Definition is_title_placeholder (sh : shape) : bool :=
  match sh_placeholder sh with
  | Some pf => ph_idx pf =? 0
  | None => false
  end.

Definition shapes_title (shapes : list shape) : option nat :=
  index_where (fun _ sh => is_title_placeholder sh) 0 shapes.

(** [shape != getattr(slide.shapes, 'title', None)]: shapes are compared by
    the element they stand for, here their position. *)
Definition is_not (title : option nat) (i : nat) : bool :=
  match title with
  | Some t => negb (i =? t)%nat
  | None => true
  end.

Definition has_placeholder (sh : shape) : bool :=
  match sh_placeholder sh with Some _ => true | None => false end.

Definition has_text_frame (sh : shape) : bool :=
  match sh_text_frame sh with Some _ => true | None => false end.



Definition placeholder_type_is (sh : shape) (t : Z) : bool :=
  match sh_placeholder sh with
  | Some pf => ph_type pf =? t
  | None => false
  end.

(** Method 1: the first shape whose placeholder type is 2. *)
Definition body_by_type (shapes : list shape) : option nat :=
  index_where (fun _ sh => placeholder_type_is sh 2) 0 shapes.

(** Method 2: [slide.placeholders] at index 1. *)
Fixpoint placeholder_positions (i : nat) (shapes : list shape) : list nat :=
  match shapes with
  | [] => []
  | sh :: rest =>
      if has_placeholder sh then i :: placeholder_positions (S i) rest
      else placeholder_positions (S i) rest
  end.

Definition body_by_index (shapes : list shape) : option nat :=
  nth_error (placeholder_positions 0 shapes) 1.

(** Method 3: a placeholder with a text frame, not of type 1, not the title. *)
Definition body_by_non_title (shapes : list shape) : option nat :=
  index_where
    (fun i sh => has_placeholder sh && has_text_frame sh
                 && negb (placeholder_type_is sh 1)
                 && is_not (shapes_title shapes) i) 0 shapes.

(** Method 4: any shape with a text frame that is not the title. *)
Definition body_by_text (shapes : list shape) : option nat :=
  index_where
    (fun i sh => has_text_frame sh && is_not (shapes_title shapes) i) 0 shapes.

Definition or_else {A : Type} (a b : option A) : option A :=
  match a with Some _ => a | None => b end.

(** The cascade: each method runs when the ones before found nothing. *)
Definition find_body_shape (shapes : list shape) : option nat :=
  or_else (body_by_type shapes)
    (or_else (body_by_index shapes)
       (or_else (body_by_non_title shapes) (body_by_text shapes))).

Fixpoint update_nth {A : Type} (i : nat) (f : A -> A) (l : list A) : list A :=
  match l, i with
  | [], _ => []
  | x :: rest, O => f x :: rest
  | x :: rest, S k => x :: update_nth k f rest
  end.

Definition with_text_frame (tf : text_frame) (sh : shape) : shape :=
  {| sh_is_picture := sh_is_picture sh;
     sh_placeholder := sh_placeholder sh;
     sh_text_frame := Some tf;
     sh_picture := sh_picture sh |}.

(** [shape.text = text] on the shape at position [i]: the text must be a
    str, and the shape must be one that holds text. *)
Definition set_shape_text (i : nat) (text : pyval) : SE (list shape) unit :=
  fun shapes =>
    match text with
    | PStr s =>
        match nth_error shapes i with
        | Some sh =>
            if has_text_frame sh then
              (update_nth i (with_text_frame (frame_of_text s)) shapes, Ok tt)
            else (shapes, Raise AttributeError)
        | None => (shapes, Raise AttributeError)
        end
    | _ => (shapes, Raise TypeError)
    end.

(** The bullet U+2022 of the list rendering, written by its UTF-8 bytes. *)
Definition bullet : string :=
  String (ascii_of_nat 226) (String (ascii_of_nat 128)
    (String (ascii_of_nat 162) "")).

Section Runtime.

(** python-pptx's [Pt], and the builtins [int(s, 16)] and [str] on values
    that are not already a str. *)
Variable Pt : pyval -> res Z.
Variable int16 : string -> res Z.
Variable repr : pyval -> string.

(** [str(v)], also what an f-string does with [{v}]. *)
Definition py_str (v : pyval) : string :=
  match v with
  | PStr s => s
  | _ => repr v
  end.

Definition parse_rgb (color_hex : string) : res (Z * Z * Z) :=
  r <- int16 (PyStr.slice color_hex 0 2) ;;
  g <- int16 (PyStr.slice color_hex 2 4) ;;
  b <- int16 (PyStr.slice color_hex 4 6) ;;
  RGBColor r g b.

(** The body of [_apply_text_formatting] from [font = run.font] on, run on
    a frame that has a first run. *)
Definition format_first_run (format_rules palette : pyval)
  : SE text_frame unit :=
  family <~ se_lift (Py.get format_rules "family" PNone) ;;
  _ <~ (if Py.truthy family then assign (set_name family) else skip) ;;
  size_pt <~ se_lift (Py.get format_rules "size_pt" PNone) ;;
  _ <~ (if Py.truthy size_pt then
          size <~ se_lift (Pt size_pt) ;; assign (set_size size)
        else skip) ;;
  bold <~ se_lift (Py.get format_rules "bold" PNone) ;;
  _ <~ (if Py.truthy bold then assign (set_bold true) else skip) ;;
  color_key <~ se_lift (Py.get format_rules "color" PNone) ;;
  entry <~ se_lift (if Py.truthy color_key then get_key palette color_key
                    else Ok PNone) ;;
  if Py.truthy color_key && Py.truthy entry then
    color_hex <~ se_lift (replace_hash entry) ;;
    if (String.length color_hex =? 6)%nat then
      se_try (rgb_color <~ se_lift (parse_rgb color_hex) ;;
              assign (set_color rgb_color))
    else skip
  else skip.

(** [_apply_text_formatting]: the handler only prints, so what was assigned
    before an exception stays. *)
Definition _apply_text_formatting (tf : text_frame)
    (format_rules palette : pyval) : text_frame :=
  match paragraphs tf with
  | [] => tf
  | paragraph :: _ =>
      match runs paragraph with
      | [] => tf
      | _ :: _ => fst (format_first_run format_rules palette tf)
      end
  end.

(** [_apply_text_formatting(shape.text_frame, rules, palette)] on the shape
    at position [i]. *)
Definition format_shape (i : nat) (rules palette : pyval)
  : SE (list shape) unit :=
  se_modify (update_nth i (fun sh =>
    match sh_text_frame sh with
    | Some tf => with_text_frame (_apply_text_formatting tf rules palette) sh
    | None => sh
    end)).

(** The phrase standing in for empty content. *)
Definition synthesized_body (title_text : pyval) : pyval :=
  if Py.truthy title_text
  then PStr ("Key points about " ++ py_str title_text)
  else PStr "Content will be added here".

(** [body_text] of a content that is not empty. *)
Definition render_body (body_content : pyval) : string :=
  match body_content with
  | PList items =>
      PyStr.join PyStr.nl (map (fun item => bullet ++ " " ++ py_str item) items)
  | _ => py_str body_content
  end.

(** The block under [# Apply title styling]. *)
Definition apply_title (text_defaults theme_palette title_text : pyval)
  : SE (list shape) unit :=
  shapes <~ se_get ;;
  match shapes_title shapes with
  | Some t =>
      _ <~ set_shape_text t title_text ;;
      title_rules <~ se_lift (Py.get text_defaults "title" (PDict [])) ;;
      format_shape t title_rules theme_palette
  | None => skip
  end.

(** The block under [if body_content:]. *)
Definition apply_body (text_defaults theme_palette body_content : pyval)
  : SE (list shape) unit :=
  let body_text := render_body body_content in
  shapes <~ se_get ;;
  match find_body_shape shapes with
  | Some b =>
      if match nth_error shapes b with
         | Some sh => has_text_frame sh
         | None => false
         end
      then
        _ <~ set_shape_text b (PStr body_text) ;;
        body_rules <~ se_lift (body <- Py.get text_defaults "body"
                                         (PList [PDict []]) ;;
                               Py.item0 body) ;;
        format_shape b body_rules theme_palette
      else skip
  | None => skip
  end.

(** The body of the [try] of [_apply_manifest_styling], on the shapes of the
    slide. *)
Definition styling (slide_content manifest : pyval) : SE (list shape) unit :=
  text_defaults <~ se_lift (Py.get manifest "text_defaults" (PDict [])) ;;
  theme_palette <~ se_lift (theme <- Py.get manifest "theme" (PDict []) ;;
                            Py.get theme "palette" (PDict [])) ;;
  title_text <~ se_lift (Py.get slide_content "title" (PStr "")) ;;
  _ <~ apply_title text_defaults theme_palette title_text ;;
  body_content <~ se_lift (Py.get slide_content "content" (PStr "")) ;;
  let body_content :=
    if negb (Py.truthy body_content) then synthesized_body title_text
    else body_content in
  if Py.truthy body_content then
    apply_body text_defaults theme_palette body_content
  else skip.

(** [_apply_manifest_styling]: the handler prints; the slide keeps what was
    written before an exception. *)
Definition _apply_manifest_styling (sl : slide)
    (slide_content manifest : pyval) : slide :=
  {| sl_layout := sl_layout sl;
     sl_shapes := fst (styling slide_content manifest (sl_shapes sl));
     sl_notes := sl_notes sl |}.


End Runtime.

End Styling.

(** ** Slide Synthesizer ([_create_slide_with_manifest]) *)

Module Synthesizer.
Import Pptx.

(** [_add_speaker_notes]: notes that are not a str make the assignment
    raise, which the handler swallows. *)
Definition _add_speaker_notes (sl : slide) (slide_content : pyval) : slide :=
  match Py.get slide_content "speaker_notes" (PStr "") with
  | Ok speaker_notes =>
      if Py.truthy speaker_notes then
        match speaker_notes with
        | PStr s =>
            {| sl_layout := sl_layout sl; sl_shapes := sl_shapes sl;
               sl_notes := Some s |}
        | _ => sl
        end
      else sl
  | Raise _ => sl
  end.

Section Runtime.

Variable Pt : pyval -> res Z.
Variable int16 : string -> res Z.
Variable repr : pyval -> string.

(** The body of the [try]: the first line reads the title for the progress
    message, and nothing after [add_slide] can raise. *)
Definition create_slide_try (prs : presentation)
    (slide_content manifest : pyval) (slide_idx : nat) : res slide :=
  _ <- Py.get slide_content "title" (PStr "Untitled") ;;
  layout_choice <-
    match Resolver._resolve_layout_from_manifest slide_content manifest
            slide_idx prs with
    | Some layout => Ok layout
    | None => Resolver.default_layout (slide_layouts prs)
    end ;;
  let sl := add_slide layout_choice in
  let sl := Styling._apply_manifest_styling Pt int16 repr sl slide_content
              manifest in
  let _ := AssetPlacer._add_manifest_assets manifest slide_idx in
  Ok (_add_speaker_notes sl slide_content).

(** The handler: a slide on the default layout with its title filled in. *)
Definition create_slide_except (prs : presentation) (slide_content : pyval)
  : res slide :=
  layout <- Resolver.default_layout (slide_layouts prs) ;;
  let sl := add_slide layout in
  match Styling.shapes_title (sl_shapes sl) with
  | Some t =>
      title <- Py.get slide_content "title" (PStr "") ;;
      match Styling.set_shape_text t title (sl_shapes sl) with
      | (shapes, Ok _) =>
          Ok {| sl_layout := sl_layout sl; sl_shapes := shapes;
                sl_notes := sl_notes sl |}
      | (_, Raise e) => Raise e
      end
  | None => Ok sl
  end.

(** [_create_slide_with_manifest] *)
Definition _create_slide_with_manifest (prs : presentation)
    (slide_content manifest : pyval) (slide_idx : nat) : res slide :=
  match create_slide_try prs slide_content manifest slide_idx with
  | Ok sl => Ok sl
  | Raise _ => create_slide_except prs slide_content
  end.

End Runtime.

End Synthesizer.

(** ** Sample data for the examples *)

Module Samples.
Import Pptx.

(** [json.loads] on the one text the examples parse: an empty object. *)
Definition loads_empty_object (s : string) : res pyval :=
  if (s =? "{}")%string then Ok (PDict []) else Raise JSONDecodeError.

(** A provider that answers every call with an empty object, and one that
    never answers. *)
Definition empty_object_client : ManifestBuilder.llm_client :=
  {| ManifestBuilder.provider := "openai";
     ManifestBuilder.api_reply := fun _ => Ok (PStr "{}") |}.

Definition unreachable_client : ManifestBuilder.llm_client :=
  {| ManifestBuilder.provider := "gemini";
     ManifestBuilder.api_reply := fun _ => Raise APIError |}.

(** [Pt] on integers, [int(s, 16)] on strings of hexadecimal digits. *)
Definition Pt (v : pyval) : res Z :=
  match v with
  | PInt z => Ok (z * 12700)
  | PBool b => Ok (if b then 12700 else 0)
  | _ => Raise TypeError
  end.

Definition hex_digit (c : ascii) : option Z :=
  let n := nat_of_ascii c in
  if ((48 <=? n) && (n <=? 57))%nat then Some (Z.of_nat n - 48)
  else if ((97 <=? n) && (n <=? 102))%nat then Some (Z.of_nat n - 87)
  else if ((65 <=? n) && (n <=? 70))%nat then Some (Z.of_nat n - 55)
  else None.

Fixpoint hex_value (acc : Z) (s : string) : res Z :=
  match s with
  | EmptyString => Ok acc
  | String c r =>
      match hex_digit c with
      | Some d => hex_value (16 * acc + d) r
      | None => Raise ValueError
      end
  end.

Definition int16 (s : string) : res Z :=
  match s with
  | EmptyString => Raise ValueError
  | _ => hex_value 0 s
  end.

Definition repr (v : pyval) : string := "<object>".

Definition empty_frame : text_frame := {| paragraphs := [{| runs := [] |}] |}.

Definition title_placeholder : shape :=
  {| sh_is_picture := false;
     sh_placeholder := Some {| ph_idx := 0; ph_type := 1 |};
     sh_text_frame := Some empty_frame;
     sh_picture := Raise AttributeError |}.

Definition body_placeholder : shape :=
  {| sh_is_picture := false;
     sh_placeholder := Some {| ph_idx := 1; ph_type := 2 |};
     sh_text_frame := Some empty_frame;
     sh_picture := Raise AttributeError |}.

Definition logo : shape :=
  {| sh_is_picture := true;
     sh_placeholder := None;
     sh_text_frame := None;
     sh_picture := Ok {| pic_left := 100; pic_top := 200; pic_width := 300;
                         pic_height := 400; pic_size_bytes := 2048 |} |}.

Definition title_box : placeholder_data :=
  {| pd_type_repr := "PP_PLACEHOLDER.TITLE"; pd_left := 685800; pd_top := 274638;
     pd_width := 7772400; pd_height := 1143000 |}.

Definition body_box : placeholder_data :=
  {| pd_type_repr := "PP_PLACEHOLDER.BODY"; pd_left := 685800; pd_top := 1600200;
     pd_width := 7772400; pd_height := 4525963 |}.

Definition section_layout : slide_layout :=
  {| layout_name := "Section Header";
     layout_placeholders := [Ok title_box];
     layout_cloned_shapes := [title_placeholder] |}.

Definition content_layout : slide_layout :=
  {| layout_name := "Title and Content";
     layout_placeholders := [Ok title_box; Raise AttributeError; Ok body_box];
     layout_cloned_shapes := [title_placeholder; body_placeholder] |}.

(** A scheme of eleven colours, the last one blue. *)
Definition eleven_colors : list scheme_color :=
  repeat {| color_rgb := Some 0%N |} 10 ++ [{| color_rgb := Some 255%N |}].

Definition sample_theme : theme :=
  {| theme_color_scheme := Some eleven_colors;
     theme_font_scheme :=
       Ok (Some {| major_font_latin := Some (Ok (PStr "Calibri Light"));
                   minor_font_latin := Some (Ok (PStr "Calibri")) |}) |}.

Definition sample_prs : presentation :=
  {| slide_width := Some 9144000;
     slide_height := Some 6858000;
     slide_masters := [{| master_theme := Ok (Some sample_theme) |}];
     slide_layouts := [section_layout; content_layout];
     slides := [{| sl_layout := Some content_layout;
                   sl_shapes := [title_placeholder; logo];
                   sl_notes := None |}] |}.


(** A manifest as an assisted normalization would give it for the two
    layouts, and two assets. *)
Definition section_def : pyval :=
  PDict [("id", PStr "L0"); ("name", PStr "Section Header");
         ("archetype", PStr "section_header")].

Definition content_def : pyval :=
  PDict [("id", PStr "L1"); ("name", PStr "Title and Content");
         ("archetype", PStr "title_content")].

Definition logo_asset : pyval :=
  PDict [("id", PStr "logo_main"); ("left", PInt 100); ("top", PInt 200);
         ("width", PInt 300); ("height", PInt 400);
         ("apply_on", PStr "title_only")].

Definition sample_manifest : pyval :=
  PDict [("layouts", PList [section_def; content_def]);
         ("assets", PList [logo_asset])].

(** Content blocks: text, a single space, bullet points, nothing. *)
Definition text_block : pyval :=
  PDict [("title", PStr "Intro"); ("content", PStr "Welcome");
         ("layout_hint", PStr "section")].

Definition space_block : pyval :=
  PDict [("title", PStr "Intro"); ("content", PStr " ")].

Definition bullet_block : pyval :=
  PDict [("title", PStr "Intro");
         ("content", PList [PStr "First point"; PStr "Second point"])].


End Samples.

(** ** More of Python: substrings, membership, subscripts *)

Module PyMore.

(** [s.replace(pat, '')] for a pattern that is not empty: occurrences are
    taken from the left and do not overlap; [skip] counts the characters of
    the occurrence under way that are still to pass. *)
Fixpoint remove_from (pat : string) (skip : nat) (s : string) : string :=
  match s with
  | EmptyString => EmptyString
  | String c r =>
      match skip with
      | S k => remove_from pat k r
      | O =>
          if prefix pat s then remove_from pat (String.length pat - 1) r
          else String c (remove_from pat 0 r)
      end
  end.

Definition remove_all (pat s : string) : string := remove_from pat 0 s.

(** [s.split(sep)] for a separator that is not empty: never the empty list. *)
Fixpoint split_from (sep : string) (skip : nat) (s : string) : list string :=
  match s with
  | EmptyString => [""]
  | String c r =>
      match skip with
      | S k => split_from sep k r
      | O =>
          if prefix sep s then "" :: split_from sep (String.length sep - 1) r
          else match split_from sep 0 r with
               | x :: xs => String c x :: xs
               | [] => [String c ""]
               end
      end
  end.

Definition split_on (sep s : string) : list string := split_from sep 0 s.

(** [s.rsplit('.', 1)[1]] when [s] has a dot: what follows the last dot. *)
Fixpoint after_last_dot (s : string) : option string :=
  match s with
  | EmptyString => None
  | String c r =>
      match after_last_dot r with
      | Some ext => Some ext
      | None => if Ascii.eqb c "." then Some r else None
      end
  end.

(** [key in v] for a string [key]: a key of a dict, an item of a list, a
    substring of a str; other values are not containers. *)
Definition contains_key (key : string) (v : pyval) : res bool :=
  match v with
  | PDict d => Ok (match Py.lookup d key with Some _ => true | None => false end)
  | PList l => Ok (existsb (fun x => Py.eq_str x key) l)
  | PStr s => Ok (PyStr.contains key s)
  | _ => Raise TypeError
  end.

(** [v[key]] for a string [key]. *)
Definition subscript (v : pyval) (key : string) : res pyval :=
  match v with
  | PDict d =>
      match Py.lookup d key with
      | Some x => Ok x
      | None => Raise KeyError
      end
  | _ => Raise TypeError
  end.

(** [all(key in v for key in keys)]: stops at the first key that is not in. *)
Fixpoint all_in (keys : list string) (v : pyval) : res bool :=
  match keys with
  | [] => Ok true
  | key :: rest =>
      b <- contains_key key v ;;
      if b then all_in rest v else Ok false
  end.

End PyMore.

(** ** Content structuring ([llm_integration.py]) *)

Module Structuring.
Import ManifestBuilder.

(** The loop over the slides of [_validate_structure]. *)
Fixpoint slides_have_keys (slides : list pyval) : res bool :=
  match slides with
  | [] => Ok true
  | slide :: rest =>
      b <- PyMore.all_in ["title"; "content"] slide ;;
      if b then slides_have_keys rest else Ok false
  end.

(** [_validate_structure] *)
Definition _validate_structure (parsed : pyval) : res bool :=
  b <- PyMore.all_in ["presentation_title"; "slides"] parsed ;;
  if negb b then Ok false else
  slides <- PyMore.subscript parsed "slides" ;;
  match slides with
  | PList l =>
      if (List.length l =? 0)%nat then Ok false else slides_have_keys l
  | _ => Ok false
  end.

(** [current_slide] of [_extract_fallback_structure]. *)
Record draft : Type := { draft_title : string; draft_content : list string }.

Definition draft_dict (d : draft) : pyval :=
  PDict [("title", PStr (draft_title d));
         ("content", PList (map PStr (draft_content d)))].

(** [any(indicator in line.lower() for indicator in
    ['slide', 'title:', 'section'])] *)
Definition is_indicator (line : string) : bool :=
  let l := PyStr.lower line in
  PyStr.contains "slide" l || PyStr.contains "title:" l
  || PyStr.contains "section" l.

(** [line.replace('Slide', '').replace(':', '').strip()] *)
Definition indicator_title (line : string) : string :=
  PyStr.strip (PyStr.remove_char ":" (PyMore.remove_all "Slide" line)).

(** The loop over the lines: [slides] are the slides closed so far,
    [current] the slide being filled. *)
Fixpoint extract_loop (lines : list string) (slides : list pyval)
    (current : option draft) : list pyval * option draft :=
  match lines with
  | [] => (slides, current)
  | raw :: rest =>
      let line := PyStr.strip raw in
      if (line =? "")%string then extract_loop rest slides current
      else if is_indicator line then
        extract_loop rest
          match current with
          | Some d => (slides ++ [draft_dict d])%list
          | None => slides
          end
          (Some {| draft_title := indicator_title line; draft_content := [] |})
      else
        match current with
        | Some d =>
            extract_loop rest slides
              (Some {| draft_title := draft_title d;
                       draft_content := (draft_content d ++ [line])%list |})
        | None => extract_loop rest slides None
        end
  end.

Definition structure_of (slides : list pyval) : pyval :=
  PDict [("presentation_title", PStr "Generated Presentation");
         ("total_slides", PInt (Z.of_nat (List.length slides)));
         ("slides", PList slides)].

(** [_extract_fallback_structure] *)
Definition _extract_fallback_structure (response : string) : pyval :=
  let '(slides, current) :=
    extract_loop (PyStr.split PyStr.newline response) [] None in
  structure_of
    match current with
    | Some d => (slides ++ [draft_dict d])%list
    | None => slides
    end.

(** [[sentence.strip() + '.' for sentence in chunk if sentence.strip()]] *)
Fixpoint chunk_content (chunk : list string) : list pyval :=
  match chunk with
  | [] => []
  | sentence :: rest =>
      if (PyStr.strip sentence =? "")%string then chunk_content rest
      else PStr (PyStr.strip sentence ++ ".") :: chunk_content rest
  end.

(** The slide appended at the turn [k] of the loop, when [slides] already
    holds the title slide and [k] content slides. *)
Definition key_points_slide (sentences : list string) (chunk_size k : nat)
  : pyval :=
  let slide_num := (k + 2)%nat in
  PDict [("slide_number", PInt (Z.of_nat slide_num));
         ("title", PStr ("Key Points " ++ PyStr.decimal (slide_num - 1)));
         ("type", PStr "bullet_points");
         ("content",
          PList (chunk_content
                   (firstn chunk_size (skipn (k * chunk_size) sentences))))].

Definition overview_slide : pyval :=
  PDict [("slide_number", PInt 1);
         ("title", PStr "Presentation Overview");
         ("type", PStr "title_slide");
         ("content", PStr "Generated from provided text content")].

(** [len(range(0, n, step))] for a positive step *)
Definition range_length (n step : nat) : nat := ((n + step - 1) / step)%nat.

(** The slides of [_create_fallback_structure] for a text: the loop
    [for i in range(0, len(sentences), chunk_size)] visits [i = k *
    chunk_size] for [k] below the length of the range. *)
Definition fallback_slides (input_text : string) : list pyval :=
  let sentences := PyMore.split_on ". " input_text in
  let chunk_size := Nat.max 3 (List.length sentences / 5) in
  overview_slide ::
  map (key_points_slide sentences chunk_size)
      (seq 0 (range_length (List.length sentences) chunk_size)).

(** [_create_fallback_structure]: only a str can be split. *)
Definition _create_fallback_structure (input_text : pyval) : res pyval :=
  match input_text with
  | PStr s => Ok (structure_of (fallback_slides s))
  | _ => Raise AttributeError
  end.

Section Parsing.

Variable json_loads : string -> res pyval.

(** The body of the [try] of [_parse_llm_response] once the response is
    stripped: the validated candidate, or [None] when the code falls
    through to [_extract_fallback_structure]. *)
Definition parse_candidate (response : string) : res (option pyval) :=
  let start_idx := PyStr.find "{" response in
  let end_idx := PyStr.rfind "}" response + 1 in
  if negb (start_idx =? -1) && negb (end_idx =? -1) then
    parsed <- json_loads (PyStr.slice response start_idx end_idx) ;;
    valid <- _validate_structure parsed ;;
    Ok (if valid then Some parsed else None)
  else Ok None.

(** [_parse_llm_response]: the handler calls [_create_fallback_structure] on
    [response] as it stands, stripped when [strip] went through. *)
Definition _parse_llm_response (response : pyval) : res pyval :=
  match Py.strip response with
  | Raise _ => _create_fallback_structure response
  | Ok stripped =>
      match parse_candidate stripped with
      | Ok (Some parsed) => Ok parsed
      | Ok None => Ok (_extract_fallback_structure stripped)
      | Raise _ => _create_fallback_structure (PStr stripped)
      end
  end.

Definition make_llm_call (self : llm_client) (attempt : nat) : res pyval :=
  response <-
    (if (provider self =? "openai")%string then api_reply self attempt
     else if (provider self =? "anthropic")%string then api_reply self attempt
     else if (provider self =? "gemini")%string then api_reply self attempt
     else Raise LLMError) ;;
  _parse_llm_response response.

(** [structure_text_to_slides]: no handler around [execute] here. *)
Definition structure_text_to_slides (self : llm_client) : res pyval :=
  handle_llm_errors (execute (make_llm_call self)).

End Parsing.

End Structuring.

(** ** Circuit breaker ([retry_handler.py]) *)

Module Breaker.

Inductive cb_state : Type := CLOSED | OPEN | HALF_OPEN.

(** What a call through the breaker gives: the value or the exception of
    the wrapped function, or the refusal of the open breaker. *)
Inductive outcome (A : Type) : Type :=
| Returned (a : A)
| Raised (e : exn)
| Rejected.

Arguments Returned {A} a.
Arguments Raised {A} e.
Arguments Rejected {A}.

Section Clock.

(** The readings of [time.time()] (none of them zero, so a recorded time
    counts as set), and the test [now - last_failure_time >
    recovery_timeout] on two of them. *)
Variable time : Type.
Variable recovered : time -> time -> bool.

Record breaker : Type := {
  failure_threshold : Z;
  failure_count : Z;
  last_failure_time : option time;
  state : cb_state
}.

(** [CircuitBreaker(failure_threshold)] *)
Definition fresh (threshold : Z) : breaker :=
  {| failure_threshold := threshold; failure_count := 0;
     last_failure_time := None; state := CLOSED |}.

Definition with_state (s : cb_state) (cb : breaker) : breaker :=
  {| failure_threshold := failure_threshold cb;
     failure_count := failure_count cb;
     last_failure_time := last_failure_time cb;
     state := s |}.

(** [is_available], reading the clock as [now]. *)
Definition is_available (now : time) (cb : breaker) : bool * breaker :=
  match state cb with
  | CLOSED => (true, cb)
  | OPEN =>
      match last_failure_time cb with
      | Some last =>
          if recovered now last then (true, with_state HALF_OPEN cb)
          else (false, cb)
      | None => (false, cb)
      end
  | HALF_OPEN => (true, cb)
  end.

(** [record_success] *)
Definition record_success (cb : breaker) : breaker :=
  match state cb with
  | HALF_OPEN =>
      {| failure_threshold := failure_threshold cb; failure_count := 0;
         last_failure_time := last_failure_time cb; state := CLOSED |}
  | _ => cb
  end.

(** [record_failure], reading the clock as [now]. *)
Definition record_failure (now : time) (cb : breaker) : breaker :=
  let count := failure_count cb + 1 in
  {| failure_threshold := failure_threshold cb;
     failure_count := count;
     last_failure_time := Some now;
     state :=
       match state cb with
       | CLOSED => if failure_threshold cb <=? count then OPEN else CLOSED
       | HALF_OPEN => OPEN
       | OPEN => OPEN
       end |}.

(** The wrapper of [__call__]: [func] is what calling the wrapped function
    gives, [now] the clock when availability is tested and [later] the
    clock when the failure is recorded. *)
Definition call {A : Type} (func : res A) (now later : time) (cb : breaker)
  : outcome A * breaker :=
  match is_available now cb with
  | (false, cb1) => (Rejected, cb1)
  | (true, cb1) =>
      match func with
      | Ok result => (Returned result, record_success cb1)
      | Raise e => (Raised e, record_failure later cb1)
      end
  end.

(** What happens to a breaker: a success or a failure is recorded. *)
Inductive event : Type :=
| Success
| Failure (now : time).

Definition record (cb : breaker) (ev : event) : breaker :=
  match ev with
  | Success => record_success cb
  | Failure now => record_failure now cb
  end.

Definition is_failure (ev : event) : bool :=
  match ev with
  | Failure _ => true
  | Success => false
  end.

End Clock.

End Breaker.

(** ** Input validation ([error_handler.py], [app.py]) and the client *)

Module Validation.

(** A validator returns, or raises an error that carries a code. *)
Inductive verdict : Type :=
| Passed
| Failed (error_code : string).

(** [validate_api_key] *)
Definition validate_api_key (api_key provider : string) : verdict :=
  if (api_key =? "")%string || (PyStr.strip api_key =? "")%string
  then Failed "MISSING_API_KEY"
  else
    let api_key := PyStr.strip api_key in
    if (provider =? "openai")%string then
      if negb (prefix "sk-" api_key) then Failed "INVALID_API_KEY_FORMAT"
      else Passed
    else if (provider =? "anthropic")%string then
      if negb (prefix "sk-ant-" api_key) then Failed "INVALID_API_KEY_FORMAT"
      else Passed
    else if (provider =? "gemini")%string then
      if (String.length api_key <? 30)%nat then Failed "INVALID_API_KEY_FORMAT"
      else Passed
    else Passed.

Definition MAX_TEXT_LENGTH : Z := 100000.
Definition MIN_TEXT_LENGTH : Z := 100.

(** [validate_text_input] *)
Definition validate_text_input (text : string) : verdict :=
  if (text =? "")%string || (PyStr.strip text =? "")%string
  then Failed "EMPTY_TEXT"
  else
    let text_length := Z.of_nat (String.length (PyStr.strip text)) in
    if text_length <? MIN_TEXT_LENGTH then Failed "TEXT_TOO_SHORT"
    else if MAX_TEXT_LENGTH <? text_length then Failed "TEXT_TOO_LONG"
    else Passed.

(** [allowed_file] of [app.py] *)
Definition allowed_file (filename : string) : bool :=
  match PyMore.after_last_dot filename with
  | Some ext =>
      let e := PyStr.lower ext in
      (e =? "pptx")%string || (e =? "potx")%string
  | None => false
  end.

(** What [LLMIntegration(api_key, provider)] gives: the object, the error
    of the key validation, or the exception of [_setup_client]. *)
Inductive construction : Type :=
| Constructed (self : ManifestBuilder.llm_client)
| KeyRejected (error_code : string)
| SetupFailed.

(** [LLMIntegration.__init__]: [sdk] is what building the client of a
    supported provider gives, its replies or an exception. *)
Definition LLMIntegration_init (api_key provider : string)
    (sdk : string -> res (nat -> res pyval)) : construction :=
  let provider := PyStr.lower provider in
  match validate_api_key api_key provider with
  | Failed error_code => KeyRejected error_code
  | Passed =>
      if (provider =? "openai")%string || (provider =? "anthropic")%string
         || (provider =? "gemini")%string
      then
        match sdk provider with
        | Ok replies =>
            Constructed {| ManifestBuilder.provider := provider;
                           ManifestBuilder.api_reply := replies |}
        | Raise _ => SetupFailed
        end
      else SetupFailed
  end.

End Validation.

(** ** The legacy layout choice ([_choose_layout_enhanced]) *)

Module Legacy.
Import Pptx.

(** [for i, x in enumerate(items)] returning [i] at the first [x] that
    passes the test. *)
Fixpoint first_index (test : pyval -> res bool) (i : nat) (items : list pyval)
  : res (option nat) :=
  match items with
  | [] => Ok None
  | x :: rest =>
      b <- test x ;;
      if b then Ok (Some i) else first_index test (S i) rest
  end.

(** ['title' in layout['name'].lower() and 'content' not in
    layout['name'].lower()] *)
Definition is_title_layout (layout : pyval) : res bool :=
  name <- PyMore.subscript layout "name" ;;
  lowered <- Py.lower name ;;
  if PyStr.contains "title" lowered then
    name <- PyMore.subscript layout "name" ;;
    lowered <- Py.lower name ;;
    Ok (negb (PyStr.contains "content" lowered))
  else Ok false.

(** [any('CONTENT' in p.get('type', '') for p in ...)] *)
Fixpoint any_content_type (placeholders : list pyval) : res bool :=
  match placeholders with
  | [] => Ok false
  | p :: rest =>
      t <- Py.get p "type" (PStr "") ;;
      b <- PyMore.contains_key "CONTENT" t ;;
      if b then Ok true else any_content_type rest
  end.

Definition has_content_placeholder (layout : pyval) : res bool :=
  placeholders <- Py.get layout "placeholders" (PList []) ;;
  items <- Py.iter placeholders ;;
  any_content_type items.

(** [_choose_layout_enhanced] *)
Definition _choose_layout_enhanced (slide_content template_analysis : pyval)
  : res Z :=
  layouts <- Py.get template_analysis "layouts" (PList []) ;;
  if negb (Py.truthy layouts) then Ok 0 else
  content_type <- Py.get slide_content "type" (PStr "") ;;
  content <- Py.get slide_content "content" PNone ;;
  let has_list_content := match content with PList _ => true | _ => false end in
  r <- (if Py.eq_str content_type "title_slide" then
          items <- Py.iter layouts ;;
          first_index is_title_layout 0 items
        else Ok None) ;;
  match r with
  | Some i => Ok (Z.of_nat i)
  | None =>
      r <- (if has_list_content then
              items <- Py.iter layouts ;;
              first_index has_content_placeholder 0 items
            else Ok None) ;;
      match r with
      | Some i => Ok (Z.of_nat i)
      | None =>
          n <- Py.len layouts ;;
          Ok (Z.min 1 (n - 1))
      end
  end.

(** [prs.slide_layouts[layout_idx] if layout_idx < len(prs.slide_layouts)
    else prs.slide_layouts[0]], with Python's indexing from the end for a
    negative index. *)
Definition layout_at (layout_idx : Z) (layouts : list slide_layout)
  : res slide_layout :=
  let n := Z.of_nat (List.length layouts) in
  let position :=
    if layout_idx <? n then
      (if layout_idx <? 0 then layout_idx + n else layout_idx)
    else 0 in
  if position <? 0 then Raise IndexError
  else match nth_error layouts (Z.to_nat position) with
       | Some layout => Ok layout
       | None => Raise IndexError
       end.

End Legacy.

(** ** Deck generation ([generate_presentation_with_manifest]) *)

Module Deck.
Import Pptx.

Definition with_slides (sls : list slide) (prs : presentation) : presentation :=
  {| slide_width := slide_width prs;
     slide_height := slide_height prs;
     slide_masters := slide_masters prs;
     slide_layouts := slide_layouts prs;
     slides := sls |}.

(** [del prs.slides._sldIdLst[i]] *)
Fixpoint delete_at {A : Type} (i : nat) (l : list A) : list A :=
  match l, i with
  | [], _ => []
  | _ :: rest, O => rest
  | x :: rest, S k => x :: delete_at k rest
  end.

(** [for i in range(n - 1, -1, -1): del ...[i]], from the last slide down. *)
Definition clear_slides (sls : list slide) : list slide :=
  fold_left (fun l i => delete_at i l) (rev (seq 0 (List.length sls))) sls.

Section Runtime.

Variable Pt : pyval -> res Z.
Variable int16 : string -> res Z.
Variable repr : pyval -> string.

(** The loop over the content blocks: each slide made is added to the
    presentation; a block whose slide cannot be made ends the loop with the
    exception. *)
Fixpoint create_loop (prs : presentation) (blocks : list pyval)
    (manifest : pyval) (slide_idx : nat) : res presentation :=
  match blocks with
  | [] => Ok prs
  | slide_content :: rest =>
      sl <- Synthesizer._create_slide_with_manifest Pt int16 repr prs
              slide_content manifest slide_idx ;;
      create_loop (with_slides (slides prs ++ [sl])%list prs) rest manifest
        (S slide_idx)
  end.

(** [generate_presentation_with_manifest]: [opened] is what
    [Presentation(template_path)] gives; the handler raises again. *)
Definition generate_presentation_with_manifest (opened : res presentation)
    (slide_structure manifest : pyval) : res presentation :=
  prs <- opened ;;
  _ <- (layouts <- Py.get manifest "layouts" (PList []) ;; Py.len layouts) ;;
  let prs := with_slides (clear_slides (slides prs)) prs in
  blocks <- (sls <- Py.get slide_structure "slides" (PList []) ;;
             Py.iter sls) ;;
  create_loop prs blocks manifest 0.

End Runtime.

End Deck.

(** ** Progress tracking ([ProgressTracker]) *)

Module Progress.

(** The values a step's ['status'] takes: ['pending'], ['in_progress'],
    ['completed'], ['failed']. *)
Inductive step_status : Type := PENDING | IN_PROGRESS | COMPLETED | FAILED.

(** One entry of [self.steps]. *)
Record step : Type := {
  name : pyval;
  description : pyval;
  status : step_status;
  error : pyval
}.

Record tracker : Type := { steps : list step; current_step : Z }.

(** [__init__] *)
Definition init : tracker := {| steps := []; current_step := 0 |}.

Definition add_step (name description : pyval) (self : tracker) : tracker :=
  {| steps := (steps self
               ++ [{| name := name; description := description;
                      status := PENDING; error := PNone |}])%list;
     current_step := current_step self |}.

(** [0 <= step_index < len(self.steps)] for an integer index. *)
Definition in_range (step_index : Z) (self : tracker) : bool :=
  (0 <=? step_index) && (step_index <? Z.of_nat (List.length (steps self))).

Definition with_status (s : step_status) (st : step) : step :=
  {| name := name st; description := description st; status := s;
     error := error st |}.

Definition with_failure (error_message : pyval) (st : step) : step :=
  {| name := name st; description := description st; status := FAILED;
     error := error_message |}.

Definition start_step (step_index : Z) (self : tracker) : tracker :=
  if in_range step_index self then
    {| steps := Styling.update_nth (Z.to_nat step_index)
                  (with_status IN_PROGRESS) (steps self);
       current_step := step_index |}
  else self.

Definition complete_step (step_index : Z) (self : tracker) : tracker :=
  if in_range step_index self then
    {| steps := Styling.update_nth (Z.to_nat step_index)
                  (with_status COMPLETED) (steps self);
       current_step := current_step self |}
  else self.

Definition fail_step (step_index : Z) (error_message : pyval) (self : tracker)
  : tracker :=
  if in_range step_index self then
    {| steps := Styling.update_nth (Z.to_nat step_index)
                  (with_failure error_message) (steps self);
       current_step := current_step self |}
  else self.

Definition is_completed (st : step) : bool :=
  match status st with COMPLETED => true | _ => false end.

(** ['progress_percentage']: the integer [0] without steps, else the
    floating-point [completed / total * 100], kept as its two operands. *)
Inductive percentage : Type :=
| Zero
| Percent (completed total : Z).

Record status_report : Type := {
  report_current_step : Z;
  total_steps : Z;
  progress_percentage : percentage;
  report_steps : list step
}.

Definition get_status (self : tracker) : status_report :=
  let completed := Z.of_nat (List.length (filter is_completed (steps self))) in
  let total := Z.of_nat (List.length (steps self)) in
  {| report_current_step := current_step self + 1;
     total_steps := total;
     progress_percentage := if 0 <? total then Percent completed total
                            else Zero;
     report_steps := steps self |}.

(** The calls a client makes on a tracker. *)
Inductive request : Type :=
| AddStep (name description : pyval)
| StartStep (step_index : Z)
| CompleteStep (step_index : Z)
| FailStep (step_index : Z) (error_message : pyval).

Definition serve (self : tracker) (r : request) : tracker :=
  match r with
  | AddStep n d => add_step n d self
  | StartStep i => start_step i self
  | CompleteStep i => complete_step i self
  | FailStep i e => fail_step i e self
  end.

(** The names and descriptions handed to [add_step], in order. *)
Fixpoint added (requests : list request) : list (pyval * pyval) :=
  match requests with
  | [] => []
  | AddStep n d :: rest => (n, d) :: added rest
  | _ :: rest => added rest
  end.

Definition labels (self : tracker) : list (pyval * pyval) :=
  map (fun st => (name st, description st)) (steps self).

(** The current step is not negative and, unless it is 0, is the index of a
    step. *)
Definition current_ok (self : tracker) : Prop :=
  0 <= current_step self
  /\ (current_step self = 0
      \/ current_step self < Z.of_nat (List.length (steps self))).

End Progress.

(** * Properties *)

(** ** Dictionaries *)


Lemma get_dict (d : dict) (k : string) (default : pyval) :
  Py.get (PDict d) k default =
  Ok (match Py.lookup d k with Some x => x | None => default end).
Proof. reflexivity. Qed.

(** ** Manifest Builder *)

Module ManifestBuilderProps.
Import ManifestBuilder.

(** The fallback constructor never fails on a dictionary. *)
Lemma fallback_on_dict (raw : dict) :
  exists m, _create_fallback_manifest (PDict raw) = Ok (PDict m).
Proof. unfold _create_fallback_manifest. simpl. eexists. reflexivity. Qed.

(** Only something that is not a dictionary makes it raise. *)
Lemma fallback_raises_iff (raw : pyval) :
  raises (_create_fallback_manifest raw) = true <->
  (forall d, raw <> PDict d).
Proof.
  split.
  - intros H d ->. discriminate H.
  - intros H. destruct raw; try reflexivity. exfalso. apply (H d). reflexivity.
Qed.

(** C3: on every RawTemplateData (a dictionary, whatever its entries) the
    fallback constructor returns a manifest; the manifest has the six
    required top-level keys, and its [text_defaults] are the fixed 32pt bold
    title and 18pt body. *)
Theorem fallback_manifest_total_and_schema_valid (raw : dict) :
  exists m,
    _create_fallback_manifest (PDict raw) = Ok (PDict m)
    /\ schema_valid (PDict m) = true
    /\ map fst m = required_keys
    /\ Py.lookup m "text_defaults" =
       Some (PDict
         [("title", PDict [("family", PStr "Calibri"); ("size_pt", PInt 32);
                           ("bold", PBool true); ("color", PStr "primary")]);
          ("body", PList [PDict [("level", PInt 0); ("family", PStr "Calibri");
                                 ("size_pt", PInt 18);
                                 ("color", PStr "text")]])]).
Proof.
  unfold _create_fallback_manifest. simpl.
  eexists. split; [reflexivity|].
  repeat split; reflexivity.
Qed.

(** What the extractor returns is a dictionary, so the fallback constructor
    is defined on it. *)
Lemma extracted_is_dict (opened : res Pptx.presentation) :
  exists raw, Extractor.extract_raw_template_data opened = Ok (PDict raw).
Proof.
  unfold Extractor.extract_raw_template_data, Extractor.extract_body.
  destruct opened as [prs|e]; simpl.
  - destruct (Pptx.slide_width prs); simpl; [|eexists; reflexivity].
    destruct (Pptx.slide_height prs); simpl; [|eexists; reflexivity].
    destruct (Extractor.theme_loop _ _ _). eexists. reflexivity.
  - eexists. reflexivity.
Qed.

(** The layouts the extractor writes carry no [archetype]. *)
Lemma layouts_loop_no_archetype (layouts : list Pptx.slide_layout) (i : nat) :
  Forall (fun ld => Py.get ld "archetype" PNone = Ok PNone)
         (Extractor.layouts_loop i layouts).
Proof.
  revert i. induction layouts as [|l layouts IH]; intros i; simpl.
  - constructor.
  - constructor; [reflexivity | apply IH].
Qed.

(** C4, as stated, fails: the layouts of the fallback manifest built for the
    sample template carry no archetype at all, so none of them reads as
    [other]. *)
Lemma fallback_archetype_is_not_other :
  exists raw m ld rest,
    Extractor.extract_raw_template_data (Ok Samples.sample_prs) = Ok raw
    /\ _create_fallback_manifest raw = Ok m
    /\ Py.get m "layouts" PNone = Ok (PList (ld :: rest))
    /\ Py.get ld "archetype" PNone = Ok PNone
    /\ Resolver.has_archetype ld "other" = false.
Proof.
  do 4 eexists. split; [reflexivity|]. split; [reflexivity|].
  split; [reflexivity|]. split; reflexivity.
Qed.

(** C4, amended: the fallback manifest holds under [layouts] exactly the
    value RawTemplateData holds under [layouts] (the empty list when there
    is none) and under [assets] exactly the value it holds under [images]:
    every layout, with the left/top/width/height of its placeholders, is the
    one of the raw data.  No archetype is added: on the raw data of any
    template, extracted or defaulted, no layout of the fallback manifest has
    one. *)
Theorem fallback_copies_layouts_and_images :
  (forall raw : dict, exists m,
      _create_fallback_manifest (PDict raw) = Ok (PDict m)
      /\ Py.get (PDict m) "layouts" PNone
         = Py.get (PDict raw) "layouts" (PList [])
      /\ Py.get (PDict m) "assets" PNone
         = Py.get (PDict raw) "images" (PList []))
  /\ (forall opened, exists raw m layouts,
         Extractor.extract_raw_template_data opened = Ok raw
         /\ _create_fallback_manifest raw = Ok m
         /\ Py.get raw "layouts" PNone = Ok (PList layouts)
         /\ Py.get m "layouts" PNone = Ok (PList layouts)
         /\ Forall (fun ld => Py.get ld "archetype" PNone = Ok PNone) layouts).
Proof.
  split.
  - intros raw. unfold _create_fallback_manifest. simpl.
    eexists. split; [reflexivity|]. split; reflexivity.
  - intros opened.
    unfold Extractor.extract_raw_template_data, Extractor.extract_body.
    destruct opened as [prs|e]; simpl.
    + destruct (Pptx.slide_width prs); simpl.
      * destruct (Pptx.slide_height prs); simpl.
        -- destruct (Extractor.theme_loop _ _ _).
           do 3 eexists. split; [reflexivity|]. split; [reflexivity|].
           split; [reflexivity|]. split; [reflexivity|].
           apply layouts_loop_no_archetype.
        -- do 3 eexists. split; [reflexivity|]. split; [reflexivity|].
           split; [reflexivity|]. split; [reflexivity|]. constructor.
      * do 3 eexists. split; [reflexivity|]. split; [reflexivity|].
        split; [reflexivity|]. split; [reflexivity|]. constructor.
    + do 3 eexists. split; [reflexivity|]. split; [reflexivity|].
      split; [reflexivity|]. split; [reflexivity|]. constructor.
Qed.

(** The retry loop returns the first answer, within three calls. *)
Lemma execute_first_success {A : Type} (func : nat -> res A) (n : nat) (a : A) :
  (n <= LLM_API_max_retries)%nat ->
  (forall k, (k < n)%nat -> raises (func k) = true) ->
  func n = Ok a ->
  execute func = Ok a.
Proof.
  unfold execute, LLM_API_max_retries. intros Hn Hbefore Hat.
  destruct n as [|[|[|n]]]; try lia; simpl.
  - rewrite Hat. reflexivity.
  - pose proof (Hbefore 0%nat ltac:(lia)) as H0.
    destruct (func 0%nat); [discriminate|]. rewrite Hat. reflexivity.
  - pose proof (Hbefore 0%nat ltac:(lia)) as H0.
    pose proof (Hbefore 1%nat ltac:(lia)) as H1.
    destruct (func 0%nat); [discriminate|].
    destruct (func 1%nat); [discriminate|]. rewrite Hat. reflexivity.
Qed.

(** It raises when the three calls do. *)
Lemma execute_all_fail {A : Type} (func : nat -> res A) :
  (forall k, (k <= LLM_API_max_retries)%nat -> raises (func k) = true) ->
  raises (execute func) = true.
Proof.
  unfold execute, LLM_API_max_retries. intros H.
  pose proof (H 0%nat ltac:(lia)) as H0.
  pose proof (H 1%nat ltac:(lia)) as H1.
  pose proof (H 2%nat ltac:(lia)) as H2.
  simpl. destruct (func 0%nat); [discriminate|].
  destruct (func 1%nat); [discriminate|].
  destruct (func 2%nat); [discriminate|]. reflexivity.
Qed.

(** C1, as stated, fails: the provider answers with an empty object, which
    has none of the required keys (so not [rules]); the builder returns it
    as it is, not the fallback manifest. *)
Lemma candidate_without_rules_is_returned :
  generate_template_manifest Samples.loads_empty_object
    Samples.empty_object_client Extractor.default_raw_data = Ok (PDict [])
  /\ has_key (PDict []) "rules" = false
  /\ schema_valid (PDict []) = false
  /\ _create_fallback_manifest Extractor.default_raw_data <> Ok (PDict []).
Proof.
  split; [reflexivity|]. split; [reflexivity|]. split; [reflexivity|].
  discriminate.
Qed.

(** C1, amended: the builder does not validate the candidate.  The first of
    the (at most three) calls whose reply parses decides: its candidate is
    returned as parsed, whatever keys it has.  The deterministic fallback
    manifest, whose [rules.title_color] is [primary], is returned when every
    call fails (the provider raises, is unsupported, or its reply does not
    parse). *)
Theorem manifest_is_first_candidate_or_fallback
    (json_loads : string -> res pyval) (self : llm_client) (raw : dict) :
  (forall n candidate,
      (n <= 2)%nat ->
      (forall k, (k < n)%nat ->
                 raises (make_manifest_call json_loads self k) = true) ->
      make_manifest_call json_loads self n = Ok candidate ->
      generate_template_manifest json_loads self (PDict raw) = Ok candidate)
  /\ ((forall k, (k <= 2)%nat ->
                 raises (make_manifest_call json_loads self k) = true) ->
      exists m rules,
        generate_template_manifest json_loads self (PDict raw) = Ok (PDict m)
        /\ _create_fallback_manifest (PDict raw) = Ok (PDict m)
        /\ Py.lookup m "rules" = Some (PDict rules)
        /\ Py.lookup rules "title_color" = Some (PStr "primary")).
Proof.
  split.
  - intros n candidate Hn Hbefore Hat. unfold generate_template_manifest.
    rewrite (execute_first_success _ n candidate Hn Hbefore Hat). reflexivity.
  - intros Hall. unfold generate_template_manifest.
    pose proof (execute_all_fail _ Hall) as Hraise.
    destruct (execute (make_manifest_call json_loads self)); [discriminate|].
    unfold _create_fallback_manifest. simpl.
    do 2 eexists. split; [reflexivity|]. split; [reflexivity|].
    split; reflexivity.
Qed.

(** The amended C1 at work: an empty object comes back as it is, and a
    provider that cannot be reached gives the fallback manifest. *)
Lemma manifest_is_first_candidate_or_fallback_witness :
  generate_template_manifest Samples.loads_empty_object
    Samples.empty_object_client (PDict []) = Ok (PDict [])
  /\ exists m rules,
       generate_template_manifest Samples.loads_empty_object
         Samples.unreachable_client (PDict []) = Ok (PDict m)
       /\ _create_fallback_manifest (PDict []) = Ok (PDict m)
       /\ Py.lookup m "rules" = Some (PDict rules)
       /\ Py.lookup rules "title_color" = Some (PStr "primary").
Proof.
  split.
  - apply (proj1 (manifest_is_first_candidate_or_fallback
                    Samples.loads_empty_object Samples.empty_object_client [])
                 0%nat (PDict [])).
    + lia.
    + intros k Hk. lia.
    + reflexivity.
  - apply (proj2 (manifest_is_first_candidate_or_fallback
                    Samples.loads_empty_object Samples.unreachable_client [])).
    intros k Hk. reflexivity.
Defined.

End ManifestBuilderProps.

(** ** Geometry and Theme Extractor *)

Module ExtractorProps.
Import Pptx Extractor.
















End ExtractorProps.

(** ** Asset Placer *)

Module AssetPlacerProps.
Import AssetPlacer.





End AssetPlacerProps.

(** ** Styling Applier: text formatting *)

Module FormattingProps.
Import Pptx Styling.

Lemma update_first_font_id (tf : text_frame) :
  update_first_font (fun f => f) tf = tf.
Proof.
  destruct tf as [ps]. destruct ps as [|p ps]; [reflexivity|].
  destruct p as [rs]. destruct rs as [|r rs]; [reflexivity|].
  destruct r as [t f]. reflexivity.
Qed.

Lemma update_first_font_twice (g1 g2 : font -> font) (tf : text_frame) :
  update_first_font g2 (update_first_font g1 tf)
  = update_first_font (fun f => g2 (g1 f)) tf.
Proof.
  destruct tf as [ps]. destruct ps as [|p ps]; [reflexivity|].
  destruct p as [rs]. destruct rs as [|r rs]; reflexivity.
Qed.

Lemma ffo_ret {A : Type} (a : A) : first_font_only (se_ret a).
Proof. intros tf. exists (fun f => f). symmetry. apply update_first_font_id. Qed.

Lemma ffo_lift {A : Type} (c : res A) : first_font_only (se_lift c).
Proof. intros tf. exists (fun f => f). symmetry. apply update_first_font_id. Qed.

Lemma ffo_assign (g : font -> font) : first_font_only (assign g).
Proof. intros tf. exists g. reflexivity. Qed.

Lemma ffo_bind {A B : Type} (c : SE text_frame A) (k : A -> SE text_frame B) :
  first_font_only c -> (forall a, first_font_only (k a)) ->
  first_font_only (se_bind c k).
Proof.
  intros Hc Hk tf. unfold se_bind.
  destruct (Hc tf) as [g1 Hg1]. destruct (c tf) as [tf' [a|e]]; simpl in Hg1.
  - destruct (Hk a tf') as [g2 Hg2]. exists (fun f => g2 (g1 f)).
    rewrite Hg2, Hg1. apply update_first_font_twice.
  - exists g1. exact Hg1.
Qed.

Lemma ffo_try (c : SE text_frame unit) :
  first_font_only c -> first_font_only (se_try c).
Proof. intros Hc tf. destruct (Hc tf) as [g Hg]. exists g. exact Hg. Qed.

Lemma ffo_if {A : Type} (b : bool) (c1 c2 : SE text_frame A) :
  first_font_only c1 -> first_font_only c2 ->
  first_font_only (if b then c1 else c2).
Proof. destruct b; auto. Qed.

Lemma format_first_run_frame (Pt : pyval -> res Z) (int16 : string -> res Z)
    (format_rules palette : pyval) :
  first_font_only (format_first_run Pt int16 format_rules palette).
Proof.
  unfold format_first_run, skip.
  repeat first
    [ apply ffo_assign
    | apply ffo_ret
    | apply ffo_lift
    | apply ffo_bind; [|intros ?]
    | apply ffo_if
    | apply ffo_try ].
Qed.

(** C10: [_apply_text_formatting] leaves a frame without paragraphs, or
    whose first paragraph has no runs, as it is; on any other frame the
    result differs from the frame at most in the font of the first run of
    the first paragraph: the text of that run, the other runs and the other
    paragraphs are the same. *)
Theorem formatting_touches_first_run_font_only
    (Pt : pyval -> res Z) (int16 : string -> res Z)
    (tf : text_frame) (format_rules palette : pyval) :
  (paragraphs tf = [] ->
   _apply_text_formatting Pt int16 tf format_rules palette = tf)
  /\ (forall p ps,
        paragraphs tf = p :: ps -> runs p = [] ->
        _apply_text_formatting Pt int16 tf format_rules palette = tf)
  /\ (forall p ps r rs,
        paragraphs tf = p :: ps -> runs p = r :: rs ->
        exists f',
          _apply_text_formatting Pt int16 tf format_rules palette
          = {| paragraphs :=
                 {| runs := {| run_text := run_text r; run_font := f' |} :: rs |}
                 :: ps |}).
Proof.
  unfold _apply_text_formatting. split; [|split].
  - intros ->. reflexivity.
  - intros p ps -> ->. reflexivity.
  - intros p ps r rs Hp Hr. rewrite Hp, Hr.
    destruct (format_first_run_frame Pt int16 format_rules palette tf)
      as [g Hg].
    rewrite Hg. unfold update_first_font. rewrite Hp, Hr.
    exists (g (run_font r)). reflexivity.
Qed.

(** C10 on a frame of two paragraphs formatted with the title defaults of
    the fallback manifest: only the font of the first run may differ. *)
Lemma formatting_touches_first_run_font_only_witness :
  exists f',
    _apply_text_formatting Samples.Pt Samples.int16
      (frame_of_text ("Agenda" ++ PyStr.nl ++ "Details"))
      (PDict [("family", PStr "Calibri"); ("size_pt", PInt 32);
              ("bold", PBool true); ("color", PStr "primary")])
      (PDict [("primary", PStr "#1f4e79")])
    = {| paragraphs :=
           {| runs := {| run_text := "Agenda"; run_font := f' |} :: [] |}
           :: [{| runs := [{| run_text := "Details";
                              run_font := plain_font |}] |}] |}.
Proof.
  apply (proj2 (proj2 (formatting_touches_first_run_font_only
                         Samples.Pt Samples.int16
                         (frame_of_text ("Agenda" ++ PyStr.nl ++ "Details"))
                         (PDict [("family", PStr "Calibri");
                                 ("size_pt", PInt 32);
                                 ("bold", PBool true);
                                 ("color", PStr "primary")])
                         (PDict [("primary", PStr "#1f4e79")])))
           {| runs := [{| run_text := "Agenda"; run_font := plain_font |}] |}
           [{| runs := [{| run_text := "Details"; run_font := plain_font |}] |}]
           {| run_text := "Agenda"; run_font := plain_font |} []);
    reflexivity.
Defined.

End FormattingProps.

(** ** Layout Resolver *)

Module ResolverProps.
Import Pptx Resolver.

Lemma prefix_lower (p s : string) :
  prefix p s = true -> prefix (PyStr.lower p) (PyStr.lower s) = true.
Proof.
  revert p. induction s as [|b s IH]; intros [|a p]; simpl; try discriminate;
    try reflexivity.
  destruct (ascii_dec a b) as [->|Hne]; [|discriminate].
  intros H. destruct (ascii_dec (PyStr.lower_char b) (PyStr.lower_char b));
    [apply IH; exact H | contradiction].
Qed.

Lemma contains_unfold (p s : string) :
  PyStr.contains p s
  = prefix p s || match s with
                  | EmptyString => false
                  | String _ r => PyStr.contains p r
                  end.
Proof. destruct s; reflexivity. Qed.

Lemma contains_lower (p s : string) :
  PyStr.contains p s = true ->
  PyStr.contains (PyStr.lower p) (PyStr.lower s) = true.
Proof.
  induction s as [|b s IH]; intros H; rewrite contains_unfold in H;
    rewrite contains_unfold; apply orb_true_iff in H; apply orb_true_iff;
    destruct H as [H|H].
  - left. apply (prefix_lower p ""). exact H.
  - discriminate.
  - left. apply (prefix_lower p (String b s)). exact H.
  - right. apply IH. exact H.
Qed.

Lemma first_where_some (test : pyval -> res bool) (items : list pyval)
    (x : pyval) :
  first_where test items = Ok (Some x) -> In x items /\ test x = Ok true.
Proof.
  induction items as [|y items IH]; simpl; [discriminate|].
  destruct (test y) as [[|]|] eqn:Hy; simpl; try discriminate.
  - intros H. injection H as <-. split; [left; reflexivity | exact Hy].
  - intros H. destruct (IH H) as [Hin Ht]. split; [right; exact Hin | exact Ht].
Qed.

Lemma first_where_none (test : pyval -> res bool) (items : list pyval) :
  first_where test items = Ok None ->
  forall x, In x items -> test x = Ok false.
Proof.
  induction items as [|y items IH]; simpl; [contradiction|].
  destruct (test y) as [[|]|] eqn:Hy; simpl; try discriminate.
  intros H x [<-|Hin]; [exact Hy | apply IH; assumption].
Qed.

(** On dictionaries the first loop is a [find] in manifest order. *)
Lemma first_where_title_content (items : list pyval) :
  Forall (fun ld => exists d, ld = PDict d) items ->
  first_where is_title_content items
  = Ok (List.find (fun ld => has_archetype ld "title_content") items).
Proof.
  induction 1 as [|ld items [d ->] _ IH]; simpl; [reflexivity|].
  unfold has_archetype. simpl.
  destruct (Py.eq_str _ "title_content"); [reflexivity | exact IH].
Qed.

Lemma any_content_of_archetype (ld : pyval) (a : string) :
  has_archetype ld a = true ->
  PyStr.contains "content" (PyStr.lower a) = true ->
  is_any_content ld = Ok true.
Proof.
  unfold has_archetype, is_any_content.
  destruct ld; simpl; try discriminate.
  destruct (Py.lookup d "archetype") as [v|]; simpl; [|discriminate].
  destruct v; simpl; try discriminate.
  intros H Hc. apply String.eqb_eq in H. subst. rewrite Hc. reflexivity.
Qed.

Lemma any_content_of_title_content (ld : pyval) :
  is_title_content ld = Ok true -> is_any_content ld = Ok true.
Proof.
  intros H. apply (any_content_of_archetype ld "title_content"); [|reflexivity].
  unfold is_title_content in H. unfold has_archetype.
  destruct (Py.get ld "archetype" PNone); simpl in H; [|discriminate].
  injection H as H. exact H.
Qed.

Lemma any_content_of_two_content (ld : pyval) :
  is_two_content ld = Ok true -> is_any_content ld = Ok true.
Proof.
  intros H. apply (any_content_of_archetype ld "two_content"); [|reflexivity].
  unfold is_two_content in H. unfold has_archetype.
  destruct (Py.get ld "archetype" PNone); simpl in H; [|discriminate].
  injection H as H. exact H.
Qed.

Lemma any_content_of_capable (ld : pyval) :
  content_capable ld = true -> is_any_content ld = Ok true.
Proof.
  unfold content_capable, is_any_content.
  destruct ld; simpl; try discriminate.
  destruct (Py.lookup d "archetype") as [v|]; simpl; [|discriminate].
  destruct v; simpl; try discriminate.
  intros H. apply contains_lower in H.
  change (PyStr.lower "content") with "content" in H.
  rewrite H. reflexivity.
Qed.

(** An entry the third loop accepts is a dictionary, and its archetype is
    not [section_header]. *)
Lemma any_content_not_section (ld : pyval) :
  is_any_content ld = Ok true ->
  (exists d, ld = PDict d) /\ has_archetype ld "section_header" = false.
Proof.
  unfold is_any_content, has_archetype.
  destruct ld; simpl; try discriminate.
  intros H. split; [eexists; reflexivity|].
  destruct (Py.lookup d "archetype") as [v|]; simpl in *; [|reflexivity].
  destruct v; simpl in *; try reflexivity.
  destruct (String.eqb_spec s "section_header") as [->|]; [|reflexivity].
  discriminate H.
Qed.

(** With a content-capable entry among the layouts, the content tier either
    raises or settles on an entry the third loop accepts. *)
Lemma content_tier_result (layouts : list pyval) (n : Z) :
  existsb content_capable layouts = true ->
  match content_tier (PList layouts) n with
  | Ok (Some ld) => In ld layouts /\ is_any_content ld = Ok true
  | Ok None => False
  | Raise _ => True
  end.
Proof.
  intros Hcap. unfold content_tier. simpl.
  destruct (first_where is_title_content layouts) as [[ld|]|] eqn:H1; simpl;
    [| |exact I].
  - apply first_where_some in H1. destruct H1 as [Hin Ht].
    split; [exact Hin | apply any_content_of_title_content; exact Ht].
  - destruct (if n >? 200 then _ else _) as [[ld|]|] eqn:H2; simpl; [| |exact I].
    + destruct (n >? 200); [|discriminate].
      apply first_where_some in H2. destruct H2 as [Hin Ht].
      split; [exact Hin | apply any_content_of_two_content; exact Ht].
    + destruct (first_where is_any_content layouts) as [[ld|]|] eqn:H3;
        [| |exact I].
      * apply first_where_some in H3. exact H3.
      * apply existsb_exists in Hcap. destruct Hcap as [ld [Hin Hc]].
        apply any_content_of_capable in Hc.
        rewrite (first_where_none _ _ H3 ld Hin) in Hc. discriminate.
Qed.

(** The resolver first settles on a manifest entry and then hands it to
    [found]. *)
Lemma resolve_factor {A : Type} (found : pyval -> res A)
    (slide_content manifest : pyval) :
  resolve found slide_content manifest
  = (r <- resolved_layout_def slide_content manifest ;;
     match r with
     | Some ld => a <- found ld ;; Ok (Some a)
     | None => Ok None
     end).
Proof.
  unfold resolved_layout_def, resolve.
  destruct (Py.get manifest "layouts" _) as [ml|]; simpl; [|reflexivity].
  destruct (Py.truthy ml); simpl; [|reflexivity].
  destruct (Py.get slide_content "title" _); simpl; [|reflexivity].
  destruct (Py.strip _); simpl; [|reflexivity].
  destruct (Py.get slide_content "content" _) as [c|]; simpl; [|reflexivity].
  destruct (Py.strip c); simpl; [|reflexivity].
  destruct (Py.len c); simpl; [|reflexivity].
  destruct (Py.get slide_content "layout_hint" _); simpl; [|reflexivity].
  destruct (if _ && _ then _ else _) as [[ld|]|]; simpl; try reflexivity.
  destruct (if _ || _ then _ else _) as [[ld|]|]; simpl; try reflexivity.
  destruct (Py.item0 ml) as [ld|]; simpl; reflexivity.
Qed.

(** What [_resolve_layout_from_manifest] returns, by the entry settled on. *)
Lemma resolve_by_layout_def (slide_content manifest : pyval) (idx : nat)
    (prs : presentation) :
  _resolve_layout_from_manifest slide_content manifest idx prs
  = match resolved_layout_def slide_content manifest with
    | Ok (Some ld) =>
        match Py.get ld "name" PNone with
        | Ok name => _find_layout_by_name name prs
        | Raise _ => None
        end
    | _ => None
    end.
Proof.
  unfold _resolve_layout_from_manifest. rewrite resolve_factor.
  destruct (resolved_layout_def slide_content manifest) as [[ld|]|]; simpl;
    try reflexivity.
  unfold find_for. destruct (Py.get ld "name" PNone); reflexivity.
Qed.

Lemma not_blank_length (s : string) :
  PyStr.blank s = false -> (Z.of_nat (String.length s) >? 0) = true.
Proof.
  destruct s; [discriminate|]. intros _. simpl String.length.
  rewrite Z.gtb_ltb. apply Z.ltb_lt. lia.
Qed.

Lemma nonempty_truthy (layouts : list pyval) :
  layouts <> [] -> Py.truthy (PList layouts) = true.
Proof. destruct layouts; [congruence | reflexivity]. Qed.

(** The steps of the resolver up to the content tier, for a block whose
    content is the string [s], not blank. *)
Ltac to_content_tier Hl Hc Hnb Htruthy s :=
  unfold resolved_layout_def, resolve;
  rewrite Hl; cbn [bind];
  rewrite Htruthy; cbn [negb];
  rewrite Hc; cbn [bind Py.strip Py.len]; cbv zeta;
  unfold PyStr.blank in Hnb; rewrite Hnb;
  rewrite (not_blank_length s) by exact Hnb;
  cbn [negb andb].

Lemma resolved_with_content (sc m : pyval) (s : string)
    (layouts : list pyval) :
  Py.get sc "content" (PStr "") = Ok (PStr s) ->
  PyStr.blank s = false ->
  Py.get m "layouts" (PList []) = Ok (PList layouts) ->
  existsb content_capable layouts = true ->
  match resolved_layout_def sc m with
  | Ok (Some ld) => In ld layouts /\ is_any_content ld = Ok true
  | Ok None => False
  | Raise _ => True
  end.
Proof.
  intros Hc Hnb Hl Hcap.
  assert (Htruthy : Py.truthy (PList layouts) = true).
  { apply nonempty_truthy. intros ->. discriminate Hcap. }
  to_content_tier Hl Hc Hnb Htruthy s.
  destruct (Py.get sc "title" (PStr "")) as [title|e]; cbn [bind]; [|exact I].
  destruct (Py.strip title) as [t|e]; cbn [bind]; [|exact I].
  destruct (Py.get sc "layout_hint" (PStr "")) as [hint|e]; cbn [bind];
    [|exact I].
  pose proof (content_tier_result layouts
                (Z.of_nat (String.length s)) Hcap) as Htier.
  destruct (content_tier (PList layouts) (Z.of_nat (String.length s)))
    as [[ld|]|]; cbn [bind]; [exact Htier | contradiction | exact I].
Qed.

Lemma resolved_title_content (sc m : pyval) (s t : string)
    (layouts : list pyval) (ld : pyval) :
  Py.get sc "content" (PStr "") = Ok (PStr s) ->
  PyStr.blank s = false ->
  Py.get m "layouts" (PList []) = Ok (PList layouts) ->
  Py.get sc "title" (PStr "") = Ok (PStr t) ->
  Forall (fun ld => exists d, ld = PDict d) layouts ->
  List.find (fun ld => has_archetype ld "title_content") layouts = Some ld ->
  resolved_layout_def sc m = Ok (Some ld).
Proof.
  intros Hc Hnb Hl Ht Hdicts Hfind.
  assert (Htruthy : Py.truthy (PList layouts) = true).
  { apply nonempty_truthy. intros ->. discriminate Hfind. }
  to_content_tier Hl Hc Hnb Htruthy s.
  rewrite Ht. cbn [bind Py.strip].
  destruct (Py.get sc "layout_hint" (PStr "")) as [hint|e] eqn:Hh;
    [|destruct sc; discriminate].
  cbn [bind]. unfold content_tier. cbn [Py.iter bind].
  rewrite (first_where_title_content layouts Hdicts), Hfind.
  reflexivity.
Qed.

(** The two resolver scenarios of the specification: with a [title_only]
    layout L0 and a [title_content] layout L1, a block of 250 characters
    resolves to L1, and an empty block hinted [section] resolves to L0. *)
Example scenario_long_content :
  resolved_layout_def
    (PDict [("title", PStr "Intro"); ("content", PStr (PyStr.zeros 250));
            ("layout_hint", PStr "")])
    (PDict [("layouts",
             PList [PDict [("id", PStr "L0"); ("archetype", PStr "title_only")];
                    PDict [("id", PStr "L1");
                           ("archetype", PStr "title_content")]])])
  = Ok (Some (PDict [("id", PStr "L1"); ("archetype", PStr "title_content")])).
Proof. reflexivity. Qed.

Example scenario_section_hint :
  resolved_layout_def
    (PDict [("title", PStr "Section A"); ("content", PStr "");
            ("layout_hint", PStr "section")])
    (PDict [("layouts",
             PList [PDict [("id", PStr "L0"); ("archetype", PStr "title_only")];
                    PDict [("id", PStr "L1");
                           ("archetype", PStr "title_content")]])])
  = Ok (Some (PDict [("id", PStr "L0"); ("archetype", PStr "title_only")])).
Proof. reflexivity. Qed.

(** Content that is not a string makes the resolver raise at [.strip()]. *)
Lemma resolved_non_string (sc m content : pyval) (layouts : list pyval) :
  Py.get sc "content" (PStr "") = Ok content ->
  (forall s, content <> PStr s) ->
  Py.get m "layouts" (PList []) = Ok (PList layouts) ->
  layouts <> [] ->
  exists e, resolved_layout_def sc m = Raise e.
Proof.
  intros Hc Hns Hl Hne. unfold resolved_layout_def, resolve.
  rewrite Hl. cbn [bind]. rewrite (nonempty_truthy layouts Hne). cbn [negb].
  rewrite Hc.
  destruct (Py.get sc "title" (PStr "")) as [title|e]; cbn [bind];
    [|eexists; reflexivity].
  destruct (Py.strip title) as [t|e]; cbn [bind]; [|eexists; reflexivity].
  destruct content; cbn [Py.strip bind]; try (eexists; reflexivity).
  exfalso. apply (Hns s). reflexivity.
Qed.

(** C2, as stated, fails: the content of the block is a single space, which
    is not the empty string; the manifest has a [title_content] layout; the
    resolver settles on the [section_header] layout. *)
Lemma blank_content_resolves_to_section_header :
  Py.get Samples.space_block "content" (PStr "") = Ok (PStr " ")
  /\ " " <> ""
  /\ existsb content_capable [Samples.section_def; Samples.content_def] = true
  /\ resolved_layout_def Samples.space_block Samples.sample_manifest
     = Ok (Some Samples.section_def)
  /\ has_archetype Samples.section_def "section_header" = true
  /\ _resolve_layout_from_manifest Samples.space_block
       Samples.sample_manifest 0 Samples.sample_prs
     = Some Samples.section_layout.
Proof.
  split; [reflexivity|]. split; [discriminate|].
  repeat split; reflexivity.
Qed.

(** C2, amended: for every ContentBlock whose content is not blank (it is
    not a string of white space only, the empty string included) and every
    manifest with a content-capable layout, the resolver never settles on a
    [section_header] layout, whatever the layout hint: either it settles on
    an entry of the manifest whose archetype contains [content] and returns
    the layout found by that entry's name, or it returns no layout at all
    (the content is not a string, or the manifest or the block is
    malformed).  When the content and the title are strings and the layouts
    are dictionaries, it settles on the first [title_content] entry in
    manifest order, if there is one. *)
Theorem content_outranks_section_hint
    (sc m content : pyval) (layouts : list pyval) :
  Py.get sc "content" (PStr "") = Ok content ->
  (forall s, content = PStr s -> PyStr.blank s = false) ->
  Py.get m "layouts" (PList []) = Ok (PList layouts) ->
  existsb content_capable layouts = true ->
  match resolved_layout_def sc m with
  | Ok (Some ld) =>
      In ld layouts
      /\ is_any_content ld = Ok true
      /\ has_archetype ld "section_header" = false
      /\ (forall idx prs, exists name,
            Py.get ld "name" PNone = Ok name
            /\ _resolve_layout_from_manifest sc m idx prs
               = _find_layout_by_name name prs)
  | Ok None => False
  | Raise _ =>
      forall idx prs, _resolve_layout_from_manifest sc m idx prs = None
  end
  /\ (forall s t ld,
        content = PStr s ->
        Py.get sc "title" (PStr "") = Ok (PStr t) ->
        Forall (fun ld => exists d, ld = PDict d) layouts ->
        List.find (fun ld => has_archetype ld "title_content") layouts
        = Some ld ->
        resolved_layout_def sc m = Ok (Some ld)).
Proof.
  intros Hc Hnb Hl Hcap. split.
  - assert (H : match resolved_layout_def sc m with
                | Ok (Some ld) => In ld layouts /\ is_any_content ld = Ok true
                | Ok None => False
                | Raise _ => True
                end).
    { assert (Hne : layouts <> []) by (intros ->; discriminate Hcap).
      destruct content as [| | | |s| |];
        try (destruct (resolved_non_string sc m _ layouts Hc
                         ltac:(intros s0; discriminate) Hl Hne) as [e ->];
             exact I).
      apply (resolved_with_content sc m s layouts Hc (Hnb s eq_refl) Hl Hcap). }
    destruct (resolved_layout_def sc m) as [[ld|]|e] eqn:Hr.
    + destruct H as [Hin Hany].
      destruct (any_content_not_section ld Hany) as [[d ->] Hns].
      repeat split; try assumption.
      intros idx prs. rewrite resolve_by_layout_def, Hr.
      eexists. split; reflexivity.
    + exact H.
    + intros idx prs. rewrite resolve_by_layout_def, Hr. reflexivity.
  - intros s t ld -> Ht Hdicts Hfind.
    apply (resolved_title_content sc m s t layouts ld); auto.
Qed.

(** The amended C2 on the sample manifest: the block has text and the hint
    [section]; the resolver settles on the [title_content] layout. *)
Lemma content_outranks_section_hint_witness :
  match resolved_layout_def Samples.text_block Samples.sample_manifest with
  | Ok (Some ld) =>
      In ld [Samples.section_def; Samples.content_def]
      /\ is_any_content ld = Ok true
      /\ has_archetype ld "section_header" = false
      /\ (forall idx prs, exists name,
            Py.get ld "name" PNone = Ok name
            /\ _resolve_layout_from_manifest Samples.text_block
                 Samples.sample_manifest idx prs
               = _find_layout_by_name name prs)
  | Ok None => False
  | Raise _ =>
      forall idx prs,
        _resolve_layout_from_manifest Samples.text_block
          Samples.sample_manifest idx prs = None
  end
  /\ (forall s t ld,
        PStr "Welcome" = PStr s ->
        Py.get Samples.text_block "title" (PStr "") = Ok (PStr t) ->
        Forall (fun ld => exists d, ld = PDict d)
               [Samples.section_def; Samples.content_def] ->
        List.find (fun ld => has_archetype ld "title_content")
                  [Samples.section_def; Samples.content_def] = Some ld ->
        resolved_layout_def Samples.text_block Samples.sample_manifest
        = Ok (Some ld)).
Proof.
  apply (content_outranks_section_hint Samples.text_block
           Samples.sample_manifest (PStr "Welcome")
           [Samples.section_def; Samples.content_def]).
  - reflexivity.
  - intros s Hs. injection Hs as <-. reflexivity.
  - reflexivity.
  - reflexivity.
Defined.

End ResolverProps.

(** ** Slide Synthesizer *)

Module SynthesizerProps.
Import Pptx Resolver Synthesizer.

(** A block whose content is a list makes the resolver raise at
    [.strip()], or return early on a manifest without layouts. *)
Lemma resolved_list_content (sc : dict) (items : list pyval) (m : pyval) :
  Py.lookup sc "content" = Some (PList items) ->
  resolved_layout_def (PDict sc) m = Ok None
  \/ exists e, resolved_layout_def (PDict sc) m = Raise e.
Proof.
  intros Hc. unfold resolved_layout_def, resolve.
  destruct (Py.get m "layouts" (PList [])) as [ml|e]; cbn [bind];
    [|right; eexists; reflexivity].
  destruct (Py.truthy ml); cbn [negb]; [|left; reflexivity].
  right. rewrite !get_dict, Hc. cbn [bind].
  destruct (Py.strip _) as [t|e]; cbn [bind Py.strip]; eexists; reflexivity.
Qed.

Lemma styling_keeps_layout (Pt : pyval -> res Z) (int16 : string -> res Z)
    (repr : pyval -> string) (sl : slide) (sc m : pyval) :
  sl_layout (Styling._apply_manifest_styling Pt int16 repr sl sc m)
  = sl_layout sl.
Proof. reflexivity. Qed.

Lemma notes_keep_layout (sl : slide) (sc : pyval) :
  sl_layout (_add_speaker_notes sl sc) = sl_layout sl.
Proof.
  unfold _add_speaker_notes.
  destruct (Py.get sc "speaker_notes" (PStr "")) as [v|]; [|reflexivity].
  destruct (Py.truthy v); [|reflexivity]. destruct v; reflexivity.
Qed.

Lemma default_layout_cases (layouts : list slide_layout) :
  default_layout layouts
  = match layouts with
    | [] => Raise IndexError
    | [only] => Ok only
    | _ :: second :: _ => Ok second
    end.
Proof. destruct layouts as [|l1 [|l2 rest]]; reflexivity. Qed.

(** C9: for a ContentBlock whose content is a list, the resolver returns no
    layout, whatever the manifest and the presentation; the slide is then
    made from the default layout of the presentation: its second layout, or
    its first when it has only one. *)
Theorem list_content_takes_default_layout
    (Pt : pyval -> res Z) (int16 : string -> res Z) (repr : pyval -> string)
    (sc : dict) (items : list pyval) (m : pyval) (idx : nat)
    (prs : presentation) :
  Py.lookup sc "content" = Some (PList items) ->
  _resolve_layout_from_manifest (PDict sc) m idx prs = None
  /\ (forall layout,
        default_layout (slide_layouts prs) = Ok layout ->
        exists sl,
          _create_slide_with_manifest Pt int16 repr prs (PDict sc) m idx = Ok sl
          /\ sl_layout sl = Some layout)
  /\ default_layout (slide_layouts prs)
     = match slide_layouts prs with
       | [] => Raise IndexError
       | [only] => Ok only
       | _ :: second :: _ => Ok second
       end.
Proof.
  intros Hc.
  assert (Hnone : _resolve_layout_from_manifest (PDict sc) m idx prs = None).
  { rewrite ResolverProps.resolve_by_layout_def.
    destruct (resolved_list_content sc items m Hc) as [H|[e H]];
      rewrite H; reflexivity. }
  split; [exact Hnone|]. split; [|apply default_layout_cases].
  intros layout Hd.
  unfold _create_slide_with_manifest, create_slide_try.
  rewrite Hnone, Hd. cbn [Py.get bind].
  eexists. split; [reflexivity|].
  rewrite notes_keep_layout. reflexivity.
Qed.

(** C9 on the sample presentation: the block of bullet points lands on the
    second layout, although the manifest has a [title_content] entry of
    another name order. *)
Lemma list_content_takes_default_layout_witness :
  _resolve_layout_from_manifest Samples.bullet_block
    Samples.sample_manifest 0 Samples.sample_prs = None
  /\ (forall layout,
        default_layout (slide_layouts Samples.sample_prs) = Ok layout ->
        exists sl,
          _create_slide_with_manifest Samples.Pt Samples.int16 Samples.repr
            Samples.sample_prs Samples.bullet_block Samples.sample_manifest 0
          = Ok sl
          /\ sl_layout sl = Some layout)
  /\ default_layout (slide_layouts Samples.sample_prs)
     = Ok Samples.content_layout.
Proof.
  apply (list_content_takes_default_layout
           Samples.Pt Samples.int16 Samples.repr
           [("title", PStr "Intro");
            ("content", PList [PStr "First point"; PStr "Second point"])]
           [PStr "First point"; PStr "Second point"]
           Samples.sample_manifest 0%nat Samples.sample_prs).
  reflexivity.
Defined.

End SynthesizerProps.

(** ** Styling Applier: body text *)

Module StylingProps.
Import Pptx Styling.

(** *** Text written to a frame reads back *)






(** *** Styling does not change which shape is which *)














(** *** The two blocks of the styling *)



Lemma key_points_not_blank (t : string) :
  PyStr.blank ("Key points about " ++ t) = false.
Proof. reflexivity. Qed.





End StylingProps.

(** * Further properties of the code *)

(** ** Content structuring *)

Module StructuringProps.
Import Structuring.

Example split_on_sentences :
  PyMore.split_on ". " "One. Two.  Three. " = ["One"; "Two"; " Three"; ""].
Proof. reflexivity. Qed.

Example remove_all_slide :
  PyMore.remove_all "Slide" "Slide 1: SlideSlides" = " 1: s".
Proof. reflexivity. Qed.

Lemma split_from_nonempty (sep : string) (s : string) (skip : nat) :
  PyMore.split_from sep skip s <> [].
Proof.
  revert skip. induction s as [|c r IH]; intros skip;
    cbn [PyMore.split_from]; [discriminate|].
  destruct skip as [|k]; [|apply IH].
  destruct (prefix sep (String c r)); [discriminate|].
  destruct (PyMore.split_from sep 0 r); discriminate.
Qed.

Lemma sentences_at_least_one (s : string) :
  (1 <= List.length (PyMore.split_on ". " s))%nat.
Proof.
  unfold PyMore.split_on.
  pose proof (split_from_nonempty ". " s 0) as H.
  destruct (PyMore.split_from ". " 0 s); [congruence | simpl; lia].
Qed.

Lemma nth_error_seq_value (a n k i : nat) :
  nth_error (seq a n) k = Some i -> i = (a + k)%nat.
Proof.
  revert a k. induction n as [|n IH]; intros a [|k]; simpl; try discriminate.
  - intros H. injection H as <-. lia.
  - intros H. apply IH in H. lia.
Qed.

(** The range of the chunk loop has between one and seven items. *)
Lemma chunk_count_bounds (n : nat) :
  (1 <= n)%nat ->
  (1 <= range_length n (Nat.max 3 (n / 5)) <= 7)%nat.
Proof.
  intros Hn. unfold range_length.
  pose proof (Nat.div_mod_eq n 5) as Hdiv.
  pose proof (Nat.mod_upper_bound n 5 ltac:(lia)) as Hmod.
  set (c := Nat.max 3 (n / 5)).
  assert (Hc : (3 <= c)%nat) by (unfold c; lia).
  assert (Hn7 : (n <= 7 * c)%nat) by (unfold c; lia).
  split.
  - apply Nat.div_le_lower_bound; lia.
  - assert ((n + c - 1) / c < 8)%nat; [|lia].
    apply Nat.Div0.div_lt_upper_bound. lia.
Qed.

Lemma fallback_slides_length (text : string) :
  (2 <= List.length (fallback_slides text) <= 8)%nat.
Proof.
  unfold fallback_slides.
  set (sentences := PyMore.split_on ". " text).
  set (chunk_size := Nat.max 3 (List.length sentences / 5)).
  pose proof (chunk_count_bounds (List.length sentences)
                (sentences_at_least_one text)) as Hb.
  fold chunk_size in Hb.
  simpl. rewrite length_map, length_seq. lia.
Qed.

(** X1: the locally computed structure of [_create_fallback_structure] has
    between 2 and 8 slides for any text; [total_slides] is their number; the
    slide at position [j] carries [slide_number] [j + 1], the first one
    being the overview slide. *)
Theorem fallback_structure_slide_count (text : string) :
  exists slides,
    _create_fallback_structure (PStr text)
    = Ok (PDict [("presentation_title", PStr "Generated Presentation");
                 ("total_slides", PInt (Z.of_nat (List.length slides)));
                 ("slides", PList slides)])
    /\ (2 <= List.length slides <= 8)%nat
    /\ nth_error slides 0 = Some overview_slide
    /\ (forall j slide,
          nth_error slides j = Some slide ->
          Py.get slide "slide_number" PNone = Ok (PInt (Z.of_nat j + 1))).
Proof.
  exists (fallback_slides text). split; [reflexivity|].
  split; [apply fallback_slides_length|].
  unfold fallback_slides.
  split; [reflexivity|].
  intros j slide Hj. destruct j as [|k]; simpl in Hj.
  - injection Hj as <-. reflexivity.
  - rewrite nth_error_map in Hj.
    destruct (nth_error (seq 0 _) k) as [i|] eqn:Hi; [|discriminate].
    injection Hj as <-.
    apply nth_error_seq_value in Hi. simpl in Hi.
    subst i. unfold key_points_slide. simpl. do 2 f_equal. lia.
Qed.

Lemma filter_none {A : Type} (f : A -> bool) (l : list A) :
  (forall x, In x l -> f x = false) -> filter f l = [].
Proof.
  induction l as [|x l IH]; intros H; simpl; [reflexivity|].
  rewrite (H x (or_introl eq_refl)). apply IH.
  intros y Hy. apply H. right. exact Hy.
Qed.

Lemma extract_loop_count (lines : list string) (slides : list pyval)
    (current : option draft) :
  let result := extract_loop lines slides current in
  (List.length (fst result) + match snd result with Some _ => 1 | None => 0 end
   = List.length slides + match current with Some _ => 1 | None => 0 end
     + List.length (filter (fun raw => is_indicator (PyStr.strip raw)) lines))%nat
  /\ (Forall (fun sl => exists d, sl = draft_dict d) slides ->
      Forall (fun sl => exists d, sl = draft_dict d) (fst result)).
Proof.
  revert slides current. induction lines as [|raw rest IH];
    intros slides current; cbn [extract_loop filter].
  - simpl. split; [lia | auto].
  - destruct (String.eqb_spec (PyStr.strip raw) "") as [E|_].
    + rewrite E. change (is_indicator "") with false. cbv iota.
      apply IH.
    + destruct (is_indicator (PyStr.strip raw)).
      * destruct (IH (match current with
                      | Some d => (slides ++ [draft_dict d])%list
                      | None => slides
                      end)
                    (Some {| draft_title := indicator_title (PyStr.strip raw);
                             draft_content := [] |})) as [Hn Hf].
        split.
        -- rewrite Hn. destruct current; simpl; [rewrite length_app; simpl|];
             lia.
        -- intros H. apply Hf. destruct current; [|exact H].
           apply Forall_app. split; [exact H|].
           constructor; [eexists; reflexivity | constructor].
      * destruct current as [d|].
        -- destruct (IH slides
                       (Some {| draft_title := draft_title d;
                                draft_content :=
                                  (draft_content d ++ [PyStr.strip raw])%list |}))
             as [Hn Hf].
           split; [exact Hn | exact Hf].
        -- apply IH.
Qed.

(** X2: the text fallback [_extract_fallback_structure] opens one slide per
    line that mentions [slide], [title:] or [section] (in any case); every
    slide is a title with a list of content lines; [total_slides] is their
    number.  A text without any such line gives a structure without
    slides. *)
Theorem extract_fallback_one_slide_per_indicator (response : string) :
  exists slides,
    _extract_fallback_structure response
    = PDict [("presentation_title", PStr "Generated Presentation");
             ("total_slides", PInt (Z.of_nat (List.length slides)));
             ("slides", PList slides)]
    /\ List.length slides
       = List.length (filter (fun raw => is_indicator (PyStr.strip raw))
                             (PyStr.split PyStr.newline response))
    /\ Forall (fun sl => exists title content,
                 sl = PDict [("title", PStr title);
                             ("content", PList (map PStr content))]) slides
    /\ ((forall raw, In raw (PyStr.split PyStr.newline response) ->
                     is_indicator (PyStr.strip raw) = false) ->
        slides = []).
Proof.
  unfold _extract_fallback_structure.
  pose proof (extract_loop_count (PyStr.split PyStr.newline response) [] None)
    as [Hn Hf].
  destruct (extract_loop (PyStr.split PyStr.newline response) [] None)
    as [slides current].
  cbn [fst snd] in Hn, Hf. specialize (Hf (Forall_nil _)).
  set (all := match current with
              | Some d => (slides ++ [draft_dict d])%list
              | None => slides
              end).
  assert (Hlen : List.length all
                 = List.length (filter (fun raw => is_indicator (PyStr.strip raw))
                                       (PyStr.split PyStr.newline response))).
  { unfold all. destruct current; [rewrite length_app|]; simpl in *; lia. }
  exists all. split; [reflexivity|]. split; [exact Hlen|]. split.
  - assert (Hall : Forall (fun sl => exists d, sl = draft_dict d) all).
    { unfold all. destruct current; [|exact Hf].
      apply Forall_app. split; [exact Hf|].
      constructor; [eexists; reflexivity | constructor]. }
    eapply Forall_impl; [|exact Hall].
    intros sl [d ->]. exists (draft_title d), (draft_content d). reflexivity.
  - intros Hnone.
    assert (Hz : filter (fun raw => is_indicator (PyStr.strip raw))
                        (PyStr.split PyStr.newline response) = []).
    { apply filter_none. exact Hnone. }
    rewrite Hz in Hlen. destruct all; [reflexivity | discriminate].
Qed.

(** The witness of X2: three lines of plain prose give no slide. *)
Lemma extract_fallback_one_slide_per_indicator_witness :
  _extract_fallback_structure
    ("Quarterly results" ++ PyStr.nl ++ "Revenue grew" ++ PyStr.nl ++ "Thanks")
  = PDict [("presentation_title", PStr "Generated Presentation");
           ("total_slides", PInt 0);
           ("slides", PList [])].
Proof.
  destruct (extract_fallback_one_slide_per_indicator
              ("Quarterly results" ++ PyStr.nl ++ "Revenue grew" ++ PyStr.nl
               ++ "Thanks")) as [slides [E [_ [_ Hnone]]]].
  rewrite E. rewrite Hnone; [reflexivity|].
  intros raw [<-|[<-|[<-|[]]]]; reflexivity.
Defined.

(** A structure that [_validate_structure] accepts is a dictionary whose
    [slides] is a list that is not empty. *)
Lemma validated_has_slides (parsed : pyval) :
  _validate_structure parsed = Ok true ->
  exists slides,
    Py.get parsed "slides" PNone = Ok (PList slides) /\ slides <> [].
Proof.
  unfold _validate_structure.
  destruct (PyMore.all_in _ parsed) as [[|]|]; cbn [bind negb];
    try discriminate.
  destruct parsed; cbn [PyMore.subscript bind]; try discriminate.
  destruct (Py.lookup d "slides") as [v|] eqn:Hl; cbn [bind];
    [|discriminate].
  destruct v; try discriminate.
  destruct l as [|x l]; [discriminate|]. intros _.
  exists (x :: l). split; [|discriminate].
  rewrite get_dict, Hl. reflexivity.
Qed.

Lemma extract_fallback_shape (response : string) :
  exists slides,
    _extract_fallback_structure response
    = PDict [("presentation_title", PStr "Generated Presentation");
             ("total_slides", PInt (Z.of_nat (List.length slides)));
             ("slides", PList slides)].
Proof.
  unfold _extract_fallback_structure.
  destruct (extract_loop (PyStr.split PyStr.newline response) [] None)
    as [slides current].
  eexists. reflexivity.
Qed.

(** What the parser makes of a reply that is text. *)
Lemma parse_text_cases (json_loads : string -> res pyval) (reply : string) :
  exists v slides,
    _parse_llm_response json_loads (PStr reply) = Ok v
    /\ Py.get v "slides" PNone = Ok (PList slides)
    /\ ((_validate_structure v = Ok true /\ slides <> [])
        \/ v = _extract_fallback_structure (PyStr.strip reply)
        \/ (_create_fallback_structure (PStr (PyStr.strip reply)) = Ok v
            /\ slides <> [])).
Proof.
  unfold _parse_llm_response. cbn [Py.strip].
  destruct (parse_candidate json_loads (PyStr.strip reply))
    as [[parsed|]|e] eqn:Hp.
  - assert (Hv : _validate_structure parsed = Ok true).
    { unfold parse_candidate in Hp.
      destruct (negb _ && negb _); [|discriminate].
      destruct (json_loads _) as [p|]; cbn [bind] in Hp; [|discriminate].
      destruct (_validate_structure p) as [[|]|] eqn:Hvp; cbn [bind] in Hp;
        try discriminate.
      injection Hp as <-. exact Hvp. }
    destruct (validated_has_slides parsed Hv) as [slides [Hs Hne]].
    exists parsed, slides. split; [reflexivity|]. split; [exact Hs|].
    left. split; assumption.
  - destruct (extract_fallback_shape (PyStr.strip reply)) as [slides E].
    exists (_extract_fallback_structure (PyStr.strip reply)), slides.
    split; [reflexivity|]. split; [rewrite E; reflexivity|].
    right. left. reflexivity.
  - pose proof (fallback_slides_length (PyStr.strip reply)) as Hlen.
    eexists. exists (fallback_slides (PyStr.strip reply)).
    split; [reflexivity|].
    split; [reflexivity|]. right. right. split; [reflexivity|].
    intros E. rewrite E in Hlen. simpl in Hlen. lia.
Qed.



Lemma make_llm_call_supported (json_loads : string -> res pyval)
    (self : ManifestBuilder.llm_client) (k : nat) :
  ((ManifestBuilder.provider self =? "openai")%string
   || (ManifestBuilder.provider self =? "anthropic")%string
   || (ManifestBuilder.provider self =? "gemini")%string) = true ->
  make_llm_call json_loads self k
  = (response <- ManifestBuilder.api_reply self k ;;
     _parse_llm_response json_loads response).
Proof.
  unfold make_llm_call. intros H.
  destruct (ManifestBuilder.provider self =? "openai")%string; [reflexivity|].
  destruct (ManifestBuilder.provider self =? "anthropic")%string;
    [reflexivity|].
  destruct (ManifestBuilder.provider self =? "gemini")%string;
    [reflexivity | discriminate H].
Qed.

(** X4: [structure_text_to_slides] has no local fallback for a provider
    that fails.  With a supported provider, the first of the (at most
    three) calls that answers with text decides: the result is what
    [_parse_llm_response] makes of that text, a dictionary with a list of
    slides.  When the three calls raise, and always for an unsupported
    provider, it raises [LLMError]. *)
Theorem structure_text_outcomes (json_loads : string -> res pyval)
    (self : ManifestBuilder.llm_client) :
  (((ManifestBuilder.provider self =? "openai")%string
    || (ManifestBuilder.provider self =? "anthropic")%string
    || (ManifestBuilder.provider self =? "gemini")%string) = true ->
   (forall n reply,
       (n <= 2)%nat ->
       (forall k, (k < n)%nat ->
                  raises (ManifestBuilder.api_reply self k) = true) ->
       ManifestBuilder.api_reply self n = Ok (PStr reply) ->
       exists v slides,
         structure_text_to_slides json_loads self = Ok v
         /\ _parse_llm_response json_loads (PStr reply) = Ok v
         /\ Py.get v "slides" PNone = Ok (PList slides))
   /\ ((forall k, (k <= 2)%nat ->
                  raises (ManifestBuilder.api_reply self k) = true) ->
       structure_text_to_slides json_loads self = Raise LLMError))
  /\ (((ManifestBuilder.provider self =? "openai")%string
       || (ManifestBuilder.provider self =? "anthropic")%string
       || (ManifestBuilder.provider self =? "gemini")%string) = false ->
      structure_text_to_slides json_loads self = Raise LLMError).
Proof.
  split.
  - intros Hsup. split.
    + intros n reply Hn Hbefore Hat.
      destruct (parse_text_cases json_loads reply)
        as [v [slides [Hv [Hs _]]]].
      exists v, slides. split; [|split; assumption].
      unfold structure_text_to_slides.
      rewrite (ManifestBuilderProps.execute_first_success
                 (make_llm_call json_loads self) n v); [reflexivity|exact Hn| |].
      * intros k Hk. rewrite (make_llm_call_supported _ _ _ Hsup).
        specialize (Hbefore k Hk).
        destruct (ManifestBuilder.api_reply self k); [discriminate|reflexivity].
      * rewrite (make_llm_call_supported _ _ _ Hsup), Hat. exact Hv.
    + intros Hall. unfold structure_text_to_slides.
      assert (H : raises (ManifestBuilder.execute
                            (make_llm_call json_loads self)) = true).
      { apply ManifestBuilderProps.execute_all_fail. intros k Hk.
        rewrite (make_llm_call_supported _ _ _ Hsup).
        specialize (Hall k Hk).
        destruct (ManifestBuilder.api_reply self k); [discriminate|reflexivity]. }
      destruct (ManifestBuilder.execute _); [discriminate | reflexivity].
  - intros Hun. unfold structure_text_to_slides.
    assert (H : raises (ManifestBuilder.execute
                          (make_llm_call json_loads self)) = true).
    { apply ManifestBuilderProps.execute_all_fail. intros k _.
      unfold make_llm_call.
      destruct (ManifestBuilder.provider self =? "openai")%string;
        [discriminate Hun|].
      destruct (ManifestBuilder.provider self =? "anthropic")%string;
        [discriminate Hun|].
      destruct (ManifestBuilder.provider self =? "gemini")%string;
        [discriminate Hun | reflexivity]. }
    destruct (ManifestBuilder.execute _); [discriminate | reflexivity].
Qed.

(** The witness of X4: the provider that cannot be reached. *)
Lemma structure_text_outcomes_witness :
  structure_text_to_slides Samples.loads_empty_object
    Samples.unreachable_client = Raise LLMError.
Proof.
  apply (proj2 (proj1 (structure_text_outcomes Samples.loads_empty_object
                         Samples.unreachable_client) eq_refl)).
  intros k Hk. reflexivity.
Defined.

End StructuringProps.

(** ** Retries and the circuit breaker *)

Module RetryProps.
Import ManifestBuilder.


Section BreakerProps.
Import Breaker.

Variable time : Type.
Variable recovered : time -> time -> bool.

Lemma record_keeps_threshold (cb : breaker time) (ev : event time) :
  failure_threshold time (record time cb ev) = failure_threshold time cb.
Proof.
  destruct ev; simpl; [|reflexivity].
  unfold record_success. destruct (state time cb); reflexivity.
Qed.

(** With successes and failures only, a breaker is closed below the
    threshold and open from the threshold on. *)
Lemma record_events_invariant (events : list (event time))
    (cb : breaker time) :
  (state time cb = CLOSED
   /\ failure_count time cb < failure_threshold time cb)
  \/ (state time cb = OPEN
      /\ failure_threshold time cb <= failure_count time cb) ->
  let final := fold_left (record time) events cb in
  failure_count time final
  = failure_count time cb
    + Z.of_nat (List.length (filter (is_failure time) events))
  /\ state time final
     = (if failure_threshold time cb <=? failure_count time final
        then OPEN else CLOSED).
Proof.
  revert cb. induction events as [|ev events IH]; intros cb Hinv.
  - simpl. rewrite Z.add_0_r. split; [reflexivity|].
    destruct Hinv as [[Hs Hc]|[Hs Hc]]; rewrite Hs.
    + destruct (Z.leb_spec (failure_threshold time cb) (failure_count time cb));
        [lia | reflexivity].
    + destruct (Z.leb_spec (failure_threshold time cb) (failure_count time cb));
        [reflexivity | lia].
  - cbn [fold_left filter].
    assert (Hstep :
      ((state time (record time cb ev) = CLOSED
        /\ failure_count time (record time cb ev)
           < failure_threshold time (record time cb ev))
       \/ (state time (record time cb ev) = OPEN
           /\ failure_threshold time (record time cb ev)
              <= failure_count time (record time cb ev)))
      /\ failure_count time (record time cb ev)
         = failure_count time cb + (if is_failure time ev then 1 else 0)).
    { destruct ev as [|now]; simpl.
      - unfold record_success.
        destruct Hinv as [[Hs Hc]|[Hs Hc]]; rewrite Hs; simpl;
          (split; [|lia]); [left | right]; rewrite Hs; split;
          (reflexivity || lia).
      - destruct Hinv as [[Hs Hc]|[Hs Hc]]; rewrite Hs; simpl.
        + destruct (Z.leb_spec (failure_threshold time cb)
                               (failure_count time cb + 1));
            (split; [|lia]); [right | left]; split; (reflexivity || lia).
        + split; [|lia]. right. split; [reflexivity | lia]. }
    destruct Hstep as [Hinv' Hcount].
    destruct (IH (record time cb ev) Hinv') as [Hc Hs].
    rewrite record_keeps_threshold in Hs.
    cbv zeta. split; [|exact Hs].
    rewrite Hc, Hcount. destruct (is_failure time ev); simpl List.length; lia.
Qed.

(** X6: a new circuit breaker with a positive threshold, after any sequence
    of recorded successes and failures, has counted all the failures and is
    OPEN exactly when their number has reached the threshold: a success
    recorded while the breaker is closed does not reset the count, so the
    failures need not be consecutive. *)
Theorem breaker_opens_at_threshold (threshold : Z)
    (events : list (event time)) :
  0 < threshold ->
  let final := fold_left (record time) events (fresh time threshold) in
  failure_count time final
  = Z.of_nat (List.length (filter (is_failure time) events))
  /\ state time final
     = (if threshold <=? Z.of_nat (List.length (filter (is_failure time) events))
        then OPEN else CLOSED).
Proof.
  intros Hpos.
  destruct (record_events_invariant events (fresh time threshold)) as [Hc Hs].
  { left. split; [reflexivity | exact Hpos]. }
  cbv zeta. simpl in Hc. split; [exact Hc|].
  rewrite Hs. simpl. rewrite Hc. reflexivity.
Qed.

(** X7: calls through an OPEN breaker.  Before the recovery timeout has
    passed since the last failure the call is refused, the wrapped function
    is not called and the breaker stays as it is.  After it, one call is
    let through: if it succeeds the breaker is CLOSED again with its count
    at zero, if it raises the breaker is OPEN again, the failure counted and
    timed. *)
Theorem open_breaker_probe {A : Type} (func : res A) (now later last : time)
    (cb : breaker time) :
  state time cb = OPEN ->
  last_failure_time time cb = Some last ->
  (recovered now last = false ->
   call time recovered func now later cb = (Rejected, cb))
  /\ (recovered now last = true ->
      (forall result, func = Ok result ->
         call time recovered func now later cb
         = (Returned result,
            {| failure_threshold := failure_threshold time cb;
               failure_count := 0;
               last_failure_time := Some last;
               state := CLOSED |}))
      /\ (forall e, func = Raise e ->
            call time recovered func now later cb
            = (Raised e,
               {| failure_threshold := failure_threshold time cb;
                  failure_count := failure_count time cb + 1;
                  last_failure_time := Some later;
                  state := OPEN |}))).
Proof.
  intros Hs Hl. unfold call, is_available. rewrite Hs, Hl. split.
  - intros ->. reflexivity.
  - intros ->. split.
    + intros result ->. unfold record_success, with_state. cbn.
      rewrite ?Hl. reflexivity.
    + intros e ->. reflexivity.
Qed.

End BreakerProps.

(** The witness of X6: threshold 2, a failure, a success, a failure. *)
Lemma breaker_opens_at_threshold_witness :
  Breaker.failure_count nat
    (fold_left (Breaker.record nat)
       [Breaker.Failure nat 10%nat; Breaker.Success nat;
        Breaker.Failure nat 20%nat]
       (Breaker.fresh nat 2)) = 2
  /\ Breaker.state nat
       (fold_left (Breaker.record nat)
          [Breaker.Failure nat 10%nat; Breaker.Success nat;
           Breaker.Failure nat 20%nat]
          (Breaker.fresh nat 2)) = Breaker.OPEN.
Proof.
  apply (breaker_opens_at_threshold nat 2
           [Breaker.Failure nat 10%nat; Breaker.Success nat;
            Breaker.Failure nat 20%nat]).
  lia.
Defined.

(** The witness of X7: a breaker opened at time 10 and asked again at time
    15, with a timeout of 60, refuses the call. *)
Lemma open_breaker_probe_witness :
  (Breaker.call nat (fun now last => Nat.ltb 60 (now - last)) (Ok 7) 15%nat
     16%nat
     {| Breaker.failure_threshold := 1; Breaker.failure_count := 1;
        Breaker.last_failure_time := Some 10%nat;
        Breaker.state := Breaker.OPEN |}
   = (Breaker.Rejected,
      {| Breaker.failure_threshold := 1; Breaker.failure_count := 1;
         Breaker.last_failure_time := Some 10%nat;
         Breaker.state := Breaker.OPEN |})).
Proof.
  apply (proj1 (open_breaker_probe nat (fun now last => Nat.ltb 60 (now - last))
                  (Ok 7) 15%nat 16%nat 10%nat
                  {| Breaker.failure_threshold := 1;
                     Breaker.failure_count := 1;
                     Breaker.last_failure_time := Some 10%nat;
                     Breaker.state := Breaker.OPEN |}
                  eq_refl eq_refl)).
  reflexivity.
Defined.

End RetryProps.

(** ** Input validation and the client *)

Module ValidationProps.
Import Validation.

Lemma rstrip_rstrip (s : string) : PyStr.rstrip (PyStr.rstrip s) = PyStr.rstrip s.
Proof.
  induction s as [|c r IH]; [reflexivity|]. cbn [PyStr.rstrip].
  destruct (PyStr.is_space c && (PyStr.rstrip r =? "")%string) eqn:E;
    [reflexivity|].
  cbn [PyStr.rstrip]. rewrite IH, E. reflexivity.
Qed.

Lemma lstrip_shape (s : string) :
  PyStr.lstrip s = ""
  \/ exists c r, PyStr.lstrip s = String c r /\ PyStr.is_space c = false.
Proof.
  induction s as [|c r IH]; [left; reflexivity|]. cbn [PyStr.lstrip].
  destruct (PyStr.is_space c) eqn:E; [exact IH|].
  right. exists c, r. split; [reflexivity | exact E].
Qed.

(** [strip] leaves a stripped string as it is. *)
Lemma strip_strip (s : string) : PyStr.strip (PyStr.strip s) = PyStr.strip s.
Proof.
  unfold PyStr.strip.
  destruct (lstrip_shape s) as [E|[c [r [E Hc]]]]; rewrite E.
  - reflexivity.
  - cbn [PyStr.rstrip]. rewrite Hc. cbn [andb PyStr.lstrip]. rewrite Hc.
    cbn [PyStr.rstrip]. rewrite Hc, rstrip_rstrip. reflexivity.
Qed.

Lemma strip_empty : PyStr.strip "" = "".
Proof. reflexivity. Qed.

Lemma blank_test_strip (s : string) :
  ((PyStr.strip s =? "") || (PyStr.strip (PyStr.strip s) =? ""))%string
  = ((s =? "") || (PyStr.strip s =? ""))%string.
Proof.
  rewrite strip_strip, orb_diag.
  destruct (String.eqb_spec s "") as [->|_]; reflexivity.
Qed.

Lemma prefix_app (p q s : string) :
  prefix (p ++ q) s = true -> prefix p s = true.
Proof.
  revert s. induction p as [|a p IH]; intros s H.
  - destruct s; reflexivity.
  - destruct s as [|b s]; [discriminate H|]. simpl in *.
    destruct (ascii_dec a b); [apply IH; exact H | discriminate H].
Qed.

(** X8: [validate_api_key] judges the key without the white space around
    it; a blank key is rejected for every provider; a key accepted for
    [anthropic] is accepted for [openai]; for a provider other than the
    three known ones every key that is not blank is accepted. *)
Theorem api_key_validation (api_key provider : string) :
  validate_api_key (PyStr.strip api_key) provider
  = validate_api_key api_key provider
  /\ (PyStr.blank api_key = true ->
      validate_api_key api_key provider = Failed "MISSING_API_KEY")
  /\ (validate_api_key api_key "anthropic" = Passed ->
      validate_api_key api_key "openai" = Passed)
  /\ (PyStr.blank api_key = false ->
      provider <> "openai" -> provider <> "anthropic" ->
      provider <> "gemini" ->
      validate_api_key api_key provider = Passed).
Proof.
  split; [|split; [|split]].
  - unfold validate_api_key. rewrite blank_test_strip, strip_strip.
    reflexivity.
  - unfold PyStr.blank, validate_api_key. intros ->.
    rewrite orb_true_r. reflexivity.
  - unfold validate_api_key.
    destruct ((api_key =? "") || (PyStr.strip api_key =? ""))%string;
      [discriminate|].
    simpl.
    destruct (prefix "sk-ant-" (PyStr.strip api_key)) eqn:E;
      [|discriminate].
    intros _. rewrite (prefix_app "sk-" "ant-" _ E). reflexivity.
  - unfold PyStr.blank, validate_api_key. intros Hb H1 H2 H3.
    rewrite Hb, orb_false_r.
    destruct (String.eqb_spec api_key "") as [->|_]; [discriminate Hb|].
    destruct (String.eqb_spec provider "openai"); [contradiction|].
    destruct (String.eqb_spec provider "anthropic"); [contradiction|].
    destruct (String.eqb_spec provider "gemini"); [contradiction|].
    reflexivity.
Qed.

(** The witness of X8: a key of the Anthropic form. *)
Lemma api_key_validation_witness :
  validate_api_key "  sk-ant-api03-abcdef  " "openai" = Passed.
Proof.
  apply (proj1 (proj2 (proj2 (api_key_validation "  sk-ant-api03-abcdef  "
                                "anthropic")))).
  reflexivity.
Defined.

(** X9: an [LLMIntegration] object that has been constructed has one of the
    three supported providers, in lower case whatever the case it was given
    in, and a key that passed [validate_api_key] for it; so the branch of
    [make_manifest_call] for an unsupported provider is never taken on it:
    every call goes to the provider and its reply to the parser. *)
Theorem constructed_client_is_supported (api_key provider : string)
    (sdk : string -> res (nat -> res pyval))
    (self : ManifestBuilder.llm_client) :
  LLMIntegration_init api_key provider sdk = Constructed self ->
  ManifestBuilder.provider self = PyStr.lower provider
  /\ (ManifestBuilder.provider self = "openai"
      \/ ManifestBuilder.provider self = "anthropic"
      \/ ManifestBuilder.provider self = "gemini")
  /\ validate_api_key api_key (ManifestBuilder.provider self) = Passed
  /\ (forall json_loads attempt,
        ManifestBuilder.make_manifest_call json_loads self attempt
        = (response <- ManifestBuilder.api_reply self attempt ;;
           ManifestBuilder._parse_manifest_response json_loads response)).
Proof.
  unfold LLMIntegration_init. intros H.
  destruct (validate_api_key api_key (PyStr.lower provider)) eqn:Hv;
    [|discriminate].
  destruct ((PyStr.lower provider =? "openai")%string
            || (PyStr.lower provider =? "anthropic")%string
            || (PyStr.lower provider =? "gemini")%string) eqn:Hs;
    [|discriminate].
  destruct (sdk (PyStr.lower provider)) as [replies|]; [|discriminate].
  injection H as <-. cbn [ManifestBuilder.provider].
  split; [reflexivity|].
  assert (Hp : PyStr.lower provider = "openai"
               \/ PyStr.lower provider = "anthropic"
               \/ PyStr.lower provider = "gemini").
  { apply orb_true_iff in Hs. destruct Hs as [Hs|Hs].
    - apply orb_true_iff in Hs. destruct Hs as [Hs|Hs];
        apply String.eqb_eq in Hs; auto.
    - apply String.eqb_eq in Hs. auto. }
  split; [exact Hp|]. split; [exact Hv|].
  intros json_loads attempt. unfold ManifestBuilder.make_manifest_call.
  cbn [ManifestBuilder.provider ManifestBuilder.api_reply].
  destruct Hp as [E | [E | E]]; rewrite E; reflexivity.
Qed.

(** The witness of X9: the provider given as [OpenAI]. *)
Lemma constructed_client_is_supported_witness :
  ManifestBuilder.provider
    {| ManifestBuilder.provider := "openai";
       ManifestBuilder.api_reply := fun _ => Ok (PStr "{}") |}
  = PyStr.lower "OpenAI".
Proof.
  apply (proj1 (constructed_client_is_supported "sk-test" "OpenAI"
                  (fun _ => Ok (fun _ => Ok (PStr "{}")))
                  {| ManifestBuilder.provider := "openai";
                     ManifestBuilder.api_reply := fun _ => Ok (PStr "{}") |}
                  eq_refl)).
Defined.

(** X10: [validate_text_input] accepts a text exactly when, stripped of the
    white space around it, it has between 100 and 100000 characters; the
    verdict is that of the stripped text. *)
Theorem text_input_validation (text : string) :
  (validate_text_input text = Passed <->
   100 <= Z.of_nat (String.length (PyStr.strip text)) <= 100000)
  /\ validate_text_input (PyStr.strip text) = validate_text_input text.
Proof.
  split.
  - unfold validate_text_input, MIN_TEXT_LENGTH, MAX_TEXT_LENGTH.
    destruct (String.eqb_spec (PyStr.strip text) "") as [E|Hne].
    + rewrite orb_true_r, E. simpl. split; [discriminate | lia].
    + rewrite orb_false_r.
      destruct (String.eqb_spec text "") as [->|_]; [contradiction|].
      destruct (Z.ltb_spec (Z.of_nat (String.length (PyStr.strip text))) 100).
      * split; [discriminate | lia].
      * destruct (Z.ltb_spec 100000
                    (Z.of_nat (String.length (PyStr.strip text)))).
        -- split; [discriminate | lia].
        -- split; [lia | reflexivity].
  - unfold validate_text_input. rewrite blank_test_strip, strip_strip.
    reflexivity.
Qed.

Lemma find_lower_bound (c : ascii) (s : string) : -1 <= PyStr.find c s.
Proof.
  induction s as [|d r IH]; simpl; [lia|].
  destruct (Ascii.eqb c d); [lia|].
  destruct (Z.eqb_spec (PyStr.find c r) (-1)); lia.
Qed.

Lemma no_dot_after_last (s : string) :
  PyStr.find "." s = -1 -> PyMore.after_last_dot s = None.
Proof.
  induction s as [|d r IH]; [reflexivity|]. cbn [PyStr.find PyMore.after_last_dot].
  rewrite (Ascii.eqb_sym d ".").
  destruct (Ascii.eqb "." d); [discriminate|].
  pose proof (find_lower_bound "." r).
  destruct (Z.eqb_spec (PyStr.find "." r) (-1)) as [E|_]; [|lia].
  intros _. rewrite (IH E). reflexivity.
Qed.

Lemma after_last_dot_app (name ext : string) :
  PyMore.after_last_dot ext = None ->
  PyMore.after_last_dot (name ++ "." ++ ext) = Some ext.
Proof.
  intros H. induction name as [|c name IH].
  - cbn [String.append PyMore.after_last_dot]. rewrite H. reflexivity.
  - cbn [String.append PyMore.after_last_dot]. simpl in IH. rewrite IH.
    reflexivity.
Qed.

(** X11: [allowed_file] looks only at what follows the last dot of the file
    name, without regard to case: a name is accepted exactly when that
    extension is [pptx] or [potx]; a name without a dot is refused. *)
Theorem allowed_file_by_last_extension :
  (forall name ext,
      PyStr.find "." ext = -1 ->
      allowed_file (name ++ "." ++ ext)
      = ((PyStr.lower ext =? "pptx") || (PyStr.lower ext =? "potx"))%string)
  /\ (forall filename,
        PyStr.find "." filename = -1 -> allowed_file filename = false).
Proof.
  split.
  - intros name ext H. unfold allowed_file.
    rewrite (after_last_dot_app name ext (no_dot_after_last ext H)).
    reflexivity.
  - intros filename H. unfold allowed_file.
    rewrite (no_dot_after_last filename H). reflexivity.
Qed.

(** The witness of X11: an executable dressed as a deck is refused. *)
Lemma allowed_file_by_last_extension_witness :
  allowed_file ("deck.pptx" ++ "." ++ "exe") = false.
Proof.
  rewrite (proj1 allowed_file_by_last_extension "deck.pptx" "exe");
    reflexivity.
Defined.

End ValidationProps.

(** ** Layout resolution against the presentation *)

Module LayoutProps.
Import Pptx Resolver.

Lemma default_layout_member (layouts : list slide_layout) (l : slide_layout) :
  default_layout layouts = Ok l -> In l layouts.
Proof.
  unfold default_layout.
  destruct (nth_error layouts _) as [x|] eqn:E; [|discriminate].
  intros H. injection H as <-. apply (nth_error_In _ _ E).
Qed.

Lemma default_layout_exists (layouts : list slide_layout) :
  layouts <> [] -> exists l, default_layout layouts = Ok l.
Proof.
  destruct layouts as [|l1 [|l2 rest]]; [congruence | |]; intros _;
    eexists; reflexivity.
Qed.

(** X12: [_find_layout_by_name] returns a layout of the presentation: the
    first one of that name when there is one, else the default layout (the
    second layout, or the first when there is only one); it returns nothing
    only when the presentation has no layouts. *)
Theorem find_layout_by_name_law (layout_name : pyval) (prs : presentation) :
  (forall l, _find_layout_by_name layout_name prs = Some l ->
             In l (slide_layouts prs))
  /\ (_find_layout_by_name layout_name prs = None <-> slide_layouts prs = [])
  /\ (forall before l after,
        slide_layouts prs = (before ++ l :: after)%list ->
        Py.eq_str layout_name (Pptx.layout_name l) = true ->
        (forall x, In x before ->
                   Py.eq_str layout_name (Pptx.layout_name x) = false) ->
        _find_layout_by_name layout_name prs = Some l)
  /\ ((forall x, In x (slide_layouts prs) ->
                 Py.eq_str layout_name (Pptx.layout_name x) = false) ->
      _find_layout_by_name layout_name prs
      = match default_layout (slide_layouts prs) with
        | Ok l => Some l
        | Raise _ => None
        end).
Proof.
  unfold _find_layout_by_name. split; [|split; [|split]].
  - intros l.
    destruct (find _ (slide_layouts prs)) as [x|] eqn:E.
    + intros H. injection H as <-. apply (find_some _ _ E).
    + destruct (default_layout (slide_layouts prs)) as [x|] eqn:D;
        [|discriminate].
      intros H. injection H as <-. apply default_layout_member. exact D.
  - split.
    + destruct (find _ (slide_layouts prs)) as [x|]; [discriminate|].
      destruct (slide_layouts prs) as [|l1 rest]; [reflexivity|].
      destruct (default_layout_exists (l1 :: rest) ltac:(discriminate))
        as [l ->].
      discriminate.
    + intros ->. reflexivity.
  - intros before l after -> Hl Hbefore.
    assert (E : find (fun layout =>
                        Py.eq_str layout_name (Pptx.layout_name layout))
                     (before ++ l :: after) = Some l).
    { induction before as [|b before IH]; simpl.
      - rewrite Hl. reflexivity.
      - rewrite (Hbefore b (or_introl eq_refl)). apply IH.
        intros x Hx. apply Hbefore. right. exact Hx. }
    rewrite E. reflexivity.
  - intros Hnone.
    destruct (find _ (slide_layouts prs)) as [x|] eqn:E; [|reflexivity].
    destruct (find_some _ _ E) as [Hin Hx].
    rewrite (Hnone x Hin) in Hx. discriminate.
Qed.

(** The witness of X12: no layout of the sample is named [Agenda]. *)
Lemma find_layout_by_name_law_witness :
  _find_layout_by_name (PStr "Agenda") Samples.sample_prs
  = Some Samples.content_layout.
Proof.
  rewrite (proj2 (proj2 (proj2 (find_layout_by_name_law (PStr "Agenda")
                                  Samples.sample_prs)))).
  - reflexivity.
  - intros x [<-|[<-|[]]]; reflexivity.
Defined.

Lemma find_member (layout_name : pyval) (prs : presentation)
    (l : slide_layout) :
  _find_layout_by_name layout_name prs = Some l -> In l (slide_layouts prs).
Proof.
  unfold _find_layout_by_name.
  destruct (find _ (slide_layouts prs)) as [x|] eqn:E.
  - intros H. injection H as <-. apply (find_some _ _ E).
  - destruct (default_layout (slide_layouts prs)) as [x|] eqn:D;
      [|discriminate].
    intros H. injection H as <-. apply default_layout_member. exact D.
Qed.

Lemma resolve_member (sc m : pyval) (idx : nat) (prs : presentation)
    (l : slide_layout) :
  _resolve_layout_from_manifest sc m idx prs = Some l ->
  In l (slide_layouts prs).
Proof.
  rewrite ResolverProps.resolve_by_layout_def.
  destruct (resolved_layout_def sc m) as [[ld|]|]; try discriminate.
  destruct (Py.get ld "name" PNone) as [name|]; [|discriminate].
  apply find_member.
Qed.

Lemma resolve_none_without_layouts (sc m : pyval) (idx : nat)
    (prs : presentation) :
  slide_layouts prs = [] ->
  _resolve_layout_from_manifest sc m idx prs = None.
Proof.
  intros Hempty.
  destruct (_resolve_layout_from_manifest sc m idx prs) as [l|] eqn:E;
    [|reflexivity].
  apply resolve_member in E. rewrite Hempty in E. destruct E.
Qed.

(** X13: [_resolve_layout_from_manifest] never returns a layout that is not
    one of the presentation's; it returns nothing when the manifest is not
    a dictionary, has no [layouts] or an empty one, and when the
    presentation has no layouts. *)
Theorem resolver_returns_presentation_layout (sc m : pyval) (idx : nat)
    (prs : presentation) :
  (forall l, _resolve_layout_from_manifest sc m idx prs = Some l ->
             In l (slide_layouts prs))
  /\ ((forall d, m <> PDict d) ->
      _resolve_layout_from_manifest sc m idx prs = None)
  /\ (forall layouts,
        Py.get m "layouts" (PList []) = Ok layouts ->
        Py.truthy layouts = false ->
        _resolve_layout_from_manifest sc m idx prs = None)
  /\ (slide_layouts prs = [] ->
      _resolve_layout_from_manifest sc m idx prs = None).
Proof.
  split; [|split; [|split]].
  - intros l. apply resolve_member.
  - intros Hm. unfold _resolve_layout_from_manifest, resolve.
    destruct m; try reflexivity. exfalso. apply (Hm d). reflexivity.
  - intros layouts Hl Ht. unfold _resolve_layout_from_manifest, resolve.
    rewrite Hl. cbn [bind]. rewrite Ht. reflexivity.
  - apply resolve_none_without_layouts.
Qed.

(** The witness of X13: a manifest that is a list. *)
Lemma resolver_returns_presentation_layout_witness :
  _resolve_layout_from_manifest Samples.text_block (PList []) 0
    Samples.sample_prs = None.
Proof.
  apply (proj1 (proj2 (resolver_returns_presentation_layout
                         Samples.text_block (PList []) 0 Samples.sample_prs))).
  intros d. discriminate.
Defined.

Lemma first_where_all_false (test : pyval -> res bool) (items : list pyval) :
  (forall x, In x items -> test x = Ok false) ->
  first_where test items = Ok None.
Proof.
  induction items as [|x items IH]; intros H; simpl; [reflexivity|].
  rewrite (H x (or_introl eq_refl)). simpl. apply IH.
  intros y Hy. apply H. right. exact Hy.
Qed.

(** Without archetypes every loop of the resolver comes back empty and the
    first entry of the manifest is taken. *)
Lemma resolved_without_archetypes (sc : dict) (m : pyval) (ld0 : pyval)
    (others : list pyval) (t s : string) :
  Py.get m "layouts" (PList []) = Ok (PList (ld0 :: others)) ->
  (forall ld, In ld (ld0 :: others) ->
              exists d, ld = PDict d /\ Py.lookup d "archetype" = None) ->
  Py.get (PDict sc) "title" (PStr "") = Ok (PStr t) ->
  Py.get (PDict sc) "content" (PStr "") = Ok (PStr s) ->
  resolved_layout_def (PDict sc) m = Ok (Some ld0).
Proof.
  intros Hl Hno Ht Hc.
  assert (H1 : first_where is_title_content (ld0 :: others) = Ok None).
  { apply first_where_all_false. intros ld Hin.
    destruct (Hno ld Hin) as [d [-> Ha]].
    unfold is_title_content. rewrite get_dict, Ha. reflexivity. }
  assert (H2 : first_where is_two_content (ld0 :: others) = Ok None).
  { apply first_where_all_false. intros ld Hin.
    destruct (Hno ld Hin) as [d [-> Ha]].
    unfold is_two_content. rewrite get_dict, Ha. reflexivity. }
  assert (H3 : first_where is_any_content (ld0 :: others) = Ok None).
  { apply first_where_all_false. intros ld Hin.
    destruct (Hno ld Hin) as [d [-> Ha]].
    unfold is_any_content. rewrite get_dict, Ha. reflexivity. }
  assert (H4 : first_where is_section_or_title_only (ld0 :: others) = Ok None).
  { apply first_where_all_false. intros ld Hin.
    destruct (Hno ld Hin) as [d [-> Ha]].
    unfold is_section_or_title_only. rewrite get_dict, Ha. reflexivity. }
  assert (Htier : forall n, content_tier (PList (ld0 :: others)) n = Ok None).
  { intros n. unfold content_tier. cbn [Py.iter bind].
    rewrite H1. cbn [bind]. destruct (n >? 200); [rewrite H2|]; cbn [bind];
      exact H3. }
  unfold resolved_layout_def, resolve.
  rewrite Hl. cbn [bind Py.truthy negb]. rewrite Ht. cbn [bind Py.strip].
  rewrite Hc. cbn [bind Py.strip Py.len]. cbv zeta.
  rewrite (get_dict sc "layout_hint"). cbn [bind].
  rewrite Htier.
  destruct (negb (PyStr.strip s =? "")%string
            && (Z.of_nat (String.length s) >? 0)); cbn [bind];
    (destruct (_ || _); cbn [Py.iter bind]; [rewrite H4; cbn [bind]|];
     reflexivity).
Qed.

Lemma layouts_loop_entries (layouts : list slide_layout) (i : nat)
    (ld : pyval) :
  In ld (Extractor.layouts_loop i layouts) ->
  exists d, ld = PDict d /\ Py.lookup d "archetype" = None.
Proof.
  revert i. induction layouts as [|l layouts IH]; intros i; simpl;
    [contradiction|].
  intros [<-|Hin]; [|apply (IH _ Hin)].
  eexists. split; reflexivity.
Qed.

(** X14: under the fallback manifest built from what the extractor reads
    from a presentation, every content block with a string title and a
    string content, whatever they are and whatever the layout hint,
    resolves to the first layout of that presentation. *)
Theorem fallback_manifest_resolves_to_first_layout
    (prs : presentation) (w h : Z) (first : slide_layout)
    (others : list slide_layout) (sc : dict) (t s : string) (idx : nat) :
  slide_width prs = Some w -> slide_height prs = Some h ->
  slide_layouts prs = first :: others ->
  Py.get (PDict sc) "title" (PStr "") = Ok (PStr t) ->
  Py.get (PDict sc) "content" (PStr "") = Ok (PStr s) ->
  exists raw m,
    Extractor.extract_raw_template_data (Ok prs) = Ok raw
    /\ ManifestBuilder._create_fallback_manifest raw = Ok m
    /\ _resolve_layout_from_manifest (PDict sc) m idx prs = Some first.
Proof.
  intros Hw Hh Hlay Ht Hc.
  unfold Extractor.extract_raw_template_data, Extractor.extract_body.
  cbn [bind]. rewrite Hw, Hh. cbn [bind Extractor.int_of].
  destruct (Extractor.theme_loop (slide_masters prs) [] []) as [colors fonts].
  eexists. eexists. split; [reflexivity|]. split; [reflexivity|].
  rewrite ResolverProps.resolve_by_layout_def.
  rewrite Hlay. cbn [Extractor.layouts_loop].
  rewrite (resolved_without_archetypes sc _
             (Extractor.layout_data 0 first)
             (Extractor.layouts_loop 1 others) t s); try assumption.
  - cbn. unfold _find_layout_by_name. rewrite Hlay. cbn.
    rewrite String.eqb_refl. reflexivity.
  - reflexivity.
  - intros ld Hin.
    apply (layouts_loop_entries (first :: others) 0 ld). exact Hin.
Qed.

(** The witness of X14: the sample presentation and the block hinted
    [section]. *)
Lemma fallback_manifest_resolves_to_first_layout_witness :
  exists raw m,
    Extractor.extract_raw_template_data (Ok Samples.sample_prs) = Ok raw
    /\ ManifestBuilder._create_fallback_manifest raw = Ok m
    /\ _resolve_layout_from_manifest Samples.text_block m 0
         Samples.sample_prs = Some Samples.section_layout.
Proof.
  apply (fallback_manifest_resolves_to_first_layout Samples.sample_prs
           9144000 6858000 Samples.section_layout [Samples.content_layout]
           [("title", PStr "Intro"); ("content", PStr "Welcome");
            ("layout_hint", PStr "section")] "Intro" "Welcome" 0%nat);
    reflexivity.
Defined.

End LayoutProps.

(** ** Slides and decks *)

Module DeckProps.
Import Pptx Resolver Synthesizer Deck.

Section Runtime.

Variable Pt : pyval -> res Z.
Variable int16 : string -> res Z.
Variable repr : pyval -> string.

Lemma chosen_layout_ok (sc m : pyval) (idx : nat) (prs : presentation) :
  slide_layouts prs <> [] ->
  exists l,
    match _resolve_layout_from_manifest sc m idx prs with
    | Some layout => Ok layout
    | None => default_layout (slide_layouts prs)
    end = Ok l
    /\ In l (slide_layouts prs).
Proof.
  intros Hne.
  destruct (_resolve_layout_from_manifest sc m idx prs) as [l|] eqn:E.
  - exists l. split; [reflexivity|]. apply (LayoutProps.resolve_member _ _ _ _ _ E).
  - destruct (LayoutProps.default_layout_exists _ Hne) as [l Hl].
    exists l. split; [exact Hl|]. apply LayoutProps.default_layout_member.
    exact Hl.
Qed.

Lemma create_slide_on_layout (prs : presentation) (m : pyval) (idx : nat)
    (sc : dict) :
  slide_layouts prs <> [] ->
  exists sl l,
    _create_slide_with_manifest Pt int16 repr prs (PDict sc) m idx = Ok sl
    /\ sl_layout sl = Some l
    /\ In l (slide_layouts prs).
Proof.
  intros Hne.
  destruct (chosen_layout_ok (PDict sc) m idx prs Hne) as [l [Hl Hin]].
  unfold _create_slide_with_manifest, create_slide_try.
  cbn [Py.get bind]. rewrite Hl. cbn [bind].
  eexists. exists l. split; [reflexivity|]. split; [|exact Hin].
  rewrite SynthesizerProps.notes_keep_layout. reflexivity.
Qed.

(** X15: on a presentation with at least one layout, for a content block
    that is a dictionary, [_create_slide_with_manifest] always makes a
    slide, whatever the manifest, and the slide is built on one of the
    presentation's layouts.  On a presentation without layouts it raises
    [IndexError] for every block and manifest. *)
Theorem create_slide_always_succeeds (prs : presentation) (m : pyval)
    (idx : nat) :
  (slide_layouts prs <> [] ->
   forall sc : dict, exists sl l,
     _create_slide_with_manifest Pt int16 repr prs (PDict sc) m idx = Ok sl
     /\ sl_layout sl = Some l
     /\ In l (slide_layouts prs))
  /\ (slide_layouts prs = [] ->
      forall sc : pyval,
        _create_slide_with_manifest Pt int16 repr prs sc m idx
        = Raise IndexError).
Proof.
  split.
  - intros Hne sc. apply create_slide_on_layout. exact Hne.
  - intros Hempty sc.
    unfold _create_slide_with_manifest, create_slide_try, create_slide_except.
    rewrite (LayoutProps.resolve_none_without_layouts sc m idx prs Hempty).
    rewrite Hempty.
    destruct (Py.get sc "title" (PStr "Untitled")); reflexivity.
Qed.

Lemma delete_last {A : Type} (l : list A) (x : A) :
  delete_at (List.length l) (l ++ [x]) = l.
Proof. induction l as [|y l IH]; simpl; [reflexivity | rewrite IH; reflexivity]. Qed.

(** The loop that drops the slides of the template leaves none. *)
Lemma clear_slides_empty (sls : list slide) : clear_slides sls = [].
Proof.
  unfold clear_slides. induction sls as [|x sls IH] using rev_ind;
    [reflexivity|].
  rewrite length_app. simpl List.length.
  rewrite Nat.add_1_r, seq_S, rev_app_distr. cbn [rev app fold_left Nat.add].
  rewrite delete_last. exact IH.
Qed.

Lemma create_loop_ok (blocks : list dict) (m : pyval) (prs : presentation)
    (idx : nat) :
  slide_layouts prs <> [] ->
  exists deck made,
    create_loop Pt int16 repr prs (map PDict blocks) m idx = Ok deck
    /\ slide_layouts deck = slide_layouts prs
    /\ slides deck = (slides prs ++ made)%list
    /\ List.length made = List.length blocks
    /\ Forall (fun sl => exists l, sl_layout sl = Some l
                                  /\ In l (slide_layouts prs)) made.
Proof.
  revert prs idx. induction blocks as [|sc blocks IH]; intros prs idx Hne.
  - exists prs, []. cbn. rewrite app_nil_r. repeat split; constructor.
  - cbn [map create_loop].
    destruct (create_slide_on_layout prs m idx sc Hne) as [sl [l [E [Hl Hin]]]].
    rewrite E. cbn [bind].
    destruct (IH (with_slides (slides prs ++ [sl]) prs) (S idx) Hne)
      as [deck [made [Ed [Hlay [Hsl [Hlen Hall]]]]]].
    exists deck, (sl :: made). split; [exact Ed|]. split; [exact Hlay|].
    split; [rewrite Hsl; cbn; rewrite <- app_assoc; reflexivity|].
    split; [simpl; rewrite Hlen; reflexivity|].
    constructor; [exists l; split; assumption | exact Hall].
Qed.

(** X16: [generate_presentation_with_manifest], on a template with at least
    one layout, a manifest whose [layouts] can be counted and a structure
    whose [slides] is a list of dictionaries, returns a deck that has the
    layouts of the template and exactly one slide per content block, none
    of the template's own slides being left; every slide is built on a
    layout of the template.  A template that cannot be opened makes it
    raise the exception of the opening. *)
Theorem deck_has_one_slide_per_block (prs : presentation)
    (manifest : pyval) (n : Z) (structure : dict) (blocks : list dict) :
  slide_layouts prs <> [] ->
  (layouts <- Py.get manifest "layouts" (PList []) ;; Py.len layouts) = Ok n ->
  Py.lookup structure "slides" = Some (PList (map PDict blocks)) ->
  (exists deck,
      generate_presentation_with_manifest Pt int16 repr (Ok prs)
        (PDict structure) manifest = Ok deck
      /\ slide_layouts deck = slide_layouts prs
      /\ List.length (slides deck) = List.length blocks
      /\ Forall (fun sl => exists l, sl_layout sl = Some l
                                    /\ In l (slide_layouts prs))
                (slides deck))
  /\ (forall e,
        generate_presentation_with_manifest Pt int16 repr (Raise e)
          (PDict structure) manifest = Raise e).
Proof.
  intros Hne Hm Hs. split; [|reflexivity].
  unfold generate_presentation_with_manifest. cbn [bind].
  rewrite Hm. cbn [bind]. rewrite get_dict, Hs. cbn [bind Py.iter].
  rewrite clear_slides_empty.
  destruct (create_loop_ok blocks manifest (with_slides [] prs) 0 Hne)
    as [deck [made [E [Hlay [Hsl [Hlen Hall]]]]]].
  exists deck. split; [exact E|]. split; [exact Hlay|].
  cbn in Hsl. rewrite Hsl. split; assumption.
Qed.

End Runtime.

(** The witness of X15: a block without anything on the sample
    presentation, under a manifest that is not even a dictionary. *)
Lemma create_slide_always_succeeds_witness :
  exists sl l,
    _create_slide_with_manifest Samples.Pt Samples.int16 Samples.repr
      Samples.sample_prs (PDict []) PNone 3 = Ok sl
    /\ sl_layout sl = Some l
    /\ In l (slide_layouts Samples.sample_prs).
Proof.
  apply (proj1 (create_slide_always_succeeds Samples.Pt Samples.int16
                  Samples.repr Samples.sample_prs PNone 3%nat)).
  discriminate.
Defined.

(** The witness of X16: two blocks on the sample template, whose own slide
    is dropped. *)
Lemma deck_has_one_slide_per_block_witness :
  exists deck,
    generate_presentation_with_manifest Samples.Pt Samples.int16 Samples.repr
      (Ok Samples.sample_prs)
      (PDict [("slides", PList (map PDict
                 [[("title", PStr "Intro"); ("content", PStr "Welcome")];
                  [("title", PStr "End"); ("content", PStr "")]]))])
      Samples.sample_manifest = Ok deck
    /\ slide_layouts deck = slide_layouts Samples.sample_prs
    /\ List.length (slides deck) = 2%nat
    /\ Forall (fun sl => exists l, sl_layout sl = Some l
                                  /\ In l (slide_layouts Samples.sample_prs))
              (slides deck).
Proof.
  apply (proj1 (deck_has_one_slide_per_block Samples.Pt Samples.int16
                  Samples.repr Samples.sample_prs Samples.sample_manifest 2
                  [("slides", PList (map PDict
                      [[("title", PStr "Intro"); ("content", PStr "Welcome")];
                       [("title", PStr "End"); ("content", PStr "")]]))]
                  [[("title", PStr "Intro"); ("content", PStr "Welcome")];
                   [("title", PStr "End"); ("content", PStr "")]]
                  ltac:(discriminate) eq_refl eq_refl)).
Defined.

End DeckProps.

(** ** The placeholder cascade and what the styling writes *)

Module LocatorProps.
Import Pptx Styling.







End LocatorProps.

Module WritingProps.
Import Pptx Styling.


Section Runtime.

Variable Pt : pyval -> res Z.
Variable int16 : string -> res Z.
Variable repr : pyval -> string.




End Runtime.


End WritingProps.

(** ** More on the extractor *)

Module ExtractionProps.
Import Pptx Extractor.

Lemma store_keys (d : dict) (k : string) (v : pyval) (k' : string) :
  In k' (map fst (Py.store d k v)) <-> In k' (map fst d) \/ k' = k.
Proof.
  induction d as [|[k0 v0] d IH]; simpl.
  - split; [intros [E | []]; right; symmetry; exact E
           | intros [[] | E]; left; symmetry; exact E].
  - destruct (String.eqb_spec k0 k) as [->|Hne]; simpl.
    + intuition congruence.
    + rewrite IH. intuition congruence.
Qed.

Lemma store_nodup (d : dict) (k : string) (v : pyval) :
  NoDup (map fst d) -> NoDup (map fst (Py.store d k v)).
Proof.
  induction d as [|[k0 v0] d IH]; simpl; intros H.
  - constructor; [intros [] | constructor].
  - destruct (String.eqb_spec k0 k) as [->|Hne]; simpl; [exact H|].
    inversion H as [|? ? Hnotin Hd]; subst.
    constructor; [|apply IH; exact Hd].
    rewrite store_keys. intros [Hin|E]; [contradiction | congruence].
Qed.

Lemma store_within (keys : list string) (d : dict) (k : string) (v : pyval) :
  In k keys -> incl (map fst d) keys -> incl (map fst (Py.store d k v)) keys.
Proof.
  intros Hk Hd k' Hin. apply store_keys in Hin.
  destruct Hin as [Hin| ->]; [apply Hd; exact Hin | exact Hk].
Qed.

Lemma scheme_colors_keys (scheme : list scheme_color) (colors : dict) :
  NoDup (map fst colors) /\ incl (map fst colors) (map color_name (seq 0 12)) ->
  NoDup (map fst (scheme_colors scheme colors))
  /\ incl (map fst (scheme_colors scheme colors)) (map color_name (seq 0 12)).
Proof.
  unfold scheme_colors.
  assert (G : forall js colors,
             incl js (seq 0 12) ->
             NoDup (map fst colors)
             /\ incl (map fst colors) (map color_name (seq 0 12)) ->
             NoDup (map fst (fold_left (color_step scheme) js colors))
             /\ incl (map fst (fold_left (color_step scheme) js colors))
                     (map color_name (seq 0 12))).
  { induction js as [|j js IH]; intros cs Hjs Hinv; [exact Hinv|].
    cbn [fold_left]. apply IH.
    - intros x Hx. apply Hjs. right. exact Hx.
    - unfold color_step.
      destruct (nth_error scheme j) as [c|]; [|exact Hinv].
      destruct (color_rgb c); [|exact Hinv].
      destruct Hinv as [Hnd Hincl]. split; [apply store_nodup; exact Hnd|].
      apply store_within; [|exact Hincl].
      apply in_map. apply Hjs. left. reflexivity. }
  apply G. apply incl_refl.
Qed.

Lemma scheme_fonts_keys (t : option theme) (fonts : dict) :
  NoDup (map fst fonts) /\ incl (map fst fonts) ["major"; "minor"] ->
  NoDup (map fst (scheme_fonts t fonts))
  /\ incl (map fst (scheme_fonts t fonts)) ["major"; "minor"].
Proof.
  intros [Hnd Hincl]. unfold scheme_fonts.
  destruct t as [th|]; [|split; assumption].
  destruct (theme_font_scheme th) as [[fs|]|]; try (split; assumption).
  assert (H1 : forall latin,
             NoDup (map fst (Py.store fonts "major" latin))
             /\ incl (map fst (Py.store fonts "major" latin))
                     ["major"; "minor"]).
  { intros latin. split; [apply store_nodup; exact Hnd|].
    apply store_within; [left; reflexivity | exact Hincl]. }
  destruct (major_font_latin fs) as [[latin|]|];
    [destruct (H1 latin) as [Hnd1 Hincl1] | split; assumption |];
    destruct (minor_font_latin fs) as [[latin2|]|];
    try (split; assumption);
    (split; [apply store_nodup; assumption
            | apply store_within; [right; left; reflexivity | assumption]]).
Qed.

Lemma theme_loop_keys (masters : list slide_master) (colors fonts : dict) :
  NoDup (map fst colors) /\ incl (map fst colors) (map color_name (seq 0 12)) ->
  NoDup (map fst fonts) /\ incl (map fst fonts) ["major"; "minor"] ->
  (NoDup (map fst (fst (theme_loop masters colors fonts)))
   /\ incl (map fst (fst (theme_loop masters colors fonts)))
           (map color_name (seq 0 12)))
  /\ (NoDup (map fst (snd (theme_loop masters colors fonts)))
      /\ incl (map fst (snd (theme_loop masters colors fonts)))
              ["major"; "minor"]).
Proof.
  revert colors fonts. induction masters as [|master masters IH];
    intros colors fonts Hc Hf; cbn [theme_loop].
  - split; assumption.
  - destruct (master_theme master) as [t|]; [|split; assumption].
    apply IH; [|apply scheme_fonts_keys; exact Hf].
    destruct t as [th|]; [|exact Hc].
    destruct (theme_color_scheme th); [|exact Hc].
    apply scheme_colors_keys. exact Hc.
Qed.

(** X19: whatever the template, its masters and their themes, the theme
    data the extractor returns holds at most twelve colours, each under one
    of the twelve slot names and no name twice, and at most the two fonts
    [major] and [minor], also when several masters are read. *)
Theorem theme_data_is_bounded (opened : res presentation) :
  exists raw colors fonts,
    extract_raw_template_data opened = Ok raw
    /\ Py.get raw "theme" PNone
       = Ok (PDict [("colors", PDict colors); ("fonts", PDict fonts)])
    /\ NoDup (map fst colors)
    /\ incl (map fst colors) (map color_name (seq 0 12))
    /\ (List.length colors <= 12)%nat
    /\ NoDup (map fst fonts)
    /\ incl (map fst fonts) ["major"; "minor"]
    /\ (List.length fonts <= 2)%nat.
Proof.
  assert (Hempty : exists raw colors fonts,
             Ok default_raw_data = Ok raw
             /\ Py.get raw "theme" PNone
                = Ok (PDict [("colors", PDict colors); ("fonts", PDict fonts)])
             /\ NoDup (map fst colors)
             /\ incl (map fst colors) (map color_name (seq 0 12))
             /\ (List.length colors <= 12)%nat
             /\ NoDup (map fst fonts)
             /\ incl (map fst fonts) ["major"; "minor"]
             /\ (List.length fonts <= 2)%nat).
  { exists default_raw_data, [], []. split; [reflexivity|].
    split; [reflexivity|]. simpl.
    split; [apply NoDup_nil|]. split; [intros x []|]. split; [lia|].
    split; [apply NoDup_nil|]. split; [intros x []|]. lia. }
  unfold extract_raw_template_data, extract_body.
  destruct opened as [prs|e]; cbn [bind]; [|exact Hempty].
  destruct (slide_width prs); cbn [bind int_of]; [|exact Hempty].
  destruct (slide_height prs); cbn [bind int_of]; [|exact Hempty].
  pose proof (theme_loop_keys (slide_masters prs) [] []) as H.
  destruct (theme_loop (slide_masters prs) [] []) as [colors fonts].
  cbn [fst snd] in H.
  destruct H as [[Hc1 Hc2] [Hf1 Hf2]].
  { split; [constructor | intros x []]. }
  { split; [constructor | intros x []]. }
  eexists. exists colors, fonts. split; [reflexivity|].
  split; [reflexivity|].
  split; [exact Hc1|]. split; [exact Hc2|].
  split.
  { rewrite <- (length_map fst colors).
    apply (NoDup_incl_length Hc1) in Hc2.
    rewrite (length_map color_name), length_seq in Hc2. exact Hc2. }
  split; [exact Hf1|]. split; [exact Hf2|].
  rewrite <- (length_map fst fonts).
  apply (NoDup_incl_length Hf1) in Hf2. exact Hf2.
Qed.

Lemma layouts_loop_nth (layouts : list slide_layout) (start i : nat)
    (l : slide_layout) :
  nth_error layouts i = Some l ->
  nth_error (layouts_loop start layouts) i = Some (layout_data (start + i) l).
Proof.
  revert start i. induction layouts as [|x layouts IH]; intros start [|i];
    simpl; try discriminate.
  - intros H. injection H as ->. rewrite Nat.add_0_r. reflexivity.
  - intros H. rewrite (IH (S start) i H). do 2 f_equal. lia.
Qed.

Lemma layouts_loop_length (layouts : list slide_layout) (start : nat) :
  List.length (layouts_loop start layouts) = List.length layouts.
Proof.
  revert start. induction layouts as [|x layouts IH]; intros start; simpl;
    [reflexivity | rewrite IH; reflexivity].
Qed.

Lemma placeholders_loop_copies (phs : list (res placeholder_data))
    (pd : placeholder_data) :
  In (Ok pd) phs -> In (ph_data pd) (placeholders_loop phs).
Proof.
  induction phs as [|[x|e] phs IH]; simpl; [contradiction | |].
  - intros [H|H]; [injection H as ->; left; reflexivity | right; apply IH; exact H].
  - intros [H|H]; [discriminate | apply IH; exact H].
Qed.

Lemma placeholders_loop_length (phs : list (res placeholder_data)) :
  (List.length (placeholders_loop phs) <= List.length phs)%nat.
Proof.
  induction phs as [|[x|e] phs IH]; simpl; lia.
Qed.

(** X20: on a template that opens and has a slide size, the extractor
    returns one entry per layout, in the order of the template: the entry
    at position [i] carries the index [i], the name of the layout and its
    placeholders; every placeholder that can be read is there with the
    left, top, width and height it has in the template, unchanged. *)
Theorem extracted_layouts_follow_template (prs : presentation) (w h : Z) :
  slide_width prs = Some w -> slide_height prs = Some h ->
  exists raw entries,
    extract_raw_template_data (Ok prs) = Ok raw
    /\ Py.get raw "layouts" PNone = Ok (PList entries)
    /\ List.length entries = List.length (slide_layouts prs)
    /\ (forall i l,
          nth_error (slide_layouts prs) i = Some l ->
          exists placeholders,
            nth_error entries i
            = Some (PDict [("index", PInt (Z.of_nat i));
                           ("name", PStr (layout_name l));
                           ("placeholders", PList placeholders)])
            /\ (List.length placeholders
                <= List.length (layout_placeholders l))%nat
            /\ (forall pd,
                  In (Ok pd) (layout_placeholders l) ->
                  In (PDict [("kind", PStr (enum_name (pd_type_repr pd)));
                             ("left", PInt (pd_left pd));
                             ("top", PInt (pd_top pd));
                             ("width", PInt (pd_width pd));
                             ("height", PInt (pd_height pd))])
                     placeholders)).
Proof.
  intros Hw Hh. unfold extract_raw_template_data, extract_body.
  cbn [bind]. rewrite Hw, Hh. cbn [bind int_of].
  destruct (theme_loop (slide_masters prs) [] []) as [colors fonts].
  eexists. exists (layouts_loop 0 (slide_layouts prs)).
  split; [reflexivity|]. split; [reflexivity|].
  split; [apply layouts_loop_length|].
  intros i l Hn. exists (placeholders_loop (layout_placeholders l)).
  split; [rewrite (layouts_loop_nth _ 0 i l Hn); reflexivity|].
  split; [apply placeholders_loop_length|].
  intros pd Hin. apply (placeholders_loop_copies _ pd Hin).
Qed.

(** The witness of X20: the sample template. *)
Lemma extracted_layouts_follow_template_witness :
  exists raw entries,
    extract_raw_template_data (Ok Samples.sample_prs) = Ok raw
    /\ Py.get raw "layouts" PNone = Ok (PList entries)
    /\ List.length entries = 2%nat.
Proof.
  destruct (extracted_layouts_follow_template Samples.sample_prs
              9144000 6858000 eq_refl eq_refl)
    as [raw [entries [E [Hl [Hlen _]]]]].
  exists raw, entries. split; [exact E|]. split; [exact Hl | exact Hlen].
Defined.

End ExtractionProps.

(** ** Replies that hold no JSON object *)

Module ManifestReplyProps.
Import ManifestBuilder.

Lemma find_none_cons (c d : ascii) (r : string) :
  PyStr.find c (String d r) = -1 <->
  Ascii.eqb c d = false /\ PyStr.find c r = -1.
Proof.
  cbn [PyStr.find]. pose proof (ValidationProps.find_lower_bound c r) as Hb.
  destruct (Ascii.eqb c d).
  - split; [discriminate | intros [H _]; discriminate H].
  - destruct (Z.eqb_spec (PyStr.find c r) (-1)) as [E|E].
    + split; [intros _; split; [reflexivity | exact E] | reflexivity].
    + split; [lia | intros [_ H]; contradiction].
Qed.

Lemma find_none_lstrip (c : ascii) (s : string) :
  PyStr.find c s = -1 -> PyStr.find c (PyStr.lstrip s) = -1.
Proof.
  induction s as [|d r IH]; [reflexivity|]. intros H.
  cbn [PyStr.lstrip]. destruct (PyStr.is_space d); [|exact H].
  apply IH. apply find_none_cons in H. apply H.
Qed.

Lemma find_none_rstrip (c : ascii) (s : string) :
  PyStr.find c s = -1 -> PyStr.find c (PyStr.rstrip s) = -1.
Proof.
  induction s as [|d r IH]; [reflexivity|]. intros H.
  apply find_none_cons in H. destruct H as [Hd Hr].
  cbn [PyStr.rstrip].
  destruct (PyStr.is_space d && (PyStr.rstrip r =? "")%string);
    [reflexivity|].
  apply find_none_cons. split; [exact Hd | apply IH; exact Hr].
Qed.

Lemma find_none_strip (c : ascii) (s : string) :
  PyStr.find c s = -1 -> PyStr.find c (PyStr.strip s) = -1.
Proof.
  intros H. unfold PyStr.strip. apply find_none_rstrip, find_none_lstrip, H.
Qed.

Lemma substring_zero (n : nat) (s : string) : substring n 0 s = "".
Proof.
  revert n. induction s as [|d r IH]; intros [|n]; simpl;
    try reflexivity. apply IH.
Qed.

Lemma slice_to_zero (s : string) (i : Z) : 0 <= i -> PyStr.slice s i 0 = "".
Proof.
  intros Hi. unfold PyStr.slice.
  replace (Z.to_nat (0 - i)) with 0%nat by lia. apply substring_zero.
Qed.

Lemma parse_without_brace (json_loads : string -> res pyval) (s : string) :
  PyStr.find "{" s = -1 ->
  _parse_manifest_response json_loads (PStr s) = Raise ValueError.
Proof.
  intros H. unfold _parse_manifest_response. cbn [Py.strip bind].
  rewrite (find_none_strip _ _ H). reflexivity.
Qed.

(** X21: a reply of the model that holds no opening brace never reaches
    [json.loads]: parsing it raises [ValueError] whatever the JSON parser
    would do.  A reply with an opening brace and no closing one hands the
    empty string to [json.loads], since [rfind] gives -1 and the end index
    is 0.  When the three replies of the provider are all text without an
    opening brace, the manifest is the fallback manifest. *)
Theorem reply_without_json_object
    (json_loads : string -> res pyval) (self : llm_client) (raw : dict) :
  (forall s,
      PyStr.find "{" s = -1 ->
      _parse_manifest_response json_loads (PStr s) = Raise ValueError)
  /\ (forall s,
        PyStr.find "{" (PyStr.strip s) <> -1 ->
        PyStr.rfind "}" (PyStr.strip s) = -1 ->
        _parse_manifest_response json_loads (PStr s) = json_loads "")
  /\ ((forall k, (k <= 2)%nat ->
         exists s, api_reply self k = Ok (PStr s) /\ PyStr.find "{" s = -1) ->
      exists m,
        generate_template_manifest json_loads self (PDict raw) = Ok (PDict m)
        /\ _create_fallback_manifest (PDict raw) = Ok (PDict m)).
Proof.
  split; [apply parse_without_brace|]. split.
  - intros s Hopen Hclose. unfold _parse_manifest_response.
    cbn [Py.strip bind]. rewrite Hclose.
    destruct (Z.eqb_spec (PyStr.find "{" (PyStr.strip s)) (-1)) as [E|E];
      [contradiction|].
    cbn [negb andb Z.add Z.eqb Z.opp Z.pos_sub Pos.pred_double].
    change (-1 + 1) with 0. cbn [Z.eqb negb].
    rewrite slice_to_zero; [reflexivity|].
    pose proof (ValidationProps.find_lower_bound "{" (PyStr.strip s)). lia.
  - intros Hreplies.
    assert (Hfail : raises (execute (make_manifest_call json_loads self))
                    = true).
    { apply ManifestBuilderProps.execute_all_fail. intros k Hk.
      destruct (Hreplies k Hk) as [s [Hs Hno]].
      unfold make_manifest_call.
      destruct (provider self =? "openai")%string;
        [rewrite Hs; cbn [bind]; rewrite (parse_without_brace _ _ Hno);
         reflexivity|].
      destruct (provider self =? "anthropic")%string;
        [rewrite Hs; cbn [bind]; rewrite (parse_without_brace _ _ Hno);
         reflexivity|].
      destruct (provider self =? "gemini")%string;
        [rewrite Hs; cbn [bind]; rewrite (parse_without_brace _ _ Hno);
         reflexivity|].
      reflexivity. }
    destruct (ManifestBuilderProps.fallback_on_dict raw) as [m Hm].
    exists m. split; [|exact Hm].
    unfold generate_template_manifest.
    destruct (execute (make_manifest_call json_loads self));
      [discriminate Hfail|].
    rewrite Hm. reflexivity.
Qed.

(** The witness of X21: a reply in prose. *)
Lemma reply_without_json_object_witness :
  _parse_manifest_response Samples.loads_empty_object
    (PStr "I cannot analyse this template.") = Raise ValueError.
Proof.
  apply (proj1 (reply_without_json_object Samples.loads_empty_object
                  Samples.unreachable_client [])).
  reflexivity.
Defined.

End ManifestReplyProps.

(** ** The layout index of the older slide builder *)

Module LegacyProps.
Import Pptx Legacy.

Lemma first_index_bound (test : pyval -> res bool) (items : list pyval)
    (start i : nat) :
  first_index test start items = Ok (Some i) ->
  (start <= i < start + List.length items)%nat.
Proof.
  revert start. induction items as [|x items IH]; intros start;
    cbn [first_index]; [discriminate|].
  destruct (test x) as [[|]|e]; cbn [bind]; [| |discriminate].
  - intros H. injection H as <-. simpl. lia.
  - intros H. apply IH in H. simpl. lia.
Qed.

Lemma truthy_len (v : pyval) (n : Z) :
  Py.truthy v = true -> Py.len v = Ok n -> 1 <= n.
Proof.
  destruct v as [| | | |s|l|d]; simpl; try discriminate.
  - destruct s; [discriminate|]. intros _ H. injection H as <-.
    cbn [String.length]. lia.
  - destruct l; [discriminate|]. intros _ H. injection H as <-.
    cbn [List.length]. lia.
  - destruct d; [discriminate|]. intros _ H. injection H as <-.
    cbn [List.length]. lia.
Qed.

Lemma layout_at_member (i : Z) (layouts : list slide_layout) :
  0 <= i -> layouts <> [] ->
  exists l, layout_at i layouts = Ok l /\ In l layouts.
Proof.
  intros Hi Hne. unfold layout_at.
  assert (Hlen : (0 < List.length layouts)%nat)
    by (destruct layouts; [contradiction | simpl; lia]).
  destruct (Z.ltb_spec i (Z.of_nat (List.length layouts))) as [Hlt|Hge].
  - destruct (Z.ltb_spec i 0) as [Hneg|_]; [lia|].
    destruct (Z.ltb_spec i 0) as [Hneg|_]; [lia|].
    destruct (nth_error layouts (Z.to_nat i)) as [l|] eqn:E.
    + exists l. split; [reflexivity | apply (nth_error_In _ _ E)].
    + apply nth_error_None in E. lia.
  - cbn. destruct layouts as [|l rest]; [contradiction|].
    exists l. split; [reflexivity | left; reflexivity].
Qed.

(** X22: the older slide builder's layout choice.  With a template analysis
    that lists no layouts the choice is index 0, whatever the slide content
    is.  Whenever a choice is returned it is not negative, it is below the
    number of listed layouts when that list is not empty, and looking it up
    in a presentation that has at least one layout always gives one of the
    presentation's layouts, never an [IndexError]: an index past the end
    falls back to the first layout. *)
Theorem legacy_layout_choice_in_range :
  (forall (slide_content : pyval) (d : dict),
      Py.lookup d "layouts" = None ->
      _choose_layout_enhanced slide_content (PDict d) = Ok 0)
  /\ (forall (slide_content template_analysis : pyval) (i : Z),
        _choose_layout_enhanced slide_content template_analysis = Ok i ->
        0 <= i
        /\ (forall listed,
              Py.get template_analysis "layouts" (PList []) = Ok (PList listed) ->
              listed <> [] -> i < Z.of_nat (List.length listed))
        /\ (forall layouts,
              layouts <> [] ->
              exists l, layout_at i layouts = Ok l /\ In l layouts)).
Proof.
  split.
  - intros sc d Hd. unfold _choose_layout_enhanced. cbn [Py.get bind].
    rewrite Hd. reflexivity.
  - intros sc ta i H.
    assert (Hrange : 0 <= i
              /\ (forall listed,
                    Py.get ta "layouts" (PList []) = Ok (PList listed) ->
                    listed <> [] -> i < Z.of_nat (List.length listed))).
    { unfold _choose_layout_enhanced in H.
      destruct (Py.get ta "layouts" (PList [])) as [layouts|e] eqn:El;
        cbn [bind] in H; [|discriminate].
      destruct (Py.truthy layouts) eqn:Et; cbn [negb] in H.
      2:{ injection H as <-. split; [lia|].
          intros listed E Hne. injection E as ->.
          destruct listed; [contradiction | discriminate Et]. }
      destruct (Py.get sc "type" (PStr "")) as [content_type|e];
        cbn [bind] in H; [|discriminate].
      destruct (Py.get sc "content" PNone) as [content|e];
        cbn [bind] in H; [|discriminate].
      assert (Hidx : forall test r k,
                 (items <- Py.iter layouts ;; first_index test 0 items)
                 = Ok r -> r = Some k ->
                 0 <= Z.of_nat k
                 /\ (forall listed,
                       Ok layouts = Ok (PList listed) ->
                       listed <> [] ->
                       Z.of_nat k < Z.of_nat (List.length listed))).
      { intros test r k Hr ->. split; [lia|].
        intros listed E _. injection E as ->. cbn [Py.iter bind] in Hr.
        apply first_index_bound in Hr. lia. }
      assert (Hdefault : forall n,
                 Py.len layouts = Ok n ->
                 0 <= Z.min 1 (n - 1)
                 /\ (forall listed,
                       Ok layouts = Ok (PList listed) ->
                       listed <> [] ->
                       Z.min 1 (n - 1) < Z.of_nat (List.length listed))).
      { intros n Hn. pose proof (truthy_len _ _ Et Hn) as Hpos.
        split; [lia|]. intros listed E _. injection E as ->.
        cbn [Py.len] in Hn. injection Hn as <-. lia. }
      destruct (if Py.eq_str content_type "title_slide"
                then items <- Py.iter layouts ;;
                     first_index is_title_layout 0 items
                else Ok None) as [[k|]|e] eqn:E1;
        cbn [bind] in H; [| |discriminate].
      - injection H as <-.
        destruct (Py.eq_str content_type "title_slide"); [|discriminate].
        apply (Hidx _ _ _ E1 eq_refl).
      - destruct (if match content with PList _ => true | _ => false end
                  then items <- Py.iter layouts ;;
                       first_index has_content_placeholder 0 items
                  else Ok None) as [[k|]|e] eqn:E2;
          cbn [bind] in H; [| |discriminate].
        + injection H as <-.
          destruct (match content with PList _ => true | _ => false end);
            [|discriminate].
          apply (Hidx _ _ _ E2 eq_refl).
        + destruct (Py.len layouts) as [n|e] eqn:En; cbn [bind] in H;
            [|discriminate].
          injection H as <-. apply (Hdefault n eq_refl). }
    destruct Hrange as [H0 Hlt]. split; [exact H0|]. split; [exact Hlt|].
    intros layouts Hne. apply layout_at_member; assumption.
Qed.

(** The witness of X22: a bullet slide and an analysis listing two layouts,
    the second with a content placeholder. *)
Lemma legacy_layout_choice_in_range_witness :
  _choose_layout_enhanced
    (PDict [("title", PStr "Plan"); ("content", PList [PStr "one"])])
    (PDict [("layouts",
             PList [PDict [("name", PStr "Title Slide");
                           ("placeholders", PList [])];
                    PDict [("name", PStr "Title and Content");
                           ("placeholders",
                            PList [PDict [("type", PStr "CONTENT (7)")]])]])])
  = Ok 1
  /\ 0 <= 1.
Proof.
  split; [reflexivity|].
  apply (proj2 legacy_layout_choice_in_range
           (PDict [("title", PStr "Plan"); ("content", PList [PStr "one"])])
           (PDict [("layouts",
             PList [PDict [("name", PStr "Title Slide");
                           ("placeholders", PList [])];
                    PDict [("name", PStr "Title and Content");
                           ("placeholders",
                            PList [PDict [("type", PStr "CONTENT (7)")]])]])])
           1 eq_refl).
Defined.

End LegacyProps.

(** ** The progress tracker *)

Module ProgressProps.
Import Progress.

Lemma map_update_nth {A B : Type} (g : A -> B) (f : A -> A) (l : list A)
    (i : nat) :
  (forall x, g (f x) = g x) ->
  map g (Styling.update_nth i f l) = map g l.
Proof.
  intros Hg. revert i. induction l as [|x l IH]; intros [|i]; simpl;
    try reflexivity.
  - rewrite Hg. reflexivity.
  - rewrite IH. reflexivity.
Qed.

Lemma length_update_nth {A : Type} (f : A -> A) (l : list A) (i : nat) :
  List.length (Styling.update_nth i f l) = List.length l.
Proof.
  revert i. induction l as [|x l IH]; intros [|i]; simpl; try reflexivity.
  rewrite IH. reflexivity.
Qed.

Lemma nth_error_update_nth_same {A : Type} (f : A -> A) (l : list A)
    (i : nat) (x : A) :
  nth_error l i = Some x ->
  nth_error (Styling.update_nth i f l) i = Some (f x).
Proof.
  revert i. induction l as [|y l IH]; intros [|i]; simpl; try discriminate.
  - intros H. injection H as ->. reflexivity.
  - apply IH.
Qed.

Lemma in_range_spec (i : Z) (self : tracker) :
  in_range i self = true <-> 0 <= i < Z.of_nat (List.length (steps self)).
Proof. unfold in_range. rewrite andb_true_iff, Z.leb_le, Z.ltb_lt. tauto. Qed.

Lemma serve_labels (self : tracker) (r : request) :
  labels (serve self r) = (labels self ++ added [r])%list.
Proof.
  unfold labels.
  destruct r as [n d|i|i|i e]; cbn [serve added]; rewrite ?app_nil_r.
  - unfold add_step. cbn [steps]. rewrite map_app. reflexivity.
  - unfold start_step. destruct (in_range i self); [|reflexivity].
    cbn [steps]. apply map_update_nth. reflexivity.
  - unfold complete_step. destruct (in_range i self); [|reflexivity].
    cbn [steps]. apply map_update_nth. reflexivity.
  - unfold fail_step. destruct (in_range i self); [|reflexivity].
    cbn [steps]. apply map_update_nth. reflexivity.
Qed.

Lemma serve_current_ok (self : tracker) (r : request) :
  current_ok self -> current_ok (serve self r).
Proof.
  unfold current_ok. intros [H0 H1].
  destruct r as [n d|i|i|i e]; cbn [serve].
  - unfold add_step. cbn [steps current_step].
    rewrite length_app. cbn [List.length]. lia.
  - unfold start_step. destruct (in_range i self) eqn:E; [|tauto].
    apply in_range_spec in E. cbn [steps current_step].
    rewrite length_update_nth. lia.
  - unfold complete_step. destruct (in_range i self); [|tauto].
    cbn [steps current_step]. rewrite length_update_nth. tauto.
  - unfold fail_step. destruct (in_range i self); [|tauto].
    cbn [steps current_step]. rewrite length_update_nth. tauto.
Qed.

Lemma added_app (a b : list request) :
  added (a ++ b) = (added a ++ added b)%list.
Proof.
  induction a as [|[n d|i|i|i e] a IH]; cbn [app added]; try exact IH.
  - reflexivity.
  - rewrite IH. reflexivity.
Qed.

Lemma served_invariant (requests : list request) (self : tracker) :
  current_ok self ->
  labels (fold_left serve requests self)
  = (labels self ++ added requests)%list
  /\ current_ok (fold_left serve requests self).
Proof.
  revert self. induction requests as [|r requests IH]; intros self Hok;
    cbn [fold_left].
  - cbn [added]. rewrite app_nil_r. split; [reflexivity | exact Hok].
  - destruct (IH (serve self r) (serve_current_ok self r Hok)) as [Hl Hc].
    split; [|exact Hc].
    rewrite Hl, serve_labels, <- app_assoc.
    change (r :: requests) with ([r] ++ requests)%list.
    rewrite added_app. reflexivity.
Qed.

(** X23: a tracker serving any sequence of calls, with any indices.  Its
    steps are the steps that were added, in the order of the calls, with
    the names and descriptions given: starting, completing and failing a
    step never add, drop or rename one.  The current step is never
    negative and, once it has moved, is the index of an existing step.  The
    status it reports counts the added steps, gives the integer 0 as the
    progress when nothing was added, and else a ratio whose numerator, the
    number of completed steps, lies between 0 and the number of steps. *)
Theorem tracker_keeps_added_steps (requests : list request) :
  let self := fold_left serve requests init in
  map (fun st => (name st, description st)) (steps self) = added requests
  /\ 0 <= current_step self
  /\ (current_step self = 0
      \/ current_step self < Z.of_nat (List.length (steps self)))
  /\ total_steps (get_status self) = Z.of_nat (List.length (added requests))
  /\ report_current_step (get_status self) = current_step self + 1
  /\ match progress_percentage (get_status self) with
     | Zero => added requests = []
     | Percent completed total =>
         0 <= completed <= total
         /\ total = Z.of_nat (List.length (added requests))
         /\ 0 < total
     end.
Proof.
  intros self.
  assert (Hinit : current_ok init) by (unfold current_ok, init; simpl; lia).
  destruct (served_invariant requests init Hinit) as [Hl [H0 H1]].
  fold self in Hl, H0, H1. unfold labels in Hl. cbn [init steps map app] in Hl.
  assert (Hlen : List.length (steps self) = List.length (added requests)).
  { rewrite <- Hl, length_map. reflexivity. }
  split; [exact Hl|]. split; [exact H0|]. split; [exact H1|].
  unfold get_status. cbn [total_steps report_current_step progress_percentage].
  split; [rewrite Hlen; reflexivity|]. split; [reflexivity|].
  destruct (Z.ltb_spec 0 (Z.of_nat (List.length (steps self)))) as [Hpos|Hz].
  - pose proof (filter_length_le is_completed (steps self)) as Hle.
    rewrite <- Hlen. lia.
  - destruct (added requests); [reflexivity|]. simpl in Hlen. lia.
Qed.

(** X24: the error of a step outlives its completion.  For an index of an
    existing step, failing the step and then starting or completing it
    leaves a step that is in progress or completed and still carries the
    error message of the failure; starting and completing never change
    the error of any step.  A call with an index that is negative or past
    the last step changes nothing. *)
Theorem step_error_outlives_completion (self : tracker) (i : Z)
    (message : pyval) (st : step) :
  nth_error (steps self) (Z.to_nat i) = Some st -> 0 <= i ->
  nth_error (steps (complete_step i (fail_step i message self))) (Z.to_nat i)
  = Some {| name := name st; description := description st;
            status := COMPLETED; error := message |}
  /\ nth_error (steps (start_step i (fail_step i message self))) (Z.to_nat i)
     = Some {| name := name st; description := description st;
               status := IN_PROGRESS; error := message |}
  /\ (forall j other,
        map error (steps (start_step j other)) = map error (steps other)
        /\ map error (steps (complete_step j other)) = map error (steps other))
  /\ (forall j other,
        (j < 0 \/ Z.of_nat (List.length (steps other)) <= j) ->
        start_step j other = other
        /\ complete_step j other = other
        /\ fail_step j message other = other).
Proof.
  intros Hst Hi.
  assert (Hin : in_range i self = true).
  { apply in_range_spec. split; [exact Hi|].
    assert (Z.to_nat i < List.length (steps self))%nat
      by (apply nth_error_Some; rewrite Hst; discriminate).
    lia. }
  assert (Hfailed : nth_error (steps (fail_step i message self)) (Z.to_nat i)
                    = Some (with_failure message st)).
  { unfold fail_step. rewrite Hin. cbn [steps].
    apply nth_error_update_nth_same. exact Hst. }
  assert (Hin' : in_range i (fail_step i message self) = true).
  { unfold fail_step. rewrite Hin. unfold in_range. cbn [steps].
    rewrite length_update_nth. exact Hin. }
  split.
  { unfold complete_step. rewrite Hin'. cbn [steps].
    rewrite (nth_error_update_nth_same _ _ _ _ Hfailed). reflexivity. }
  split.
  { unfold start_step. rewrite Hin'. cbn [steps].
    rewrite (nth_error_update_nth_same _ _ _ _ Hfailed). reflexivity. }
  split.
  { intros j other. unfold start_step, complete_step.
    destruct (in_range j other); cbn [steps];
      [|split; reflexivity].
    split; apply map_update_nth; reflexivity. }
  intros j other Hout.
  assert (E : in_range j other = false).
  { destruct (in_range j other) eqn:E; [|reflexivity].
    apply in_range_spec in E. lia. }
  unfold start_step, complete_step, fail_step. rewrite E.
  repeat split.
Qed.

(** The witness of X24: two steps, the second failing and then completing. *)
Lemma step_error_outlives_completion_witness :
  nth_error
    (steps (complete_step 1
              (fail_step 1 (PStr "timeout")
                 (add_step (PStr "build") (PStr "Build the deck")
                    (add_step (PStr "parse") (PStr "Parse the text") init)))))
    1
  = Some {| name := PStr "build"; description := PStr "Build the deck";
            status := COMPLETED; error := PStr "timeout" |}.
Proof.
  apply (proj1 (step_error_outlives_completion
                  (add_step (PStr "build") (PStr "Build the deck")
                     (add_step (PStr "parse") (PStr "Parse the text") init))
                  1 (PStr "timeout")
                  {| name := PStr "build"; description := PStr "Build the deck";
                     status := PENDING; error := PNone |}
                  eq_refl ltac:(lia))).
Defined.

End ProgressProps.
